(** * avaread: reading Avantes AvaSoft files

    A shallow embedding of [avaread/AvaTypes.py] and [avaread/reader.py].

    Conventions of the embedding:
    - a Python [int] is a [Z]; a [bytes] object is a [list byte];
      a [str] is the list of its code points;
    - a ctypes [Structure] instance is its byte buffer, fields are read at
      the offsets that 1-byte packing gives them, little-endian;
    - an IEEE-754 number is kept as its bit pattern (a [Z]); the floating
      point subtraction of numpy is a parameter of the definitions using it;
      the quotient of two integers is kept exactly, as a [Q];
    - a call that may raise returns a [result]; exceptions are identified by
      their class (messages are not modelled);
    - an open binary file is a [BufferedReader]: the content and a position. *)

From Stdlib Require Import ZArith List String Ascii Bool Lia QArith.
From Stdlib Require Import Strings.Byte.
Import ListNotations.

Local Open Scope Z_scope.
Set Warnings "-register-all".

(* ================================================================== *)
(** * The Python runtime, as far as the reader uses it *)
(* ================================================================== *)

Module Py.

(** The exception classes the reader can raise, with Python's hierarchy.
    [AvaReadException] is the class declared in reader.py, line 19. *)
Inductive exn : Type :=
| BaseException
| Exception
| ValueError
| UnicodeDecodeError
| AttributeError
| LookupError
| IndexError
| KeyError
| ArithmeticError
| OverflowError
| OSError
| FileNotFoundError
| struct_error
| StopIteration
| AvaReadException.

Definition exn_eqb (a b : exn) : bool :=
  match a, b with
  | BaseException, BaseException | Exception, Exception
  | ValueError, ValueError | UnicodeDecodeError, UnicodeDecodeError
  | AttributeError, AttributeError | LookupError, LookupError
  | IndexError, IndexError | KeyError, KeyError | OSError, OSError
  | ArithmeticError, ArithmeticError | OverflowError, OverflowError
  | FileNotFoundError, FileNotFoundError | struct_error, struct_error
  | StopIteration, StopIteration
  | AvaReadException, AvaReadException => true
  | _, _ => false
  end.

(** The direct base class ([__bases__[0]]); [BaseException] is the root.
    [class AvaReadException(BaseException)] is what reader.py declares. *)
Definition base (e : exn) : option exn :=
  match e with
  | BaseException => None
  | Exception => Some BaseException
  | ValueError => Some Exception
  | UnicodeDecodeError => Some ValueError
  | AttributeError => Some Exception
  | LookupError => Some Exception
  | IndexError => Some LookupError
  | KeyError => Some LookupError
  | ArithmeticError => Some Exception
  | OverflowError => Some ArithmeticError
  | OSError => Some Exception
  | FileNotFoundError => Some OSError
  | struct_error => Some Exception
  | StopIteration => Some Exception
  | AvaReadException => Some BaseException
  end.

(** [issubclass e c]: walk the chain of bases (at most four links). *)
Fixpoint issubclass_fuel (fuel : nat) (e c : exn) : bool :=
  exn_eqb e c ||
  match fuel with
  | O => false
  | S k => match base e with
           | Some b => issubclass_fuel k b c
           | None => false
           end
  end.

Definition issubclass (e c : exn) : bool := issubclass_fuel 4 e c.

(** The outcome of a call: a value, or a raised exception. *)
Inductive result (A : Type) : Type :=
| Ok (a : A)
| Raise (e : exn).
Arguments Ok {A} a.
Arguments Raise {A} e.

Definition bind {A B} (r : result A) (k : A -> result B) : result B :=
  match r with
  | Ok a => k a
  | Raise e => Raise e
  end.

Definition fmap {A B} (f : A -> B) (r : result A) : result B :=
  match r with
  | Ok a => Ok (f a)
  | Raise e => Raise e
  end.

(** [try: body  except cls: handler]. *)
Definition try_except {A} (body : result A) (cls : exn) (handler : result A)
  : result A :=
  match body with
  | Ok a => Ok a
  | Raise e => if issubclass e cls then handler else Raise e
  end.

(** [xs[a:b]] for non-negative bounds: both are clamped to the length. *)
Definition slice {A} (a b : Z) (xs : list A) : list A :=
  skipn (Z.to_nat a) (firstn (Z.to_nat b) xs).

(** [len(obj)] on top of a user [__len__]: a negative answer is refused. *)
Definition len_of (r : result Z) : result Z :=
  bind r (fun n => if n <? 0 then Raise ValueError else Ok n).

Definition zlength {A} (xs : list A) : Z := Z.of_nat (List.length xs).

(** A list comprehension whose item expression may raise. *)
Fixpoint mapM {A B} (f : A -> result B) (xs : list A) : result (list B) :=
  match xs with
  | [] => Ok []
  | x :: r =>
      bind (f x) (fun y => bind (mapM f r) (fun ys => Ok (y :: ys)))
  end.

(** [for i in range(n): body], threading the state the body updates. *)
Fixpoint for_range {S} (start : nat) (n : nat)
  (body : nat -> S -> result S) (s : S) : result S :=
  match n with
  | O => Ok s
  | S k => bind (body start s) (for_range (Datatypes.S start) k body)
  end.

End Py.

Import Py.

Notation "x <- c1 ;; c2" := (Py.bind c1 (fun x => c2))
  (at level 61, c1 at next level, right associativity).

Definition byte_val (b : byte) : Z := Z.of_N (Byte.to_N b).
Arguments byte_val : simpl never.

(** Little-endian unsigned value of a run of bytes. *)
Fixpoint le_uint (bs : list byte) : Z :=
  match bs with
  | [] => 0
  | b :: r => byte_val b + 256 * le_uint r
  end.

(** Two's complement reading of the same bytes. *)
Definition le_int (bs : list byte) : Z :=
  let w := 8 * zlength bs in
  let u := le_uint bs in
  if Z.testbit u (w - 1) then u - 2 ^ w else u.

(* ================================================================== *)
(** * datetime.datetime (the constructor's validation) *)
(* ================================================================== *)

Module datetime.

Record t : Type := mk {
  year : Z; month : Z; day : Z; hour : Z; minute : Z
}.

Definition MINYEAR : Z := 1.
Definition MAXYEAR : Z := 9999.

Definition is_leap (y : Z) : bool :=
  (y mod 4 =? 0) && (negb (y mod 100 =? 0) || (y mod 400 =? 0)).

Definition days_in_month (y m : Z) : Z :=
  if m =? 2 then (if is_leap y then 29 else 28)
  else if (m =? 4) || (m =? 6) || (m =? 9) || (m =? 11) then 30
  else 31.

(** The arguments are converted to C [int]s first. *)
Definition fits_c_int (x : Z) : bool := (- 2 ^ 31 <=? x) && (x <? 2 ^ 31).

(** [datetime(year=, month=, day=, hour=, minute=)]: an argument that does
    not fit a C [int] raises [OverflowError]; then every field is checked, a
    field out of range raises [ValueError]. *)
Definition make (y m d h mi : Z) : result t :=
  if negb (fits_c_int y && fits_c_int m && fits_c_int d && fits_c_int h
           && fits_c_int mi)
  then Raise OverflowError
  else if negb ((MINYEAR <=? y) && (y <=? MAXYEAR)) then Raise ValueError
  else if negb ((1 <=? m) && (m <=? 12)) then Raise ValueError
  else if negb ((1 <=? d) && (d <=? days_in_month y m)) then Raise ValueError
  else if negb ((0 <=? h) && (h <=? 23)) then Raise ValueError
  else if negb ((0 <=? mi) && (mi <=? 59)) then Raise ValueError
  else Ok (mk y m d h mi).

End datetime.

(* ================================================================== *)
(** * reader.py: the timestamp decoder *)
(* ================================================================== *)

(** [_extract_datetime], reader.py lines 23-30. *)
Definition _extract_datetime (timestamp : Z) : result datetime.t :=
  let year := Z.shiftr timestamp 20 in
  let month := (Z.shiftr timestamp 16) mod 16 in
  let day := (Z.shiftr timestamp 11) mod 32 in
  let hour := (Z.shiftr timestamp 6) mod 32 in
  let minute := timestamp mod 64 in
  datetime.make year month day hour minute.

(** The packing is not in the sources.  This definition follows the layout
    the specification documents: minute in bits 0-5, hour in bits 6-10, day
    in bits 11-15, month in bits 16-19, year from bit 20 up. *)
Definition pack_timestamp_spec (y m d h mi : Z) : Z :=
  Z.lor (Z.shiftl y 20)
    (Z.lor (Z.shiftl m 16)
       (Z.lor (Z.shiftl d 11)
          (Z.lor (Z.shiftl h 6) mi))).

(* ================================================================== *)
(** * ctypes: declared layouts and field access *)
(* ================================================================== *)

Module ctypes.

(** An [IntEnum] class: its name and its members. *)
Record IntEnum : Type := mkEnum {
  enum_name : string;
  enum_members : list (string * Z)
}.

(** The C types that AvaTypes.py uses.  A [Structure] carries its class name,
    its [_fields_] in declaration order and its [_map]. *)
Inductive ctype : Type :=
| c_char
| c_byte
| c_ubyte
| c_uint16
| c_uint32
| c_float
| c_double
| c_long
| Array (elem : ctype) (n : nat)
| Structure (name : string) (_fields_ : list (string * ctype))
            (_map : list (string * IntEnum)).

(** The platform decides the width of a C [long]: 4 bytes on Windows and on
    32-bit systems, 8 bytes on 64-bit Linux and macOS. *)
Record platform : Type := mkPlatform {
  sizeof_c_long : Z
}.

Definition LLP64 : platform := mkPlatform 4.
Definition LP64 : platform := mkPlatform 8.

(** [ctypes.sizeof] under [_pack_ = 1]: no padding between fields. *)
Fixpoint sizeof_on (p : platform) (t : ctype) : Z :=
  match t with
  | c_char | c_byte | c_ubyte => 1
  | c_uint16 => 2
  | c_uint32 | c_float => 4
  | c_double => 8
  | c_long => sizeof_c_long p
  | Array e n => Z.of_nat n * sizeof_on p e
  | Structure _ fs _ =>
      (fix total (l : list (string * ctype)) : Z :=
         match l with
         | [] => 0
         | (_, ft) :: r => sizeof_on p ft + total r
         end) fs
  end.

(** No structure of AvaTypes.py holds a [long]; their sizes are the same on
    every platform. *)
Definition sizeof (t : ctype) : Z := sizeof_on LLP64 t.

(** The first field called [name], with the offset packing gives it. *)
Fixpoint find_field (name : string) (off : Z) (fs : list (string * ctype))
  : option (Z * ctype) :=
  match fs with
  | [] => None
  | (f, t) :: r =>
      if String.eqb f name then Some (off, t)
      else find_field name (off + sizeof t) r
  end.

Definition field_names (fs : list (string * ctype)) : list string :=
  map fst fs.

Definition fields_of (t : ctype) : list (string * ctype) :=
  match t with
  | Structure _ fs _ => fs
  | _ => []
  end.

Definition map_of (t : ctype) : list (string * IntEnum) :=
  match t with
  | Structure _ _ m => m
  | _ => []
  end.

(** An instance: the declared type and the bytes behind it. *)
Record instance : Type := mkInstance {
  ctype_of : ctype;
  buffer : list byte
}.

(** A fresh instance is zero-filled. *)
Definition new (t : ctype) : instance :=
  mkInstance t (repeat x00 (Z.to_nat (sizeof t))).

(** The [size] bytes at [off], as far as the buffer holds them. *)
Definition field_bytes (off size : Z) (buf : list byte) : list byte :=
  firstn (Z.to_nat size) (skipn (Z.to_nat off) buf).

(** A [c_char] array read as a field stops at the first NUL. *)
Fixpoint until_nul (bs : list byte) : list byte :=
  match bs with
  | [] => []
  | b :: r => if Byte.eqb b x00 then [] else b :: until_nul r
  end.

(** What [getattr(struct, name)] hands back for a field of type [t] whose
    bytes are [bs]. *)
Inductive cvalue : Type :=
| CInt (n : Z)
| CFloat (bits : Z)
| CBytes (bs : list byte)
| CArray (elem : ctype) (items : list (list byte))
| CStruct (s : instance).

(** Cut [bs] into items of [size] bytes ([n] of them). *)
Fixpoint chunks (n : nat) (size : Z) (bs : list byte) : list (list byte) :=
  match n with
  | O => []
  | S k => firstn (Z.to_nat size) bs
           :: chunks k size (skipn (Z.to_nat size) bs)
  end.

Definition read_field (t : ctype) (bs : list byte) : cvalue :=
  match t with
  | c_char => CBytes bs
  | c_byte | c_long => CInt (le_int bs)
  | c_ubyte | c_uint16 | c_uint32 => CInt (le_uint bs)
  | c_float | c_double => CFloat (le_uint bs)
  | Array c_char _ => CBytes (until_nul bs)
  | Array e n => CArray e (chunks n (sizeof e) bs)
  | Structure _ _ _ => CStruct (mkInstance t bs)
  end.

(** [getattr(struct, name)] for a declared field. *)
Definition get_field (s : instance) (name : string) : option (ctype * cvalue) :=
  match find_field name 0 (fields_of (ctype_of s)) with
  | Some (off, t) =>
      Some (t, read_field t (field_bytes off (sizeof t) (buffer s)))
  | None => None
  end.

End ctypes.

Import ctypes.
Local Open Scope string_scope.

(* ================================================================== *)
(** * AvaTypes.py *)
(* ================================================================== *)

Module AvaTypes.

Definition AVS_SERIAL_LEN : nat := 10.
Definition USER_ID_LEN : nat := 64.

Definition DeviceStatus : IntEnum :=
  mkEnum "DeviceStatus"
    [("UNKNOWN", 0); ("USB_AVAILABLE", 1); ("USB_IN_USE_BY_APPLICATION", 2);
     ("USB_IN_USE_BY_OTHER", 3); ("ETH_AVAILABLE", 4);
     ("ETH_IN_USE_BY_APPLICATION", 5); ("ETH_IN_USE_BY_OTHER", 6);
     ("ETH_ALREADY_IN_USE_USB", 7)].

Definition MeasurementEnum : IntEnum :=
  mkEnum "MeasurementEnum"
    [("Scope", 0); ("ScopeDarkCorrected", 1); ("Absorbance", 2);
     ("Transmission", 3); ("Reflectance", 4); ("Irradiance", 5);
     ("RelativeIrradiance", 6); ("Temperature", 7)].

Definition TrigMode : IntEnum := mkEnum "TrigMode" [("SW", 0); ("HW", 1)].

Definition TrigSource : IntEnum :=
  mkEnum "TrigSource" [("SINGLE", 2); ("EXT", 0); ("SYNC", 1)].

Definition TrigKind : IntEnum := mkEnum "TrigKind" [("EDGE", 0); ("LEVEL", 1)].

Definition AvsIdentityStruct : ctype :=
  Structure "AvsIdentityStruct"
    [("SerialNumber", Array c_char AVS_SERIAL_LEN);
     ("UserFriendlyName", Array c_char USER_ID_LEN);
     ("Status", c_ubyte)]
    [("Status", DeviceStatus)].

Definition DarkCorrectionStruct : ctype :=
  Structure "DarkCorrectionStruct"
    [("Enable", c_ubyte); ("ForgetPercentage", c_ubyte)] [].

Definition SmoothingStruct : ctype :=
  Structure "SmoothingStruct"
    [("SmoothPix", c_uint16); ("SmoothModel", c_ubyte)] [].

Definition TriggerStruct : ctype :=
  Structure "TriggerStruct"
    [("Mode", c_ubyte); ("Source", c_ubyte); ("SourceType", c_ubyte)]
    [("Mode", TrigMode); ("Source", TrigSource); ("SourceType", TrigKind)].

Definition ControlSettingsStruct : ctype :=
  Structure "ControlSettingsStruct"
    [("StrobeControl", c_uint16); ("LaserDelay", c_uint32);
     ("LaserWidth", c_uint32); ("LaserWaveLength", c_float);
     ("StoreToRam", c_uint16)] [].

Definition MeasConfigStruct : ctype :=
  Structure "MeasConfigStruct"
    [("StartPixel", c_uint16); ("StopPixel", c_uint16);
     ("IntegrationTime", c_float); ("IntegrationDelay", c_uint32);
     ("NrAverages", c_uint32); ("CorDynDark", DarkCorrectionStruct);
     ("Smoothing", SmoothingStruct); ("SaturationDetection", c_ubyte);
     ("Trigger", TriggerStruct); ("Control", ControlSettingsStruct)] [].

Definition MiscInfoStruct : ctype :=
  Structure "MiscInfoStruct"
    [("file_datetime", c_uint32); ("detectorTemp", c_float);
     ("boardTemp", c_float); ("skip_float", c_float);
     ("ColorTemperature", c_float); ("CalIntTime", c_float)] [].

Definition AVSPreamble : ctype :=
  Structure "AVSPreamble"
    [("FileType", Array c_char 3); ("Version", Array c_char 2);
     ("channels", c_ubyte)] [].

Definition AVSInfoBlock : ctype :=
  Structure "AVSInfoBlock"
    [("blockLength", c_uint16); ("Unused1", Array c_byte 2);
     ("channelIndex", c_byte); ("measurementEnum", c_ubyte);
     ("Unused2", Array c_byte 2); ("ID", AvsIdentityStruct);
     ("Measurement", MeasConfigStruct); ("timestamp", c_uint32);
     ("Misc", MiscInfoStruct); ("aFit", Array c_double 5);
     ("comment", Array c_char 130)]
    [("measurementEnum", MeasurementEnum)].

Definition STRPreamble : ctype :=
  Structure "STRPreamble"
    [("FileType", Array c_char 3); ("Version", Array c_char 2);
     ("frames", c_uint16)] [].

Definition STRInfoBlock : ctype :=
  Structure "STRInfoBlock"
    [("Unused", Array c_byte 5); ("ID", AvsIdentityStruct);
     ("Measurement", MeasConfigStruct); ("Unused1", Array c_byte 7);
     ("Misc", MiscInfoStruct); ("Unused2", Array c_byte 47);
     ("comment", Array c_char 130)] [].

End AvaTypes.

Import AvaTypes.
Local Open Scope list_scope.
Local Open Scope Z_scope.

(* ================================================================== *)
(** * str and bytes built-ins *)
(* ================================================================== *)

Module builtins.

(** A [str]: its code points. *)
Definition str : Type := list Z.

Definition str_of (s : string) : str := map byte_val (list_byte_of_string s).

Fixpoint str_eqb (a b : str) : bool :=
  match a, b with
  | [], [] => true
  | x :: a', y :: b' => (x =? y) && str_eqb a' b'
  | _, _ => false
  end.

Definition bytes_eqb (a b : list byte) : bool :=
  str_eqb (map byte_val a) (map byte_val b).

(** One step of the UTF-8 decoder on the bytes still to read. *)
Inductive utf8_step_result : Type :=
| Decoded (cp : Z) (used : nat)
| Invalid (width : nat)
| Truncated.

Definition is_continuation (b : Z) : bool := (128 <=? b) && (b <=? 191).

Definition utf8_step (bs : list Z) : utf8_step_result :=
  match bs with
  | [] => Truncated
  | b0 :: r =>
    if b0 <? 128 then Decoded b0 1
    else if b0 <? 194 then Invalid 1
    else if b0 <? 224 then
      match r with
      | [] => Truncated
      | b1 :: _ =>
        if is_continuation b1 then Decoded ((b0 - 192) * 64 + (b1 - 128)) 2
        else Invalid 1
      end
    else if b0 <? 240 then
      match r with
      | [] => Truncated
      | b1 :: r1 =>
        if negb (is_continuation b1)
           || (if b1 <? 160 then b0 =? 224 else b0 =? 237)
        then Invalid 1
        else match r1 with
             | [] => Truncated
             | b2 :: _ =>
               if is_continuation b2
               then Decoded ((b0 - 224) * 4096 + (b1 - 128) * 64 + (b2 - 128)) 3
               else Invalid 2
             end
      end
    else if b0 <? 245 then
      match r with
      | [] => Truncated
      | b1 :: r1 =>
        if negb (is_continuation b1)
           || (if b1 <? 144 then b0 =? 240 else b0 =? 244)
        then Invalid 1
        else match r1 with
             | [] => Truncated
             | b2 :: r2 =>
               if negb (is_continuation b2) then Invalid 2
               else match r2 with
                    | [] => Truncated
                    | b3 :: _ =>
                      if is_continuation b3
                      then Decoded ((b0 - 240) * 262144 + (b1 - 128) * 4096
                                    + (b2 - 128) * 64 + (b3 - 128)) 4
                      else Invalid 3
                    end
             end
      end
    else Invalid 1
  end.

(** The decoder's pass over the input: a code point for every well-formed
    sequence, [None] where the error handler is called.  After an ill-formed
    sequence decoding resumes behind it; a truncated tail ends the input. *)
Fixpoint utf8_scan (fuel : nat) (bs : list Z) : list (option Z) :=
  match fuel, bs with
  | O, _ | _, [] => []
  | S k, _ =>
    match utf8_step bs with
    | Decoded cp n => Some cp :: utf8_scan k (skipn n bs)
    | Invalid n => None :: utf8_scan k (skipn n bs)
    | Truncated => [None]
    end
  end.

Definition utf8_events (bs : list byte) : list (option Z) :=
  utf8_scan (List.length bs) (map byte_val bs).

Fixpoint somes {A} (l : list (option A)) : list A :=
  match l with
  | [] => []
  | Some a :: r => a :: somes r
  | None :: r => somes r
  end.

(** [bs.decode()]: strict, the first error raises. *)
Definition decode (bs : list byte) : result str :=
  let ev := utf8_events bs in
  if forallb (fun e => match e with Some _ => true | None => false end) ev
  then Ok (somes ev) else Raise UnicodeDecodeError.

(** [bs.decode("utf-8", errors="ignore")]: ill-formed bytes are dropped. *)
Definition decode_ignore (bs : list byte) : str := somes (utf8_events bs).

(** [s.upper()].  Only the ASCII letters are mapped: within three bytes no
    text outside ASCII upper-cases to ["AVS"] or ["STR"], the only strings
    the result is compared with. *)
Definition upper (s : str) : str :=
  map (fun c => if (97 <=? c) && (c <=? 122) then c - 32 else c) s.

(** [int(bs)] for a bytes object: ASCII white space around, an optional
    sign, decimal digits with single underscores between them. *)
Definition is_space (b : Z) : bool := (b =? 32) || ((9 <=? b) && (b <=? 13)).
Definition is_digit (b : Z) : bool := (48 <=? b) && (b <=? 57).

Fixpoint lstrip (bs : list Z) : list Z :=
  match bs with
  | b :: r => if is_space b then lstrip r else bs
  | [] => []
  end.

Fixpoint scan_digits (bs : list Z) (prev_underscore : bool) (acc : Z)
  (digits : nat) : option (Z * nat * list Z) :=
  match bs with
  | [] => if prev_underscore then None else Some (acc, digits, [])
  | b :: r =>
    if is_digit b then scan_digits r false (10 * acc + (b - 48)) (S digits)
    else if b =? 95 then
      (if prev_underscore then None else scan_digits r true acc digits)
    else if prev_underscore then None else Some (acc, digits, bs)
  end.

Definition int (bs : list byte) : result Z :=
  let s := lstrip (map byte_val bs) in
  let '(sign, s1) := match s with
                     | 43 :: r => (1, r)
                     | 45 :: r => (-1, r)
                     | _ => (1, s)
                     end in
  match s1 with
  | 95 :: _ => Raise ValueError
  | _ =>
    match scan_digits s1 false 0 0 with
    | Some (v, S _, rest) =>
        match lstrip rest with
        | [] => Ok (sign * v)
        | _ => Raise ValueError
        end
    | _ => Raise ValueError
    end
  end.

(** [xs.index(x)]: the first position holding [x]. *)
Fixpoint index {A} (eqb : A -> A -> bool) (x : A) (xs : list A) : option nat :=
  match xs with
  | [] => None
  | y :: r => if eqb y x then Some O
              else option_map S (index eqb x r)
  end.

(** [xs[i]] on a list: negative positions count from the end. *)
Definition list_getitem {A} (xs : list A) (i : Z) : result A :=
  let n := zlength xs in
  let j := if i <? 0 then i + n else i in
  if (j <? 0) || (n <=? j) then Raise IndexError
  else match nth_error xs (Z.to_nat j) with
       | Some a => Ok a
       | None => Raise IndexError
       end.

End builtins.

(* ================================================================== *)
(** * io.BufferedReader, struct.unpack and numpy.fromfile *)
(* ================================================================== *)

Module io.

Record BufferedReader : Type := mkReader {
  content : list byte;
  pos : Z
}.

Definition open (bs : list byte) : BufferedReader := mkReader bs 0.

Definition tell (fo : BufferedReader) : Z := pos fo.

Definition remaining (fo : BufferedReader) : list byte :=
  skipn (Z.to_nat (pos fo)) (content fo).

(** [fo.read(n)]: up to [n] bytes, fewer at the end of the file. *)
Definition read (n : Z) (fo : BufferedReader) : list byte * BufferedReader :=
  let got := firstn (Z.to_nat n) (remaining fo) in
  (got, mkReader (content fo) (pos fo + zlength got)).

(** [fo.readinto(struct)]: the bytes read overwrite the start of the
    structure's buffer; what a short read leaves untouched keeps its value. *)
Definition readinto (s : instance) (fo : BufferedReader)
  : instance * BufferedReader :=
  let size := zlength (buffer s) in
  let '(got, fo') := read size fo in
  (mkInstance (ctype_of s) (got ++ skipn (List.length got) (buffer s)), fo').

(** [fo.seek(p)]: any non-negative position is accepted. *)
Definition seek (p : Z) (fo : BufferedReader) : result BufferedReader :=
  if p <? 0 then Raise OSError else Ok (mkReader (content fo) p).

(** [fo.seek(d, os.SEEK_CUR)]. *)
Definition seek_cur (d : Z) (fo : BufferedReader) : result BufferedReader :=
  seek (pos fo + d) fo.

End io.

Module np.

(** [np.fromfile(fo, dtype, count)] with items of [itemsize] bytes: the
    complete items among the next [count * itemsize] bytes, as bit patterns.
    A negative count reads the items the rest of the file holds.  A short
    read is not an error. *)
Definition fromfile (itemsize count : Z) (fo : io.BufferedReader)
  : list Z * io.BufferedReader :=
  let avail := zlength (io.remaining fo) in
  let want := if count <? 0 then (avail / itemsize) * itemsize
              else count * itemsize in
  let '(got, fo') := io.read want fo in
  let n := zlength got / itemsize in
  (map le_uint (chunks (Z.to_nat n) itemsize got), fo').

(** A two-dimensional array: its shape and its rows.  The items are bit
    patterns of floats. *)
Record ndarray2 : Type := mkArray2 {
  shape : Z * Z;
  rows : list (list Z)
}.

(** [np.zeros((n, m))]; a negative dimension is refused. *)
Definition zeros2 (n m : Z) : result ndarray2 :=
  if (n <? 0) || (m <? 0) then Raise ValueError
  else Ok (mkArray2 (n, m) (repeat (repeat 0 (Z.to_nat m)) (Z.to_nat n))).

(** [flat.reshape(4, -1).T]: four planes of equal length become the four
    columns.  The length must be a multiple of four. *)
Definition reshape4_T (flat : list Z) : result ndarray2 :=
  let size := zlength flat in
  if negb (size mod 4 =? 0) then Raise ValueError
  else
    let n := Z.to_nat (size / 4) in
    let planes := map (fun k => firstn n (skipn (k * n) flat)) (seq 0 4) in
    Ok (mkArray2 (size / 4, 4)
          (map (fun r => map (fun pl => nth r pl 0) planes) (seq 0 n))).

(** Positions along an axis of extent [n]: negative ones wrap once.  A
    position outside the axis is refused: with [OverflowError] when it does
    not fit the signed 64-bit index of numpy but fits the unsigned one (no
    axis is that long), with [IndexError] otherwise. *)
Definition normalize_index (i n : Z) : result nat :=
  let j := if i <? 0 then i + n else i in
  if (j <? 0) || (n <=? j) then
    if (2 ^ 63 <=? i) && (i <? 2 ^ 64) then Raise OverflowError
    else Raise IndexError
  else Ok (Z.to_nat j).

(** [a[:, i]]. *)
Definition column (a : ndarray2) (i : Z) : result (list Z) :=
  j <- normalize_index i (snd (shape a)) ;;
  Ok (map (fun row => nth j row 0) (rows a)).

(** [a[lo:hi, :]] for non-negative bounds. *)
Definition row_slice (lo hi : Z) (a : ndarray2) : ndarray2 :=
  let rs := slice lo hi (rows a) in
  mkArray2 (zlength rs, snd (shape a)) rs.

Fixpoint list_set {A} (i : nat) (v : A) (l : list A) : list A :=
  match l, i with
  | [], _ => []
  | _ :: r, O => v :: r
  | x :: r, S k => x :: list_set k v r
  end.

Fixpoint zip_with {A B C} (f : A -> B -> C) (l : list A) (l' : list B)
  : list C :=
  match l, l' with
  | x :: r, y :: r' => f x y :: zip_with f r r'
  | _, _ => []
  end.

(** [a[:, i] = v]: [v] has one item per row, or a single item that is
    repeated; any other length cannot be broadcast. *)
Definition set_column (a : ndarray2) (i : nat) (v : list Z) : result ndarray2 :=
  let n := fst (shape a) in
  let k := zlength v in
  if k =? n then
    Ok (mkArray2 (shape a) (zip_with (fun row x => list_set i x row) (rows a) v))
  else if k =? 1 then
    Ok (mkArray2 (shape a) (map (list_set i (hd 0 v)) (rows a)))
  else Raise ValueError.

(** The invariant of an array: the rows agree with the shape. *)
Definition well_shaped (a : ndarray2) : Prop :=
  zlength (rows a) = fst (shape a)
  /\ Forall (fun row => zlength row = snd (shape a)) (rows a).

Section Arithmetic.

(** The subtraction of two floats (on bit patterns). *)
Variable fsub : Z -> Z -> Z.

(** [a - b] for one-dimensional arrays, with broadcasting. *)
Definition sub1 (a b : list Z) : result (list Z) :=
  if zlength a =? zlength b then Ok (zip_with fsub a b)
  else if zlength b =? 1 then Ok (map (fun x => fsub x (hd 0 b)) a)
  else if zlength a =? 1 then Ok (map (fun y => fsub (hd 0 a) y) b)
  else Raise ValueError.

(** [a - b] for a two-dimensional [a] and a one-dimensional [b]: [b] is
    aligned with the LAST axis of [a], that is with its columns. *)
Definition sub2_1 (a : ndarray2) (b : list Z) : result ndarray2 :=
  let '(n, m) := shape a in
  let k := zlength b in
  if m =? k then
    Ok (mkArray2 (n, m) (map (fun row => zip_with fsub row b) (rows a)))
  else if k =? 1 then
    Ok (mkArray2 (n, m) (map (map (fun x => fsub x (hd 0 b))) (rows a)))
  else if m =? 1 then
    Ok (mkArray2 (n, k)
          (map (fun row => map (fun y => fsub (hd 0 row) y) b) (rows a)))
  else Raise ValueError.

End Arithmetic.

End np.

(* ================================================================== *)
(** * reader.py: StructMapping *)
(* ================================================================== *)

(** [StructMapping.__init__] keeps the class name, the field names and a
    reference to the structure. *)
Record StructMapping : Type := mkMapping {
  _name : string;
  fields : list string;
  struct : instance
}.

Definition StructMapping___init__ (s : instance) : StructMapping :=
  mkMapping
    (match ctype_of s with Structure n _ _ => n | _ => "" end)
    (field_names (fields_of (ctype_of s)))
    s.

(** The Python values an attribute of a mapping can have: those of the
    mapped fields, and those of the attributes the mapping has as a Python
    object (the list of field names, the structure itself, a bound method,
    an attribute that every object has). *)
Inductive pyvalue : Type :=
| PyInt (n : Z)
| PyFloat (bits : Z)
| PyBytes (bs : list byte)
| PyStr (s : builtins.str)
| PyEnum (cls : IntEnum) (v : Z)
| PyArray (items : list Z)
| PyDatetime (d : datetime.t)
| PyMapping (m : StructMapping)
| PyStrList (items : list builtins.str)
| PyStruct (s : instance)
| PyMethod (self : StructMapping) (name : string)
| PyObjectAttr (name : string).

(** [cls(value)] for an [IntEnum]: the member with that value, or
    [ValueError]. *)
Definition IntEnum_call (cls : IntEnum) (v : Z) : result pyvalue :=
  if existsb (fun m => snd m =? v) (enum_members cls)
  then Ok (PyEnum cls v) else Raise ValueError.

Fixpoint assoc {B} (name : string) (l : list (string * B)) : option B :=
  match l with
  | [] => None
  | (k, v) :: r => if String.eqb k name then Some v else assoc name r
  end.

(** The items of a non-text array as numbers: integers for the integer
    element types, bit patterns for the floating point ones. *)
Definition array_item (elem : ctype) (bs : list byte) : Z :=
  match elem with
  | c_byte | c_long => le_int bs
  | _ => le_uint bs
  end.

(** [StructMapping.__getattr__], reader.py lines 51-88.  Python calls it for
    the names that ordinary attribute lookup does not find. *)
Definition StructMapping___getattr__ (self : StructMapping) (name : string)
  : result pyvalue :=
  let _fields_ := fields_of (ctype_of (struct self)) in
  if existsb (String.eqb name) (field_names _fields_) then
    match get_field (struct self) name with
    | None => Raise StopIteration
    | Some (ctype, _value) =>
      match ctype, _value with
      | Array c_char _, CBytes bs => Ok (PyStr (builtins.decode_ignore bs))
      | Array _ _, CArray e items =>
          match items with
          | [] => Raise IndexError
          | _ => Ok (PyArray (map (array_item e) items))
          end
      | _, _ =>
        match assoc name (map_of (ctype_of (struct self))), _value with
        | Some cls, CInt v => IntEnum_call cls v
        | Some _, _ => Raise ValueError
        | None, CStruct s => Ok (PyMapping (StructMapping___init__ s))
        | None, CInt n => Ok (PyInt n)
        | None, CFloat b => Ok (PyFloat b)
        | None, CBytes bs => Ok (PyBytes bs)
        | None, CArray e items => Ok (PyArray (map (array_item e) items))
        end
      end
    end
  else Raise AttributeError.

(** The attributes [__init__] stores on the instance, reader.py lines
    47-49. *)
Definition instance_attributes : list string := ["_name"; "fields"; "struct"].

(** The method the class declares under a plain name, reader.py line 94. *)
Definition class_methods : list string := ["print"].

(** The double-underscore names that attribute lookup finds on a mapping:
    those of the class statement and those every object has (CPython 3.12). *)
Definition special_attributes : list string :=
  ["__module__"; "__doc__"; "__init__"; "__getattr__"; "__repr__";
   "__dict__"; "__weakref__";
   "__class__"; "__delattr__"; "__dir__"; "__eq__"; "__format__"; "__ge__";
   "__getattribute__"; "__getstate__"; "__gt__"; "__hash__";
   "__init_subclass__"; "__le__"; "__lt__"; "__ne__"; "__new__";
   "__reduce__"; "__reduce_ex__"; "__setattr__"; "__sizeof__"; "__str__";
   "__subclasshook__"].

(** What ordinary attribute lookup ([object.__getattribute__]) finds on a
    mapping, before [__getattr__] is asked. *)
Definition own_attribute (self : StructMapping) (name : string)
  : option pyvalue :=
  if String.eqb name "_name" then Some (PyStr (builtins.str_of (_name self)))
  else if String.eqb name "fields"
  then Some (PyStrList (map builtins.str_of (fields self)))
  else if String.eqb name "struct" then Some (PyStruct (struct self))
  else if existsb (String.eqb name) class_methods
  then Some (PyMethod self name)
  else if existsb (String.eqb name) special_attributes
  then Some (PyObjectAttr name)
  else None.

(** [mapping.name]: ordinary lookup first; [__getattr__] is called for the
    names it does not find. *)
Definition StructMapping_getattribute (self : StructMapping) (name : string)
  : result pyvalue :=
  match own_attribute self name with
  | Some v => Ok v
  | None => StructMapping___getattr__ self name
  end.

(** [getattr(value, name)], that is [value.name], on the value of a field.
    Values that are not mappings have attributes of their own kind, none of
    them under the name of a field of [AvaTypes]; the reader asks them for
    no attribute. *)
Definition getattr (v : pyvalue) (name : string) : result pyvalue :=
  match v with
  | PyMapping m => StructMapping_getattribute m name
  | _ => Raise AttributeError
  end.

(** A name with two underscores at either end: the interpreter's own. *)
Definition is_dunder (name : string) : bool :=
  let cs := list_ascii_of_string name in
  match cs, rev cs with
  | "_"%char :: "_"%char :: _, "_"%char :: "_"%char :: _ => true
  | _, _ => false
  end.

(** The integer in a value used as an operand of [-], [+] or as an index. *)
Definition as_int (v : pyvalue) : result Z :=
  match v with
  | PyInt n => Ok n
  | PyEnum _ n => Ok n
  | _ => Raise ValueError
  end.

(** Direct access to an integer field of a ctypes structure along a path of
    names, as in [header.Measurement.StopPixel]. *)
Fixpoint cfield_int (s : instance) (first : string) (path : list string)
  : result Z :=
  match get_field s first with
  | None => Raise AttributeError
  | Some (_, v) =>
    match path, v with
    | [], CInt n => Ok n
    | next :: rest, CStruct s' => cfield_int s' next rest
    | _, _ => Raise AttributeError
    end
  end.

Definition cfield_bytes (s : instance) (name : string) : result (list byte) :=
  match get_field s name with
  | Some (_, CBytes bs) => Ok bs
  | _ => Raise AttributeError
  end.

(** [self.a.b] where [self.a] may already have raised. *)
Definition attr (r : result pyvalue) (name : string) : result pyvalue :=
  v <- r ;; getattr v name.

Definition int_attr (r : result pyvalue) (name : string) : result Z :=
  v <- attr r name ;; as_int v.

(* ================================================================== *)
(** * struct.unpack for the two formats the reader uses *)
(* ================================================================== *)

Module pystruct.

(** [struct.unpack("<hbhb", raw)]: six bytes exactly. *)
Definition unpack_hbhb (raw : list byte) : result (Z * Z * Z * Z) :=
  if zlength raw =? 6 then
    Ok (le_int (slice 0 2 raw), le_int (slice 2 3 raw),
        le_int (slice 3 5 raw), le_int (slice 5 6 raw))
  else Raise struct_error.

(** [struct.unpack("l", raw)]: native mode, a C [long] of the platform. *)
Definition unpack_l (p : platform) (raw : list byte) : result Z :=
  if zlength raw =? sizeof_on p c_long then Ok (le_int raw)
  else Raise struct_error.

End pystruct.

(* ================================================================== *)
(** * reader.py: AVSChannel *)
(* ================================================================== *)

Module AVSChannel.

Record t : Type := mk {
  _mapping : StructMapping;
  data : np.ndarray2
}.

Definition PADDING : Z := 10.

Definition __init__ (header : instance) (data : np.ndarray2) : t :=
  mk (StructMapping___init__ header) data.

(** reader.py lines 137-146: [getattr(self._mapping, name)]. *)
Definition __getattr__ (self : t) (name : string) : result pyvalue :=
  getattr (PyMapping (_mapping self)) name.

(** reader.py lines 155-157. *)
Definition __len__ (self : t) : result Z :=
  stop <- int_attr (__getattr__ self "Measurement") "StopPixel" ;;
  start <- int_attr (__getattr__ self "Measurement") "StartPixel" ;;
  Ok (stop - start + 1).

(** [len(self)]. *)
Definition len (self : t) : result Z := len_of (__len__ self).

(** reader.py lines 159-177. *)
Definition from_buffer (buffer : io.BufferedReader) (offset : Z)
  : result (t * io.BufferedReader) :=
  let startBlock := io.tell buffer in
  let header := ctypes.new AVSInfoBlock in
  buffer <- io.seek_cur offset buffer ;;
  let '(header, buffer) := io.readinto header buffer in
  stop <- cfield_int header "Measurement" ["StopPixel"] ;;
  start <- cfield_int header "Measurement" ["StartPixel"] ;;
  let num_pixels := stop - start + 1 in
  let '(flat, buffer) := np.fromfile 4 (4 * num_pixels) buffer in
  data <- np.reshape4_T flat ;;
  blockLength <- cfield_int header "blockLength" [] ;;
  buffer <- io.seek (startBlock + blockLength + PADDING) buffer ;;
  Ok (__init__ header data, buffer).

(** reader.py lines 179-182. *)
Definition serial (self : t) : result pyvalue :=
  attr (__getattr__ self "ID") "SerialNumber".

(** The getter of the [date] property, reader.py lines 184-187. *)
Definition date_fget (self : t) : result pyvalue :=
  ts <- __getattr__ self "Timestamp" ;;
  ts <- as_int ts ;;
  fmap PyDatetime (_extract_datetime ts).

(** [self.date]: when a property getter raises [AttributeError], Python
    falls back on the class's [__getattr__] with the property's name.  (The
    same holds for the other properties; none of them is the name of a
    field, so the fall-back can only raise [AttributeError] again.) *)
Definition date (self : t) : result pyvalue :=
  try_except (date_fget self) AttributeError (__getattr__ self "date").

(** reader.py lines 189-196. *)
Definition pixels (self : t) : result Z := len self.

(** reader.py lines 198-204. *)
Definition exposure (self : t) : result pyvalue :=
  attr (__getattr__ self "Measurement") "IntegrationTime".

(** reader.py lines 206-230. *)
Definition wavelength (self : t) : result (list Z) := np.column (data self) 0.
Definition scope (self : t) : result (list Z) := np.column (data self) 1.
Definition dark (self : t) : result (list Z) := np.column (data self) 2.
Definition ref (self : t) : result (list Z) := np.column (data self) 3.

(** reader.py lines 232-235. *)
Definition signal (fsub : Z -> Z -> Z) (self : t) : result (list Z) :=
  s <- scope self ;;
  d <- dark self ;;
  np.sub1 fsub s d.

End AVSChannel.

(* ================================================================== *)
(** * reader.py: AVSFile *)
(* ================================================================== *)

(** [a == b] between a key and a serial number, which is text: text,
    integers and bytes compare by content, and text is unequal to a value of
    another of these kinds.  (The comparison of an array with text is
    elementwise in numpy and is not modelled: no key is an array here.) *)
Definition py_eq (a b : pyvalue) : bool :=
  match a, b with
  | PyStr s, PyStr s' => builtins.str_eqb s s'
  | PyBytes s, PyBytes s' => builtins.bytes_eqb s s'
  | (PyInt n | PyEnum _ n), (PyInt m | PyEnum _ m) => n =? m
  | _, _ => false
  end.

Module AVSFile.

Record t : Type := mk {
  preamble : instance;
  channels : list AVSChannel.t
}.

(** [[AVSChannel.from_buffer(fo) for _ in range(n)]]. *)
Fixpoint read_channels (n : nat) (fo : io.BufferedReader)
  : result (list AVSChannel.t) :=
  match n with
  | O => Ok []
  | S k =>
      r <- AVSChannel.from_buffer fo 0 ;;
      let '(c, fo') := r in
      cs <- read_channels k fo' ;;
      Ok (c :: cs)
  end.

(** reader.py lines 241-276, on the content of the file at [path]. *)
Definition __init__ (content : list byte) : result t :=
  let fo := io.open content in
  let '(preamble, fo) := io.readinto (ctypes.new AVSPreamble) fo in
  FileType <- cfield_bytes preamble "FileType" ;;
  if negb (builtins.bytes_eqb FileType (list_byte_of_string "AVS"))
  then Raise AvaReadException
  else
    n <- cfield_int preamble "channels" [] ;;
    cs <- read_channels (Z.to_nat n) fo ;;
    Ok (mk preamble cs).

(** reader.py lines 282-295.  An [IntEnum] member is an [int] as well. *)
Definition __getitem__ (self : t) (key : pyvalue) : result AVSChannel.t :=
  match key with
  | PyInt i | PyEnum _ i =>
      if zlength (channels self) <=? i then Raise IndexError
      else builtins.list_getitem (channels self) i
  | _ =>
      keys <- mapM AVSChannel.serial (channels self) ;;
      match builtins.index py_eq key keys with
      | None => Raise KeyError
      | Some i => builtins.list_getitem (channels self) (Z.of_nat i)
      end
  end.

(** reader.py lines 297-302. *)
Definition __len__ (self : t) : result Z :=
  cfield_int (preamble self) "channels" [].

(** reader.py lines 309-312. *)
Definition date (self : t) : result pyvalue :=
  c <- builtins.list_getitem (channels self) 0 ;;
  AVSChannel.date c.

End AVSFile.

(* ================================================================== *)
(** * reader.py: STRFile *)
(* ================================================================== *)

Module STRFile.

Record t : Type := mk {
  preamble : instance;
  _header : instance;
  _mapping : StructMapping;
  _wavelength : list Z;
  _dark : list Z;
  _ref : list Z;
  delay : list Q;
  data : np.ndarray2
}.

(** The state the frame loop updates: the two arrays and the file. *)
Definition loop_state : Type := (list Q * np.ndarray2 * io.BufferedReader)%type.

(** The body of the loop, reader.py lines 371-372: a native [long] for the
    delay, stored divided by 100, then [pixels] doubles for column [i]. *)
Definition read_frame (p : platform) (pixels : Z) (i : nat) (st : loop_state)
  : result loop_state :=
  let '(delay, data, fo) := st in
  let '(raw, fo) := io.read (sizeof_on p c_long) fo in
  d <- pystruct.unpack_l p raw ;;
  let delay := np.list_set i (Qmake d 100) delay in
  let '(col, fo) := np.fromfile (sizeof c_double) pixels fo in
  data <- np.set_column data i col ;;
  Ok (delay, data, fo).

(** reader.py lines 345-372, on the content of the file at [path].  The
    mapping is created before the header is read, but it refers to the one
    header object, so it shows what [readinto] stored. *)
Definition __init__ (p : platform) (content : list byte) : result t :=
  let preamble := ctypes.new STRPreamble in
  let _header := ctypes.new STRInfoBlock in
  let fo := io.open content in
  let '(preamble, fo) := io.readinto preamble fo in
  FileType <- cfield_bytes preamble "FileType" ;;
  if negb (builtins.bytes_eqb FileType (list_byte_of_string "STR"))
  then Raise AvaReadException
  else
    let '(_header, fo) := io.readinto _header fo in
    let _mapping := StructMapping___init__ _header in
    fo <- io.seek 10000 fo ;;
    let '(raw, fo) := io.read 6 fo in
    u <- pystruct.unpack_hbhb raw ;;
    let '(pixels, _, _, _) := u in
    fo <- io.seek_cur (pixels * sizeof c_double) fo ;;
    let '(_wavelength, fo) := np.fromfile (sizeof c_double) pixels fo in
    let '(_dark, fo) := np.fromfile (sizeof c_double) pixels fo in
    let '(_ref, fo) := np.fromfile (sizeof c_double) pixels fo in
    frames <- cfield_int preamble "frames" [] ;;
    let delay := repeat (0 # 1)%Q (Z.to_nat frames) in
    data <- np.zeros2 pixels frames ;;
    st <- for_range 0 (Z.to_nat frames) (read_frame p pixels) (delay, data, fo) ;;
    let '(delay, data, _) := st in
    Ok (mk preamble _header _mapping _wavelength _dark _ref delay data).

(** reader.py lines 378-387: [getattr(self._mapping, name)]. *)
Definition __getattr__ (self : t) (name : string) : result pyvalue :=
  getattr (PyMapping (_mapping self)) name.

Definition StartPixel (self : t) : result Z :=
  int_attr (__getattr__ self "Measurement") "StartPixel".

Definition StopPixel (self : t) : result Z :=
  int_attr (__getattr__ self "Measurement") "StopPixel".

(** reader.py lines 396-398. *)
Definition __len__ (self : t) : result Z :=
  cfield_int (preamble self) "frames" [].

(** reader.py lines 400-403. *)
Definition serial (self : t) : result pyvalue :=
  attr (__getattr__ self "ID") "SerialNumber".

(** reader.py lines 410-413. *)
Definition frames (self : t) : result Z :=
  cfield_int (preamble self) "frames" [].

(** reader.py lines 424-430. *)
Definition exposure (self : t) : result pyvalue :=
  attr (__getattr__ self "Measurement") "IntegrationTime".

(** reader.py lines 415-422. *)
Definition pixels (self : t) : result Z :=
  stop <- StopPixel self ;;
  start <- StartPixel self ;;
  Ok (stop - start).

(** reader.py lines 432-435. *)
Definition wavelength (self : t) : result (list Z) :=
  start <- StartPixel self ;;
  stop <- StopPixel self ;;
  Ok (slice start stop (_wavelength self)).

(** reader.py lines 437-443. *)
Definition scope (self : t) : result np.ndarray2 :=
  start <- StartPixel self ;;
  stop <- StopPixel self ;;
  Ok (np.row_slice start stop (data self)).

(** reader.py lines 445-448. *)
Definition dark (self : t) : result (list Z) :=
  start <- StartPixel self ;;
  stop <- StopPixel self ;;
  Ok (slice start stop (_dark self)).

(** reader.py lines 450-453. *)
Definition ref (self : t) : result (list Z) :=
  start <- StartPixel self ;;
  stop <- StopPixel self ;;
  Ok (slice start stop (_ref self)).

(** reader.py lines 389-394. *)
Definition __getitem__ (fsub : Z -> Z -> Z) (self : t) (index : Z)
  : result (list Z) :=
  start <- StartPixel self ;;
  stop <- StopPixel self ;;
  col <- np.column (np.row_slice start stop (data self)) index ;;
  d <- dark self ;;
  np.sub1 fsub col d.

(** reader.py lines 455-458. *)
Definition signal (fsub : Z -> Z -> Z) (self : t) : result np.ndarray2 :=
  start <- StartPixel self ;;
  stop <- StopPixel self ;;
  d <- dark self ;;
  np.sub2_1 fsub (np.row_slice start stop (data self)) d.

End STRFile.

(* ================================================================== *)
(** * The frame records of an STR stream, as the specification lays them out *)
(* ================================================================== *)

(** These three definitions follow the words of the specification, not the
    code: from offset [base] on, record [k] is a delay of [width] bytes
    followed by [pixels] doubles. *)
Definition frame_stride (width pixels : Z) : Z := width + pixels * 8.

Definition frame_delay_at (width pixels base : Z) (k : nat)
  (content : list byte) : Q :=
  Qmake (le_int (field_bytes (base + Z.of_nat k * frame_stride width pixels)
                   width content)) 100.

Definition frame_samples_at (width pixels base : Z) (k : nat)
  (content : list byte) : list Z :=
  map le_uint
    (chunks (Z.to_nat pixels) 8
       (field_bytes (base + Z.of_nat k * frame_stride width pixels + width)
          (pixels * 8) content)).

(* ================================================================== *)
(** * reader.py: read_file *)
(* ================================================================== *)

(** What the file system holds at the path given to [read_file]. *)
Inductive path_state : Type :=
| Missing
| Directory
| File (content : list byte).

Inductive parsed : Type :=
| IsAVS (f : AVSFile.t)
| IsSTR (f : STRFile.t).

Definition Qlt_bool (a b : Q) : bool := negb (Qle_bool b a).

(** reader.py lines 461-484. *)
Definition read_file (p : platform) (file_path : path_state) : result parsed :=
  match file_path with
  | Missing => Raise FileNotFoundError
  | Directory => Raise FileNotFoundError
  | File content =>
    let '(prelude, _) := io.read 5 (io.open content) in
    file_format <- builtins.decode (slice 0 3 prelude) ;;
    n <- builtins.int (slice 3 5 prelude) ;;
    let file_version := Qmake n 10 in
    if builtins.str_eqb (builtins.upper file_format) (builtins.str_of "AVS")
    then
      if Qlt_bool file_version (8 # 1) then Raise AvaReadException
      else fmap IsAVS (AVSFile.__init__ content)
    else if builtins.str_eqb (builtins.upper file_format) (builtins.str_of "STR")
    then
      if Qlt_bool file_version (8 # 1) then Raise AvaReadException
      else fmap IsSTR (STRFile.__init__ p content)
    else Raise AvaReadException
  end.

(* ================================================================== *)
(** * Synthetic files *)
(* ================================================================== *)

Module Fixtures.

Definition byte_of (v : Z) : byte :=
  match Byte.of_N (Z.to_N (v mod 256)) with
  | Some b => b
  | None => x00
  end.

(** [v] on [width] bytes, little-endian. *)
Fixpoint le_bytes (width : nat) (v : Z) : list byte :=
  match width with
  | O => []
  | S k => byte_of v :: le_bytes k (v / 256)
  end.

Definition zeros (n : nat) : list byte := repeat x00 n.

Definition text (width : nat) (s : string) : list byte :=
  let bs := list_byte_of_string s in
  firstn width bs ++ zeros (width - List.length bs).

(** An [AVSInfoBlock]: 322 bytes; only the fields the reader looks at are
    filled in. *)
Definition avs_header (blockLength : Z) (serialno : string)
  (start stop timestamp file_datetime : Z) : list byte :=
  le_bytes 2 blockLength ++ zeros 6
  ++ text 10 serialno ++ zeros 65
  ++ le_bytes 2 start ++ le_bytes 2 stop ++ zeros 37
  ++ le_bytes 4 timestamp
  ++ le_bytes 4 file_datetime ++ zeros 20
  ++ zeros 170.

(** A channel block with [n] pixels: header, four planes of float32 bit
    patterns, ten bytes of padding. *)
Definition avs_block (serialno : string) (n : nat)
  (wavelength scope dark ref : list Z) : list byte :=
  avs_header (322 + 16 * Z.of_nat n) serialno 0 (Z.of_nat n - 1) 0 0
  ++ flat_map (le_bytes 4) (wavelength ++ scope ++ dark ++ ref)
  ++ zeros 10.

(** The file of the specification's scenario: one channel, four pixels. *)
Definition avs_one_channel : list byte :=
  list_byte_of_string "AVS80" ++ [x01]
  ++ avs_block "SN0001" 4 [400; 401; 402; 403] [10; 20; 30; 40]
       [1; 1; 1; 1] [0; 0; 0; 0].

Definition avs_two_channels : list byte :=
  list_byte_of_string "AVS80" ++ [x02]
  ++ avs_block "SN0001" 2 [400; 401] [10; 20] [1; 1] [0; 0]
  ++ avs_block "SN0002" 2 [500; 501] [11; 21] [2; 2] [0; 0].

(** An STR file: preamble, header block up to offset 10000, the six-byte
    record, the skipped block, wavelength, dark and reference, then the
    frames, each a delay of [long_size] bytes and [pixels] doubles. *)
Definition str_file (long_size : nat) (frames : Z) (start stop : Z)
  (pixels : nat) (wavelength dark ref : list Z)
  (frame_records : list (Z * list Z)) : list byte :=
  list_byte_of_string "STR80" ++ le_bytes 2 frames
  ++ zeros 5 ++ text 10 "SN0001" ++ zeros 65
  ++ le_bytes 2 start ++ le_bytes 2 stop ++ zeros 37
  ++ zeros (Z.to_nat (10000 - 7 - 121))
  ++ le_bytes 2 (Z.of_nat pixels) ++ [x00] ++ le_bytes 2 (Z.of_nat pixels)
  ++ [x00]
  ++ zeros (8 * pixels)
  ++ flat_map (le_bytes 8) (wavelength ++ dark ++ ref)
  ++ flat_map (fun fr => le_bytes long_size (fst fr)
                         ++ flat_map (le_bytes 8) (snd fr)) frame_records.

(** Two frames of four pixels, three of them active (pixels 0 to 3 with the
    last one excluded by the slices of [STRFile]); the delays are written on
    [long_size] bytes. *)
Definition str_two_frames (long_size : nat) : list byte :=
  str_file long_size 2 0 3 4 [1; 2; 3; 4] [5; 6; 7; 8] [0; 0; 0; 0]
    [(100, [10; 20; 30; 40]); (250, [11; 21; 31; 41])].

(** Two frames, two active pixels: the case where the shapes happen to
    agree. *)
Definition str_square : list byte :=
  str_file 4 2 0 2 2 [1; 2] [5; 6] [0; 0]
    [(100, [10; 20]); (250, [11; 21])].

End Fixtures.

(* ================================================================== *)
(** * Notions used to state the properties *)
(* ================================================================== *)

(** The bytes a channel block spans in the file: the [blockLength] of its
    header and the padding behind it. *)
Definition block_span (c : AVSChannel.t) : Z :=
  match AVSChannel.__getattr__ c "blockLength" with
  | Ok (PyInt n) => n + AVSChannel.PADDING
  | _ => 0
  end.

Definition spans (cs : list AVSChannel.t) : Z :=
  fold_right (fun c acc => block_span c + acc) 0 cs.

(** A byte of plain text: ASCII and not NUL. *)
Definition plain (b : byte) : bool :=
  (0 <? byte_val b) && (byte_val b <? 128).

(* ================================================================== *)
(** * Properties *)
(* ================================================================== *)

(** ** Tactics for code in the [result] monad *)

(** Split a hypothesis [x <- c ;; k = Ok v] into [c = Ok a] and [k a = Ok v]. *)
Lemma bind_Ok {A B} (c : result A) (k : A -> result B) (v : B) :
  (x <- c ;; k x) = Ok v -> exists a, c = Ok a /\ k a = Ok v.
Proof.
  destruct c as [a | e]; simpl; intros H.
  - exists a. split; [reflexivity | assumption].
  - discriminate.
Qed.

Tactic Notation "bind_inv" hyp(H) "as" ident(a) ident(Ha) :=
  apply bind_Ok in H; destruct H as [a [Ha H]].

(** ** Bytes and integers *)

Lemma byte_val_range (b : byte) : 0 <= byte_val b < 256.
Proof.
  unfold byte_val. pose proof (Byte.to_N_bounded b) as Hb.
  split; [apply N2Z.is_nonneg | lia].
Qed.

Lemma le_uint_nonneg (bs : list byte) : 0 <= le_uint bs.
Proof.
  induction bs as [| b r IH]; cbn [le_uint]; [lia |].
  pose proof (byte_val_range b). lia.
Qed.

Lemma str_eqb_eq (a b : builtins.str) : builtins.str_eqb a b = true <-> a = b.
Proof.
  revert b. induction a as [| x a IH]; intros [| y b]; simpl;
    try (split; [discriminate | discriminate]); try tauto.
  rewrite andb_true_iff, Z.eqb_eq, IH. split.
  - intros [-> ->]. reflexivity.
  - intros H. injection H as -> ->. split; reflexivity.
Qed.

(** ** The packed timestamp *)

(** A low field below a shifted high part: the bits do not overlap. *)
Lemma lor_shiftl_low (hi lo k : Z) :
  0 <= k -> 0 <= lo < 2 ^ k -> Z.lor (Z.shiftl hi k) lo = hi * 2 ^ k + lo.
Proof.
  intros Hk Hlo.
  pose proof (Z.add_lor_land (Z.shiftl hi k) lo) as Hadd.
  assert (Hland : Z.land (Z.shiftl hi k) lo = 0).
  { apply Z.bits_inj'. intros n Hn.
    rewrite Z.land_spec, Z.bits_0.
    destruct (Z.lt_ge_cases n k) as [Hlt | Hge].
    - rewrite Z.shiftl_spec_low by assumption. reflexivity.
    - destruct (Z.eq_dec lo 0) as [-> | Hne].
      + rewrite Z.bits_0. apply andb_false_r.
      + assert (Hlog : Z.log2 lo < k) by (apply Z.log2_lt_pow2; lia).
        rewrite (Z.bits_above_log2 lo n) by lia. apply andb_false_r. }
  rewrite Hland in Hadd.
  rewrite <- (Z.shiftl_mul_pow2 hi k) by assumption. lia.
Qed.

Lemma pack_value (y m d h mi : Z) :
  0 <= m < 16 -> 0 <= d < 32 -> 0 <= h < 32 -> 0 <= mi < 64 ->
  pack_timestamp_spec y m d h mi
  = y * 1048576 + m * 65536 + d * 2048 + h * 64 + mi.
Proof.
  intros Hm Hd Hh Hmi. unfold pack_timestamp_spec.
  rewrite (lor_shiftl_low h mi 6) by lia.
  rewrite (lor_shiftl_low d _ 11) by lia.
  rewrite (lor_shiftl_low m _ 16) by lia.
  rewrite (lor_shiftl_low y _ 20) by lia.
  change (2 ^ 6) with 64. change (2 ^ 11) with 2048.
  change (2 ^ 16) with 65536. change (2 ^ 20) with 1048576. lia.
Qed.

(** The shifts and remainders of the decoder recover every field that fits
    its width; what [datetime] makes of the fields is a separate matter. *)
Lemma extract_pack (y m d h mi : Z) :
  0 <= m < 16 -> 0 <= d < 32 -> 0 <= h < 32 -> 0 <= mi < 64 ->
  _extract_datetime (pack_timestamp_spec y m d h mi)
  = datetime.make y m d h mi.
Proof.
  intros Hm Hd Hh Hmi. rewrite pack_value by assumption.
  unfold _extract_datetime. rewrite !Z.shiftr_div_pow2 by lia.
  change (2 ^ 6) with 64. change (2 ^ 11) with 2048.
  change (2 ^ 16) with 65536. change (2 ^ 20) with 1048576.
  set (ts := y * 1048576 + m * 65536 + d * 2048 + h * 64 + mi).
  assert (E20 : ts / 1048576 = y).
  { symmetry.
    apply (Z.div_unique _ _ _ (m * 65536 + d * 2048 + h * 64 + mi));
      subst ts; lia. }
  assert (E16 : ts / 65536 = y * 16 + m).
  { symmetry.
    apply (Z.div_unique _ _ _ (d * 2048 + h * 64 + mi)); subst ts; lia. }
  assert (E11 : ts / 2048 = (y * 16 + m) * 32 + d).
  { symmetry. apply (Z.div_unique _ _ _ (h * 64 + mi)); subst ts; lia. }
  assert (E6 : ts / 64 = ((y * 16 + m) * 32 + d) * 32 + h).
  { symmetry. apply (Z.div_unique _ _ _ mi); subst ts; lia. }
  rewrite E20, E16, E11, E6.
  f_equal; symmetry.
  - apply (Z.mod_unique _ _ y); lia.
  - apply (Z.mod_unique _ _ (y * 16 + m)); lia.
  - apply (Z.mod_unique _ _ ((y * 16 + m) * 32 + d)); lia.
  - apply (Z.mod_unique _ _ (((y * 16 + m) * 32 + d) * 32 + h));
      subst ts; lia.
Qed.

Lemma days_in_month_le_31 (y m : Z) : datetime.days_in_month y m <= 31.
Proof.
  unfold datetime.days_in_month.
  destruct (m =? 2); [destruct (datetime.is_leap y); lia |].
  destruct ((m =? 4) || (m =? 6) || (m =? 9) || (m =? 11)); lia.
Qed.

Lemma make_valid (y m d h mi : Z) :
  1 <= y <= 9999 -> 1 <= m <= 12 -> 1 <= d <= datetime.days_in_month y m ->
  0 <= h <= 23 -> 0 <= mi <= 59 ->
  datetime.make y m d h mi = Ok (datetime.mk y m d h mi).
Proof.
  intros Hy Hm Hd Hh Hmi. unfold datetime.make, datetime.MINYEAR,
    datetime.MAXYEAR.
  pose proof (days_in_month_le_31 y m) as Hdays.
  assert (Hfit : forall x, -64 <= x <= 9999 -> datetime.fits_c_int x = true).
  { intros x Hx. unfold datetime.fits_c_int.
    apply andb_true_intro. split; [apply Z.leb_le | apply Z.ltb_lt]; lia. }
  rewrite !Hfit by lia. cbn [andb negb].
  replace (1 <=? y) with true by (symmetry; apply Z.leb_le; lia).
  replace (y <=? 9999) with true by (symmetry; apply Z.leb_le; lia).
  replace (1 <=? m) with true by (symmetry; apply Z.leb_le; lia).
  replace (m <=? 12) with true by (symmetry; apply Z.leb_le; lia).
  replace (1 <=? d) with true by (symmetry; apply Z.leb_le; lia).
  replace (d <=? datetime.days_in_month y m) with true
    by (symmetry; apply Z.leb_le; lia).
  replace (0 <=? h) with true by (symmetry; apply Z.leb_le; lia).
  replace (h <=? 23) with true by (symmetry; apply Z.leb_le; lia).
  replace (0 <=? mi) with true by (symmetry; apply Z.leb_le; lia).
  replace (mi <=? 59) with true by (symmetry; apply Z.leb_le; lia).
  reflexivity.
Qed.

(** C4, as found: the stated ranges admit 31 February 2023; the fields are
    within their ranges and the decoder raises [ValueError], because
    [datetime] refuses a day the month does not have. *)
Lemma timestamp_roundtrip_fails_on_31_february :
  (2023 < 4096 /\ 1 <= 2 <= 12 /\ 1 <= 31 <= 31 /\ 0 <= 0 <= 23
   /\ 0 <= 0 <= 59)
  /\ _extract_datetime (pack_timestamp_spec 2023 2 31 0 0) = Raise ValueError
  /\ _extract_datetime (pack_timestamp_spec 0 1 1 0 0) = Raise ValueError.
Proof.
  split; [lia |]. split; vm_compute; reflexivity.
Qed.

(** C4, amended: for every tuple with 1 <= year < 4096, month in 1..12,
    day between 1 and the number of days of that month in that year, hour
    in 0..23 and minute in 0..59, packing the tuple into the documented bit
    layout and decoding it succeeds and returns the original tuple. *)
Theorem timestamp_roundtrip (y m d h mi : Z) :
  1 <= y < 4096 -> 1 <= m <= 12 ->
  1 <= d <= datetime.days_in_month y m ->
  0 <= h <= 23 -> 0 <= mi <= 59 ->
  _extract_datetime (pack_timestamp_spec y m d h mi)
  = Ok (datetime.mk y m d h mi).
Proof.
  intros Hy Hm Hd Hh Hmi.
  pose proof (days_in_month_le_31 y m) as H31.
  rewrite extract_pack by lia.
  apply make_valid; lia.
Qed.

Lemma timestamp_roundtrip_witness :
  _extract_datetime (pack_timestamp_spec 2024 2 29 23 59)
  = Ok (datetime.mk 2024 2 29 23 59).
Proof.
  apply (timestamp_roundtrip 2024 2 29 23 59);
    try lia; vm_compute; split; discriminate.
Defined.

(** ** The exception hierarchy *)



(** ** The field mapper *)

Lemma find_field_declared (name : string) (fs : list (string * ctype)) :
  forall off, In name (field_names fs) ->
  exists off' t, find_field name off fs = Some (off', t).
Proof.
  induction fs as [| [f t] r IH]; intros off Hin; cbn in Hin; [contradiction |].
  cbn [find_field]. destruct (String.eqb f name) eqn:E.
  - eauto.
  - destruct Hin as [-> | Hin]; [rewrite String.eqb_refl in E; discriminate |].
    apply IH; assumption.
Qed.

Lemma declared_iff (name : string) (fs : list (string * ctype)) :
  existsb (String.eqb name) (field_names fs) = true <-> In name (field_names fs).
Proof.
  rewrite existsb_exists. split.
  - intros [x [Hin Heq]]. apply String.eqb_eq in Heq. subst. assumption.
  - intros Hin. exists name. split; [assumption | apply String.eqb_refl].
Qed.

(** A declared field never answers with the error of an unknown name. *)
Lemma declared_field_not_AttributeError (m : StructMapping) (f : string) :
  In f (field_names (fields_of (ctype_of (struct m)))) ->
  StructMapping___getattr__ m f <> Raise AttributeError.
Proof.
  intros Hin. unfold StructMapping___getattr__.
  rewrite (proj2 (declared_iff f _) Hin).
  unfold get_field.
  destruct (find_field_declared f _ 0 Hin) as [off [t ->]].
  destruct (read_field t _) as [n | b | bs | e items | s];
    destruct (assoc f _) as [cls |];
    destruct t as [| | | | | | | | [] k | nm fs mp];
    unfold IntEnum_call;
    repeat match goal with
           | |- context [match ?x with _ => _ end] => destruct x
           end;
    discriminate.
Qed.

(** The double-underscore names on the list are of that shape. *)
Lemma special_attributes_are_dunder (name : string) :
  existsb (String.eqb name) special_attributes = true -> is_dunder name = true.
Proof.
  unfold special_attributes. cbn [existsb].
  repeat match goal with
         | |- context [String.eqb name ?x] =>
             destruct (String.eqb_spec name x) as [-> | _];
               [intros _; reflexivity |]
         end.
  discriminate.
Qed.

(** Ordinary lookup finds the instance attributes, the method and
    double-underscore names, and nothing else. *)
Lemma own_attribute_None (m : StructMapping) (name : string) :
  ~ In name (instance_attributes ++ class_methods) ->
  is_dunder name = false ->
  own_attribute m name = None.
Proof.
  intros Hown Hd. unfold own_attribute.
  destruct (String.eqb_spec name "_name") as [-> | _];
    [exfalso; apply Hown; cbn; tauto |].
  destruct (String.eqb_spec name "fields") as [-> | _];
    [exfalso; apply Hown; cbn; tauto |].
  destruct (String.eqb_spec name "struct") as [-> | _];
    [exfalso; apply Hown; cbn; tauto |].
  destruct (existsb (String.eqb name) class_methods) eqn:Em.
  - exfalso. apply Hown. apply in_or_app. right.
    apply existsb_exists in Em. destruct Em as [x [Hx Ex]].
    apply String.eqb_eq in Ex. subst x. exact Hx.
  - destruct (existsb (String.eqb name) special_attributes) eqn:Es;
      [| reflexivity].
    apply special_attributes_are_dunder in Es. congruence.
Qed.

(** A declared field is never answered with the error of an unknown name,
    whether ordinary lookup or [__getattr__] answers. *)
Lemma declared_field_accessible (m : StructMapping) (f : string) :
  In f (field_names (fields_of (ctype_of (struct m)))) ->
  getattr (PyMapping m) f <> Raise AttributeError.
Proof.
  intros Hin. cbn [getattr]. unfold StructMapping_getattribute.
  destruct (own_attribute m f); [discriminate |].
  apply declared_field_not_AttributeError; assumption.
Qed.

(** C9, as found: a name that the mapped structure does not declare does not
    always raise.  The mapping object has attributes of its own ([fields],
    [struct], [_name], the method [print]) and those of every Python object
    ([__class__], ...); dotted access finds them before [__getattr__] is
    asked, on a structure that declares none of these names. *)
Lemma undeclared_name_can_be_an_attribute :
  ~ In "fields" (field_names (fields_of AVSInfoBlock))
  /\ getattr (PyMapping (StructMapping___init__ (ctypes.new AVSInfoBlock)))
       "fields"
     = Ok (PyStrList (map builtins.str_of (field_names (fields_of AVSInfoBlock))))
  /\ getattr (PyMapping (StructMapping___init__ (ctypes.new AVSInfoBlock)))
       "fields"
     <> Raise AttributeError
  /\ ~ In "print" (field_names (fields_of AVSInfoBlock))
  /\ getattr (PyMapping (StructMapping___init__ (ctypes.new AVSInfoBlock)))
       "print"
     = Ok (PyMethod (StructMapping___init__ (ctypes.new AVSInfoBlock)) "print")
  /\ ~ In "__class__" (field_names (fields_of AVSInfoBlock))
  /\ getattr (PyMapping (StructMapping___init__ (ctypes.new AVSInfoBlock)))
       "__class__"
     = Ok (PyObjectAttr "__class__").
Proof.
  assert (Hno : forall name,
            existsb (String.eqb name) (field_names (fields_of AVSInfoBlock))
            = false ->
            ~ In name (field_names (fields_of AVSInfoBlock))).
  { intros name E Hin. apply declared_iff in Hin. congruence. }
  split; [apply Hno; reflexivity |].
  split; [reflexivity |].
  split; [discriminate |].
  split; [apply Hno; reflexivity |].
  split; [reflexivity |].
  split; [apply Hno; reflexivity | reflexivity].
Qed.

(** C9, amended: dotted access on a mapping to a name that the mapped
    structure does not declare, that is not an attribute of the mapping
    object itself ([_name], [fields], [struct], [print]) and is not a
    double-underscore name raises [AttributeError]; the failure touches
    nothing else: every declared field answers as before (never with that
    error), also when it is read right after the failed access. *)
Theorem unknown_field_raises_AttributeError (m : StructMapping) (name : string) :
  ~ In name (field_names (fields_of (ctype_of (struct m)))) ->
  ~ In name (instance_attributes ++ class_methods) ->
  is_dunder name = false ->
  getattr (PyMapping m) name = Raise AttributeError
  /\ forall f : string,
       In f (field_names (fields_of (ctype_of (struct m)))) ->
       getattr (PyMapping m) f <> Raise AttributeError
       /\ try_except
            (_ <- getattr (PyMapping m) name ;; getattr (PyMapping m) f)
            AttributeError
            (getattr (PyMapping m) f)
          = getattr (PyMapping m) f.
Proof.
  intros Hnot Hown Hd.
  assert (Hbad : getattr (PyMapping m) name = Raise AttributeError).
  { cbn [getattr]. unfold StructMapping_getattribute.
    rewrite (own_attribute_None m name Hown Hd).
    unfold StructMapping___getattr__.
    destruct (existsb _ _) eqn:E; [| reflexivity].
    apply declared_iff in E. contradiction. }
  split; [assumption |].
  intros f Hin. split.
  - apply declared_field_accessible; assumption.
  - rewrite Hbad. reflexivity.
Qed.

Lemma unknown_field_raises_AttributeError_witness :
  getattr (PyMapping (StructMapping___init__ (ctypes.new AVSInfoBlock)))
    "Timestamp"
  = Raise AttributeError
  /\ getattr (PyMapping (StructMapping___init__ (ctypes.new AVSInfoBlock)))
       "timestamp"
     = Ok (PyInt 0).
Proof.
  assert (Hnot : ~ In "Timestamp"
                   (field_names
                      (fields_of
                         (ctype_of
                            (struct (StructMapping___init__
                                       (ctypes.new AVSInfoBlock))))))).
  { vm_compute. intros H.
    repeat (destruct H as [H | H]; [discriminate H |]). exact H. }
  assert (Hown : ~ In "Timestamp" (instance_attributes ++ class_methods)).
  { vm_compute. intros H.
    repeat (destruct H as [H | H]; [discriminate H |]). exact H. }
  destruct (unknown_field_raises_AttributeError
              (StructMapping___init__ (ctypes.new AVSInfoBlock))
              "Timestamp" Hnot Hown eq_refl)
    as [Hbad _].
  split; [exact Hbad | vm_compute; reflexivity].
Defined.

(** ** What the channel parser establishes *)

Lemma readinto_ctype (s : instance) (fo : io.BufferedReader) :
  ctype_of (fst (io.readinto s fo)) = ctype_of s.
Proof. reflexivity. Qed.

(** A channel read from a file maps an [AVSInfoBlock]. *)
Lemma from_buffer_block (fo fo' : io.BufferedReader) (off : Z) (c : AVSChannel.t) :
  AVSChannel.from_buffer fo off = Ok (c, fo') ->
  exists buf data, c = AVSChannel.__init__ (mkInstance AVSInfoBlock buf) data.
Proof.
  unfold AVSChannel.from_buffer. intros H.
  bind_inv H as fo1 Hseek.
  destruct (io.readinto (new AVSInfoBlock) fo1) as [header buffer] eqn:E.
  pose proof (readinto_ctype (new AVSInfoBlock) fo1) as Hty.
  rewrite E in Hty. cbn [fst] in Hty.
  bind_inv H as stop Hstop. bind_inv H as start Hstart.
  destruct (np.fromfile 4 _ buffer) as [flat buffer1].
  bind_inv H as data Hdata. bind_inv H as blockLength Hlen.
  bind_inv H as fo2 Hseek2.
  injection H as <- <-.
  destruct header as [ty buf]. cbn in Hty. subst ty.
  exists buf, data. reflexivity.
Qed.

Lemma read_channels_spec (n : nat) : forall fo cs,
  AVSFile.read_channels n fo = Ok cs ->
  List.length cs = n /\
  Forall (fun c => exists buf data,
            c = AVSChannel.__init__ (mkInstance AVSInfoBlock buf) data) cs.
Proof.
  induction n as [| n IH]; intros fo cs H; cbn [AVSFile.read_channels] in H.
  - injection H as <-. split; [reflexivity | constructor].
  - bind_inv H as r Hr. destruct r as [c fo']. bind_inv H as cs' Hcs.
    injection H as <-.
    apply IH in Hcs. destruct Hcs as [Hlen Hall].
    apply from_buffer_block in Hr.
    split; [cbn; congruence | constructor; assumption].
Qed.

Lemma preamble_channels (buf : list byte) :
  cfield_int (mkInstance AVSPreamble buf) "channels" []
  = Ok (le_uint (field_bytes 5 1 buf)).
Proof. reflexivity. Qed.

(** What a successful [AVSFile.__init__] guarantees. *)
Lemma AVSFile_init_spec (content : list byte) (f : AVSFile.t) :
  AVSFile.__init__ content = Ok f ->
  exists n,
    AVSFile.__len__ f = Ok n /\ 0 <= n
    /\ List.length (AVSFile.channels f) = Z.to_nat n
    /\ Forall (fun c => exists buf data,
                 c = AVSChannel.__init__ (mkInstance AVSInfoBlock buf) data)
         (AVSFile.channels f).
Proof.
  unfold AVSFile.__init__. intros H.
  destruct (io.readinto (new AVSPreamble) (io.open content))
    as [preamble fo] eqn:E.
  pose proof (readinto_ctype (new AVSPreamble) (io.open content)) as Hty.
  rewrite E in Hty. cbn [fst] in Hty.
  bind_inv H as FileType Hft.
  destruct (negb _); [discriminate |].
  bind_inv H as n Hn. bind_inv H as cs Hcs. injection H as <-.
  apply read_channels_spec in Hcs. destruct Hcs as [Hlen Hall].
  exists n. unfold AVSFile.__len__. cbn [AVSFile.preamble AVSFile.channels].
  repeat split; try assumption.
  destruct preamble as [ty buf]. cbn in Hty. subst ty.
  rewrite preamble_channels in Hn. injection Hn as <-.
  apply le_uint_nonneg.
Qed.

Lemma block_date (buf : list byte) (data : np.ndarray2) :
  AVSChannel.date (AVSChannel.__init__ (mkInstance AVSInfoBlock buf) data)
  = Raise AttributeError.
Proof. reflexivity. Qed.

Lemma block_serial (buf : list byte) (data : np.ndarray2) :
  AVSChannel.serial (AVSChannel.__init__ (mkInstance AVSInfoBlock buf) data)
  = Ok (PyStr (builtins.decode_ignore
                 (until_nul (field_bytes 0 10 (field_bytes 8 75 buf))))).
Proof. reflexivity. Qed.

Lemma block_len (buf : list byte) (data : np.ndarray2) :
  AVSChannel.__len__ (AVSChannel.__init__ (mkInstance AVSInfoBlock buf) data)
  = Ok (le_uint (field_bytes 2 2 (field_bytes 83 41 buf))
        - le_uint (field_bytes 0 2 (field_bytes 83 41 buf)) + 1).
Proof. reflexivity. Qed.

(** ** Lists: [xs[i]], [xs.index(x)] and comprehensions *)

Lemma list_getitem_nth {A} (xs : list A) (j : nat) (a : A) :
  nth_error xs j = Some a -> builtins.list_getitem xs (Z.of_nat j) = Ok a.
Proof.
  intros Hnth.
  assert (Hlt : (j < List.length xs)%nat)
    by (apply nth_error_Some; congruence).
  unfold builtins.list_getitem, zlength. cbv zeta.
  destruct (Z.ltb_spec (Z.of_nat j) 0) as [Hneg | _]; [lia |].
  destruct (Z.ltb_spec (Z.of_nat j) 0) as [Hneg | _]; [lia |].
  destruct (Z.leb_spec (Z.of_nat (List.length xs)) (Z.of_nat j))
    as [Hout | _]; [lia |].
  cbn [orb]. rewrite Nat2Z.id, Hnth. reflexivity.
Qed.

(** [index] finds the first position that compares equal. *)
Lemma index_first {A} (eqb : A -> A -> bool) (x : A) (xs : list A) :
  forall (i : nat) (y : A),
    nth_error xs i = Some y -> eqb y x = true ->
    exists j y',
      builtins.index eqb x xs = Some j /\ (j <= i)%nat
      /\ nth_error xs j = Some y' /\ eqb y' x = true
      /\ forall k yk, (k < j)%nat -> nth_error xs k = Some yk ->
                      eqb yk x = false.
Proof.
  induction xs as [| z r IH]; intros i y Hnth Heq.
  - destruct i; discriminate.
  - cbn [builtins.index]. destruct (eqb z x) eqn:Ez.
    + exists O, z. repeat split; try assumption; lia.
    + destruct i as [| i]; cbn in Hnth.
      * injection Hnth as ->. congruence.
      * destruct (IH i y Hnth Heq) as [j [y' [Hidx [Hle [Hj [Hy' Hmin]]]]]].
        exists (S j), y'. rewrite Hidx. repeat split; try assumption; try lia.
        intros [| k] yk Hk Hnk; cbn in Hnk.
        -- injection Hnk as <-. assumption.
        -- apply (Hmin k); [lia | assumption].
Qed.

Lemma mapM_nth {A B} (f : A -> result B) (xs : list A) :
  forall ys, mapM f xs = Ok ys ->
  forall k x, nth_error xs k = Some x ->
  exists y, f x = Ok y /\ nth_error ys k = Some y.
Proof.
  induction xs as [| x0 r IH]; intros ys H k x Hk.
  - destruct k; discriminate.
  - cbn [mapM] in H. bind_inv H as y0 Hy0. bind_inv H as ys' Hys.
    injection H as <-.
    destruct k as [| k]; cbn in Hk.
    + injection Hk as <-. exists y0. split; [assumption | reflexivity].
    + apply (IH ys' Hys k x Hk).
Qed.

Lemma mapM_total {A B} (f : A -> result B) (xs : list A) :
  Forall (fun x => exists y, f x = Ok y) xs -> exists ys, mapM f xs = Ok ys.
Proof.
  induction 1 as [| x r [y Hy] _ [ys Hys]]; cbn [mapM].
  - eauto.
  - rewrite Hy, Hys. cbn. eauto.
Qed.

(** ** Access to the channels of a regular file *)

(** C7: a regular file that parses declares some number C of channels; its
    length is C, [file[i]] is the i-th channel for every i in [0, C), and
    [file[C]] raises [IndexError]. *)
Theorem AVSFile_positional_access (content : list byte) (f : AVSFile.t) :
  AVSFile.__init__ content = Ok f ->
  exists C : Z,
    len_of (AVSFile.__len__ f) = Ok C
    /\ C = zlength (AVSFile.channels f)
    /\ (forall i, 0 <= i < C ->
          exists c, nth_error (AVSFile.channels f) (Z.to_nat i) = Some c
                    /\ AVSFile.__getitem__ f (PyInt i) = Ok c)
    /\ AVSFile.__getitem__ f (PyInt C) = Raise IndexError.
Proof.
  intros Hinit.
  destruct (AVSFile_init_spec content f Hinit) as [n [Hlen [Hn [Hcount _]]]].
  assert (HC : n = zlength (AVSFile.channels f))
    by (unfold zlength; rewrite Hcount; lia).
  exists n. repeat split.
  - rewrite Hlen. cbn.
    replace (n <? 0) with false by (symmetry; apply Z.ltb_ge; lia).
    reflexivity.
  - assumption.
  - intros i Hi.
    destruct (nth_error (AVSFile.channels f) (Z.to_nat i)) as [c |] eqn:Hnth.
    + exists c. split; [reflexivity |].
      cbn [AVSFile.__getitem__]. rewrite <- HC.
      replace (n <=? i) with false by (symmetry; apply Z.leb_gt; lia).
      rewrite <- (Z2Nat.id i) by lia. apply list_getitem_nth. assumption.
    + apply nth_error_None in Hnth. lia.
  - cbn [AVSFile.__getitem__]. rewrite <- HC, Z.leb_refl. reflexivity.
Qed.

Lemma AVSFile_positional_access_witness :
  exists f, AVSFile.__init__ Fixtures.avs_two_channels = Ok f
  /\ exists C : Z,
    len_of (AVSFile.__len__ f) = Ok C
    /\ C = zlength (AVSFile.channels f)
    /\ (forall i, 0 <= i < C ->
          exists c, nth_error (AVSFile.channels f) (Z.to_nat i) = Some c
                    /\ AVSFile.__getitem__ f (PyInt i) = Ok c)
    /\ AVSFile.__getitem__ f (PyInt C) = Raise IndexError.
Proof.
  destruct (AVSFile.__init__ Fixtures.avs_two_channels) as [f | e] eqn:E.
  - exists f. split; [reflexivity |].
    exact (AVSFile_positional_access Fixtures.avs_two_channels f E).
  - vm_compute in E. discriminate E.
Defined.

Lemma py_eq_str (v : pyvalue) (x : builtins.str) :
  py_eq v (PyStr x) = true <-> v = PyStr x.
Proof.
  destruct v; cbn; try (split; [discriminate | discriminate]).
  rewrite str_eqb_eq. split; [intros -> | intros [= ->]]; reflexivity.
Qed.

(** C8: in a regular file that parses, looking a channel up by its own
    serial number returns the first channel bearing that serial number, the
    very item that positional access returns there; when the serial numbers
    of the file are pairwise distinct this is the channel's own position. *)
Theorem serial_lookup_is_positional (content : list byte) (f : AVSFile.t) :
  AVSFile.__init__ content = Ok f ->
  forall (i : nat) (c : AVSChannel.t),
    nth_error (AVSFile.channels f) i = Some c ->
    exists (s : pyvalue) (j : nat) (c' : AVSChannel.t),
      AVSChannel.serial c = Ok s
      /\ AVSFile.__getitem__ f s = Ok c'
      /\ AVSFile.__getitem__ f s = AVSFile.__getitem__ f (PyInt (Z.of_nat j))
      /\ nth_error (AVSFile.channels f) j = Some c'
      /\ AVSChannel.serial c' = Ok s
      /\ (j <= i)%nat
      /\ (forall k ck, (k < j)%nat ->
            nth_error (AVSFile.channels f) k = Some ck ->
            AVSChannel.serial ck <> Ok s)
      /\ ((forall a b ca cb,
              nth_error (AVSFile.channels f) a = Some ca ->
              nth_error (AVSFile.channels f) b = Some cb ->
              AVSChannel.serial ca = AVSChannel.serial cb -> a = b) ->
          j = i /\ c' = c).
Proof.
  intros Hinit i c Hc.
  destruct (AVSFile_init_spec content f Hinit) as [n [_ [_ [_ Hall]]]].
  assert (Hser : Forall (fun c0 => exists y, AVSChannel.serial c0 = Ok y)
                   (AVSFile.channels f)).
  { eapply Forall_impl; [| exact Hall].
    intros c0 [buf [data ->]]. rewrite block_serial. eauto. }
  destruct (mapM_total _ _ Hser) as [keys Hkeys].
  assert (Hblock : exists x, AVSChannel.serial c = Ok (PyStr x)).
  { rewrite Forall_forall in Hall.
    destruct (Hall c (nth_error_In _ _ Hc)) as [buf [data ->]].
    rewrite block_serial. eauto. }
  destruct Hblock as [x Hx].
  destruct (mapM_nth _ _ keys Hkeys i c Hc) as [y [Hy Hki]].
  rewrite Hx in Hy. injection Hy as <-.
  destruct (index_first py_eq (PyStr x) keys i (PyStr x) Hki
              (proj2 (py_eq_str _ _) eq_refl))
    as [j [y' [Hidx [Hle [Hkj [Hy' Hmin]]]]]].
  apply py_eq_str in Hy'. subst y'.
  assert (Hlt : (j < List.length (AVSFile.channels f))%nat).
  { assert ((i < List.length (AVSFile.channels f))%nat)
      by (apply nth_error_Some; congruence). lia. }
  destruct (nth_error (AVSFile.channels f) j) as [c' |] eqn:Hcj;
    [| apply nth_error_None in Hcj; lia].
  destruct (mapM_nth _ _ keys Hkeys j c' Hcj) as [y [Hy Hkj']].
  rewrite Hkj in Hkj'. injection Hkj' as <-.
  assert (Hkey : AVSFile.__getitem__ f (PyStr x) = Ok c').
  { cbn [AVSFile.__getitem__]. rewrite Hkeys. cbn [bind].
    rewrite Hidx. apply list_getitem_nth. assumption. }
  assert (Hpos : AVSFile.__getitem__ f (PyInt (Z.of_nat j)) = Ok c').
  { cbn [AVSFile.__getitem__]. unfold zlength.
    destruct (Z.leb_spec (Z.of_nat (List.length (AVSFile.channels f)))
                (Z.of_nat j)) as [Hout | _]; [lia |].
    apply list_getitem_nth. assumption. }
  exists (PyStr x), j, c'. repeat split; try assumption.
  - congruence.
  - intros k ck Hk Hck Hsk.
    destruct (mapM_nth _ _ keys Hkeys k ck Hck) as [yk [Hyk Hkk]].
    rewrite Hsk in Hyk. injection Hyk as <-.
    pose proof (Hmin k (PyStr x) Hk Hkk) as Hne.
    rewrite (proj2 (py_eq_str _ _) eq_refl) in Hne. discriminate.
  - apply (H j i c' c Hcj Hc). congruence.
  - assert (j = i) by (apply (H j i c' c Hcj Hc); congruence).
    subst j. congruence.
Qed.

Lemma serial_lookup_is_positional_witness :
  exists f c,
    AVSFile.__init__ Fixtures.avs_two_channels = Ok f
    /\ nth_error (AVSFile.channels f) 1 = Some c
    /\ AVSFile.__getitem__ f (PyStr (builtins.str_of "SN0002")) = Ok c.
Proof.
  destruct (AVSFile.__init__ Fixtures.avs_two_channels) as [f | e] eqn:E;
    [| vm_compute in E; discriminate E].
  destruct (nth_error (AVSFile.channels f) 1) as [c |] eqn:Hc;
    [| vm_compute in E; injection E as <-; vm_compute in Hc; discriminate Hc].
  exists f, c. split; [reflexivity | split; [exact Hc |]].
  destruct (serial_lookup_is_positional Fixtures.avs_two_channels f E 1%nat c Hc)
    as [s [j [c' [Hs [Hget [_ [Hj [_ [_ [_ Huniq]]]]]]]]]].
  assert (Hsv : s = PyStr (builtins.str_of "SN0002")).
  { vm_compute in E. injection E as <-. vm_compute in Hc.
    injection Hc as <-. vm_compute in Hs. injection Hs as <-.
    vm_compute. reflexivity. }
  subst s. rewrite Hget. f_equal.
  apply Huniq.
  vm_compute in E. injection E as <-.
  intros [| [| a]] [| [| b]] ca cb Ha Hb Hab; try reflexivity;
    cbn in Ha, Hb;
    try (destruct a; discriminate Ha); try (destruct b; discriminate Hb);
    injection Ha as <-; injection Hb as <-; vm_compute in Hab;
    discriminate Hab.
Defined.

(** ** The date of a channel and of a file *)

(** C3, as the code has it: in a regular file that parses, the [date] of
    every channel raises [AttributeError]: the getter asks the header for
    [Timestamp], the structure declares [timestamp], and the fall-back
    lookup of [date] finds no such field either.  The [date] of the file
    fails with it (or with [IndexError] when the file has no channel). *)
Theorem AVSFile_date_raises (content : list byte) (f : AVSFile.t) :
  AVSFile.__init__ content = Ok f ->
  (forall c, In c (AVSFile.channels f) ->
     AVSChannel.date c = Raise AttributeError)
  /\ (AVSFile.date f = Raise AttributeError
      \/ (AVSFile.channels f = [] /\ AVSFile.date f = Raise IndexError)).
Proof.
  intros Hinit.
  destruct (AVSFile_init_spec content f Hinit) as [n [_ [_ [_ Hall]]]].
  rewrite Forall_forall in Hall.
  assert (Hdate : forall c, In c (AVSFile.channels f) ->
                    AVSChannel.date c = Raise AttributeError).
  { intros c Hin. destruct (Hall c Hin) as [buf [data ->]].
    apply block_date. }
  split; [assumption |].
  unfold AVSFile.date.
  destruct (AVSFile.channels f) as [| c r] eqn:Hcs.
  - right. split; reflexivity.
  - left. cbn. apply Hdate. left. reflexivity.
Qed.

Lemma AVSFile_date_raises_witness :
  exists f, AVSFile.__init__ Fixtures.avs_one_channel = Ok f
  /\ AVSFile.date f = Raise AttributeError.
Proof.
  destruct (AVSFile.__init__ Fixtures.avs_one_channel) as [f | e] eqn:E;
    [| vm_compute in E; discriminate E].
  exists f. split; [reflexivity |].
  destruct (AVSFile_date_raises Fixtures.avs_one_channel f E)
    as [_ [Hd | [Hnil _]]]; [exact Hd |].
  vm_compute in E. injection E as <-. discriminate Hnil.
Defined.

(** ** Reading from a file that is long enough *)

Lemma zlength_field_bytes (off size : Z) (buf : list byte) :
  0 <= off -> 0 <= size -> off + size <= zlength buf ->
  zlength (field_bytes off size buf) = size.
Proof.
  unfold zlength, field_bytes. intros Hoff Hsize Hfit.
  rewrite length_firstn, length_skipn. lia.
Qed.

Lemma read_exact (n : Z) (fo : io.BufferedReader) :
  0 <= n -> 0 <= io.pos fo -> io.pos fo + n <= zlength (io.content fo) ->
  io.read n fo
  = (field_bytes (io.pos fo) n (io.content fo),
     io.mkReader (io.content fo) (io.pos fo + n)).
Proof.
  intros Hn Hpos Hfit. unfold io.read, io.remaining.
  change (firstn (Z.to_nat n) (skipn (Z.to_nat (io.pos fo)) (io.content fo)))
    with (field_bytes (io.pos fo) n (io.content fo)).
  cbv zeta. rewrite zlength_field_bytes by assumption. reflexivity.
Qed.

Lemma length_chunks (n : nat) (size : Z) : forall bs,
  List.length (chunks n size bs) = n.
Proof.
  induction n as [| n IH]; intros bs; cbn [chunks List.length];
    [reflexivity | rewrite IH; reflexivity].
Qed.

Lemma fromfile_exact (itemsize count : Z) (fo : io.BufferedReader) :
  0 < itemsize -> 0 <= count -> 0 <= io.pos fo ->
  io.pos fo + count * itemsize <= zlength (io.content fo) ->
  np.fromfile itemsize count fo
  = (map le_uint
       (chunks (Z.to_nat count) itemsize
          (field_bytes (io.pos fo) (count * itemsize) (io.content fo))),
     io.mkReader (io.content fo) (io.pos fo + count * itemsize)).
Proof.
  intros Hsize Hcount Hpos Hfit. unfold np.fromfile. cbv zeta.
  destruct (Z.ltb_spec count 0) as [Hneg | _]; [lia |].
  rewrite read_exact by nia.
  rewrite zlength_field_bytes by nia.
  rewrite Z.div_mul by lia. reflexivity.
Qed.

(** ** Columns of an array *)

Lemma length_list_set {A} (i : nat) (v : A) : forall l,
  List.length (np.list_set i v l) = List.length l.
Proof.
  induction i as [| i IH]; intros [| x r]; cbn; try reflexivity.
  rewrite IH. reflexivity.
Qed.

Lemma nth_list_set_same {A} (v d : A) : forall (i : nat) l,
  (i < List.length l)%nat -> nth i (np.list_set i v l) d = v.
Proof.
  induction i as [| i IH]; intros [| x r] Hlt; cbn in *; try lia.
  - reflexivity.
  - apply IH. lia.
Qed.

Lemma nth_list_set_other {A} (v d : A) : forall (i j : nat) l,
  i <> j -> nth j (np.list_set i v l) d = nth j l d.
Proof.
  induction i as [| i IH]; intros [| j] [| x r] Hne; cbn; try reflexivity;
    try lia.
  apply IH. lia.
Qed.

Lemma nth_error_list_set_same {A} (v : A) : forall (i : nat) l,
  (i < List.length l)%nat -> nth_error (np.list_set i v l) i = Some v.
Proof.
  induction i as [| i IH]; intros [| x r] Hlt; cbn in *; try lia.
  - reflexivity.
  - apply IH. lia.
Qed.

Lemma nth_error_list_set_other {A} (v : A) : forall (i j : nat) l,
  i <> j -> nth_error (np.list_set i v l) j = nth_error l j.
Proof.
  induction i as [| i IH]; intros [| j] [| x r] Hne; cbn; try reflexivity;
    try lia.
  apply IH. lia.
Qed.

Lemma column_at (a : np.ndarray2) (j : nat) :
  Z.of_nat j < snd (np.shape a) ->
  np.column a (Z.of_nat j) = Ok (map (fun row => nth j row 0) (np.rows a)).
Proof.
  intros Hlt. unfold np.column, np.normalize_index. cbv zeta.
  destruct (Z.ltb_spec (Z.of_nat j) 0) as [Hneg | _]; [lia |].
  destruct (Z.ltb_spec (Z.of_nat j) 0) as [Hneg | _]; [lia |].
  destruct (Z.leb_spec (snd (np.shape a)) (Z.of_nat j)) as [Hout | _];
    [lia |].
  cbn. rewrite Nat2Z.id. reflexivity.
Qed.

Lemma zip_set_same (i : nat) : forall (rs : list (list Z)) (v : list Z),
  List.length rs = List.length v ->
  Forall (fun row => (i < List.length row)%nat) rs ->
  map (fun row => nth i row 0)
    (np.zip_with (fun row x => np.list_set i x row) rs v) = v.
Proof.
  induction rs as [| row rs IH]; intros [| x v] Hlen Hall; cbn in *;
    try reflexivity; try discriminate.
  inversion Hall as [| ? ? Hrow Hrest]; subst.
  rewrite nth_list_set_same by assumption.
  rewrite IH by (try assumption; lia). reflexivity.
Qed.

Lemma zip_set_other (i j : nat) : forall (rs : list (list Z)) (v : list Z),
  i <> j -> List.length rs = List.length v ->
  map (fun row => nth j row 0)
    (np.zip_with (fun row x => np.list_set i x row) rs v)
  = map (fun row => nth j row 0) rs.
Proof.
  induction rs as [| row rs IH]; intros [| x v] Hne Hlen; cbn in *;
    try reflexivity; try discriminate.
  rewrite nth_list_set_other by assumption.
  rewrite IH by (try assumption; lia). reflexivity.
Qed.

Lemma zip_set_shape (i : nat) (m : Z) : forall (rs : list (list Z)) (v : list Z),
  List.length rs = List.length v ->
  Forall (fun row => zlength row = m) rs ->
  List.length (np.zip_with (fun row x => np.list_set i x row) rs v)
  = List.length rs
  /\ Forall (fun row => zlength row = m)
       (np.zip_with (fun row x => np.list_set i x row) rs v).
Proof.
  induction rs as [| row rs IH]; intros [| x v] Hlen Hall; cbn in *;
    try discriminate; try (split; [reflexivity | constructor]).
  inversion Hall as [| ? ? Hrow Hrest]; subst.
  destruct (IH v) as [Hl Hf]; [lia | assumption |].
  split; [rewrite Hl; reflexivity |].
  constructor; [| assumption].
  unfold zlength. rewrite length_list_set. reflexivity.
Qed.

(** Storing a full column: the array keeps its shape, the column holds the
    new items and the other columns are untouched. *)
Lemma set_column_spec (a : np.ndarray2) (i : nat) (v : list Z) :
  np.well_shaped a -> zlength v = fst (np.shape a) ->
  Z.of_nat i < snd (np.shape a) ->
  exists a',
    np.set_column a i v = Ok a'
    /\ np.shape a' = np.shape a /\ np.well_shaped a'
    /\ np.column a' (Z.of_nat i) = Ok v
    /\ forall j : nat, j <> i -> np.column a' (Z.of_nat j) = np.column a (Z.of_nat j).
Proof.
  intros [Hrows Hall] Hv Hi.
  assert (Hlen : List.length (np.rows a) = List.length v)
    by (unfold zlength in *; lia).
  destruct (zip_set_shape i (snd (np.shape a)) (np.rows a) v Hlen Hall)
    as [Hl Hf].
  unfold np.set_column. cbv zeta. rewrite Hv, Z.eqb_refl.
  eexists. split; [reflexivity |]. cbn [np.shape np.rows].
  split; [reflexivity |]. split.
  - split; cbn [np.shape np.rows]; [| assumption].
    unfold zlength in *. rewrite Hl. assumption.
  - split.
    + rewrite column_at by (cbn [np.shape]; assumption).
      cbn [np.rows]. rewrite zip_set_same; [reflexivity | assumption |].
      eapply Forall_impl; [| exact Hall].
      intros row Hrow. cbv beta in Hrow. unfold zlength in Hrow. lia.
    + intros j Hne.
      destruct (Z.lt_ge_cases (Z.of_nat j) (snd (np.shape a))) as [Hj | Hj].
      * rewrite !column_at by (cbn [np.shape]; assumption).
        cbn [np.rows]. rewrite zip_set_other by (try assumption; lia).
        reflexivity.
      * unfold np.column, np.normalize_index. cbn [np.shape]. cbv zeta.
        destruct (Z.ltb_spec (Z.of_nat j) 0) as [Hneg | _]; [lia |].
        destruct (Z.ltb_spec (Z.of_nat j) 0) as [Hneg | _]; [lia |].
        destruct (Z.leb_spec (snd (np.shape a)) (Z.of_nat j)) as [_ | Hin];
          [| lia].
        destruct ((2 ^ 63 <=? Z.of_nat j) && (Z.of_nat j <? 2 ^ 64));
          reflexivity.
Qed.

(** ** The frame loop of [STRFile.__init__] *)

Lemma length_map_chunks (n : nat) (size : Z) (bs : list byte) :
  zlength (map le_uint (chunks n size bs)) = Z.of_nat n.
Proof. unfold zlength. rewrite length_map, length_chunks. reflexivity. Qed.

(** One iteration on a file that holds a whole record at the position of the
    reader: the delay and the column are those of the record, the reader
    advances by [sizeof(c_long) + pixels * 8]. *)
Lemma read_frame_spec (p : platform) (pixels : Z) (i : nat)
  (delay : list Q) (data : np.ndarray2) (fo : io.BufferedReader) :
  0 < sizeof_c_long p -> 0 <= pixels -> 0 <= io.pos fo ->
  io.pos fo + frame_stride (sizeof_c_long p) pixels <= zlength (io.content fo) ->
  np.well_shaped data -> fst (np.shape data) = pixels ->
  Z.of_nat i < snd (np.shape data) ->
  exists data',
    STRFile.read_frame p pixels i (delay, data, fo)
    = Ok (np.list_set i
            (frame_delay_at (sizeof_c_long p) pixels (io.pos fo) 0
               (io.content fo)) delay,
          data',
          io.mkReader (io.content fo)
            (io.pos fo + frame_stride (sizeof_c_long p) pixels))
    /\ np.shape data' = np.shape data /\ np.well_shaped data'
    /\ np.column data' (Z.of_nat i)
       = Ok (frame_samples_at (sizeof_c_long p) pixels (io.pos fo) 0
               (io.content fo))
    /\ forall j : nat, j <> i ->
         np.column data' (Z.of_nat j) = np.column data (Z.of_nat j).
Proof.
  intros HL Hpix Hpos Hfit Hwf Hrows Hi.
  unfold frame_stride in Hfit.
  unfold STRFile.read_frame.
  change (sizeof_on p c_long) with (sizeof_c_long p).
  change (sizeof c_double) with 8.
  rewrite read_exact by lia.
  unfold pystruct.unpack_l.
  change (sizeof_on p c_long) with (sizeof_c_long p).
  rewrite zlength_field_bytes by lia.
  rewrite Z.eqb_refl. cbn [bind].
  rewrite fromfile_exact by (cbn [io.pos io.content]; lia).
  cbn [io.pos io.content].
  destruct (set_column_spec data i
              (map le_uint
                 (chunks (Z.to_nat pixels) 8
                    (field_bytes (io.pos fo + sizeof_c_long p) (pixels * 8)
                       (io.content fo)))))
    as [data' [Hset [Hshape [Hwf' [Hcol Hother]]]]];
    [assumption | rewrite length_map_chunks; lia | assumption |].
  exists data'. rewrite Hset. cbn [bind].
  unfold frame_delay_at, frame_samples_at, frame_stride.
  cbn [Z.of_nat]. rewrite Z.mul_0_l, Z.add_0_r.
  replace (io.pos fo + sizeof_c_long p + pixels * 8)
    with (io.pos fo + (sizeof_c_long p + pixels * 8)) by lia.
  split; [reflexivity |]. split; [assumption |]. split; [assumption |].
  split; assumption.
Qed.

(** The whole loop: [n] iterations from index [start] consume [n] records;
    frame [start + k] receives the delay and the samples of record [k], and
    what was stored below [start] is kept. *)
Lemma read_frames_spec (p : platform) (pixels : Z) (n : nat) :
  forall (start : nat) (delay : list Q) (data : np.ndarray2)
         (fo : io.BufferedReader),
  0 < sizeof_c_long p -> 0 <= pixels -> 0 <= io.pos fo ->
  io.pos fo + Z.of_nat n * frame_stride (sizeof_c_long p) pixels
    <= zlength (io.content fo) ->
  np.well_shaped data -> fst (np.shape data) = pixels ->
  Z.of_nat (start + n) <= snd (np.shape data) ->
  (start + n <= List.length delay)%nat ->
  exists delay' data',
    for_range start n (STRFile.read_frame p pixels) (delay, data, fo)
    = Ok (delay', data',
          io.mkReader (io.content fo)
            (io.pos fo + Z.of_nat n * frame_stride (sizeof_c_long p) pixels))
    /\ np.shape data' = np.shape data /\ np.well_shaped data'
    /\ List.length delay' = List.length delay
    /\ (forall k : nat, (k < n)%nat ->
          nth_error delay' (start + k)
          = Some (frame_delay_at (sizeof_c_long p) pixels (io.pos fo) k
                    (io.content fo))
          /\ np.column data' (Z.of_nat (start + k))
             = Ok (frame_samples_at (sizeof_c_long p) pixels (io.pos fo) k
                     (io.content fo)))
    /\ (forall j : nat, (j < start)%nat ->
          nth_error delay' j = nth_error delay j
          /\ np.column data' (Z.of_nat j) = np.column data (Z.of_nat j)).
Proof.
  induction n as [| n IH];
    intros start delay data fo HL Hpix Hpos Hfit Hwf Hrows Hcols Hdelay.
  - exists delay, data. cbn [for_range Z.of_nat].
    rewrite Z.mul_0_l, Z.add_0_r. destruct fo as [content pos].
    split; [reflexivity |]. split; [reflexivity |]. split; [assumption |].
    split; [reflexivity |].
    split; [intros k Hk; lia | intros j Hj; split; reflexivity].
  - pose proof (Z.le_refl 0) as Hstride.
    assert (Hs : 0 <= frame_stride (sizeof_c_long p) pixels)
      by (unfold frame_stride; lia).
    destruct (read_frame_spec p pixels start delay data fo)
      as [data1 [Hstep [Hshape1 [Hwf1 [Hcol1 Hother1]]]]];
      try assumption; try lia.
    cbn [for_range]. rewrite Hstep. cbn [bind].
    destruct (IH (S start)
                (np.list_set start
                   (frame_delay_at (sizeof_c_long p) pixels (io.pos fo) 0
                      (io.content fo)) delay)
                data1
                (io.mkReader (io.content fo)
                   (io.pos fo + frame_stride (sizeof_c_long p) pixels)))
      as [delay' [data' [Hloop [Hshape [Hwf' [Hlen [Hnew Hold]]]]]]];
      cbn [io.pos io.content]; try assumption; try lia;
      try (rewrite Hshape1; assumption || lia);
      try (rewrite length_list_set; lia).
    cbn [io.pos io.content] in Hloop, Hnew.
    exists delay', data'.
    split.
    { rewrite Hloop. do 3 f_equal. lia. }
    split; [congruence |]. split; [assumption |].
    split; [rewrite Hlen; apply length_list_set |].
    split.
    + intros [| k] Hk.
      * rewrite Nat.add_0_r.
        destruct (Hold start) as [Hd Hc]; [lia |].
        rewrite Hd, Hc. split; [| assumption].
        apply nth_error_list_set_same. lia.
      * destruct (Hnew k) as [Hd Hc]; [lia |].
        replace (start + S k)%nat with (S start + k)%nat by lia.
        rewrite Hd, Hc.
        unfold frame_delay_at, frame_samples_at.
        replace (io.pos fo + frame_stride (sizeof_c_long p) pixels
                 + Z.of_nat k * frame_stride (sizeof_c_long p) pixels)
          with (io.pos fo
                + Z.of_nat (S k) * frame_stride (sizeof_c_long p) pixels)
          by lia.
        split; reflexivity.
    + intros j Hj.
      destruct (Hold j) as [Hd Hc]; [lia |].
      rewrite Hd, Hc. split.
      * apply nth_error_list_set_other. lia.
      * apply Hother1. lia.
Qed.

Lemma zeros2_spec (n m : Z) (a : np.ndarray2) :
  np.zeros2 n m = Ok a -> np.shape a = (n, m) /\ np.well_shaped a.
Proof.
  unfold np.zeros2. destruct (Z.ltb_spec n 0) as [Hn | Hn]; [discriminate |].
  destruct (Z.ltb_spec m 0) as [Hm | Hm]; [discriminate |].
  cbn [orb]. intros [= <-]. split; [reflexivity |].
  split; cbn [np.shape np.rows fst snd]; unfold zlength.
  - rewrite repeat_length. lia.
  - apply Forall_forall. intros row Hin. apply repeat_spec in Hin. subst row.
    rewrite repeat_length. lia.
Qed.

(** C2, as the code has it: the delay of a frame is read as a native C
    [long].  Where a [long] has eight bytes (64-bit Linux and macOS) the
    loop over [frames] records consumes frames * (8 + pixels * 8) bytes, the
    delay of frame k is the eight-byte integer at the start of record k
    divided by 100, and column k holds the [pixels] doubles behind it: the
    stride is not 4 + pixels * 8. *)
Theorem STR_frames_on_LP64 (pixels : Z) (frames : nat)
  (data : np.ndarray2) (fo : io.BufferedReader) :
  0 <= pixels -> 0 <= io.pos fo ->
  io.pos fo + Z.of_nat frames * (8 + pixels * 8) <= zlength (io.content fo) ->
  np.zeros2 pixels (Z.of_nat frames) = Ok data ->
  exists delay' data' fo',
    for_range 0 frames (STRFile.read_frame LP64 pixels)
      (repeat (0 # 1)%Q frames, data, fo)
    = Ok (delay', data', fo')
    /\ io.pos fo' - io.pos fo = Z.of_nat frames * (8 + pixels * 8)
    /\ ((0 < frames)%nat ->
        io.pos fo' - io.pos fo <> Z.of_nat frames * (4 + pixels * 8))
    /\ forall k : nat, (k < frames)%nat ->
         nth_error delay' k
         = Some (frame_delay_at 8 pixels (io.pos fo) k (io.content fo))
         /\ np.column data' (Z.of_nat k)
            = Ok (frame_samples_at 8 pixels (io.pos fo) k (io.content fo)).
Proof.
  intros Hpix Hpos Hfit Hzeros.
  destruct (zeros2_spec _ _ _ Hzeros) as [Hshape Hwf].
  destruct (read_frames_spec LP64 pixels frames 0
              (repeat (0 # 1)%Q frames) data fo)
    as [delay' [data' [Hloop [_ [_ [_ [Hnew _]]]]]]];
    cbn [sizeof_c_long LP64]; unfold frame_stride;
    try assumption; try lia;
    try (rewrite Hshape; cbn [fst snd]; lia);
    try (rewrite repeat_length; lia).
  cbn [sizeof_c_long LP64] in Hloop, Hnew. unfold frame_stride in Hloop.
  eexists delay', data', _. split; [exact Hloop |].
  cbn [io.pos]. split; [lia |]. split; [nia |].
  intros k Hk. apply (Hnew k Hk).
Qed.

(** The same loop where a [long] has four bytes (Windows, 32-bit systems):
    there the stride is 4 + pixels * 8, as the format has it. *)
Lemma STR_frames_on_LLP64 (pixels : Z) (frames : nat)
  (data : np.ndarray2) (fo : io.BufferedReader) :
  0 <= pixels -> 0 <= io.pos fo ->
  io.pos fo + Z.of_nat frames * (4 + pixels * 8) <= zlength (io.content fo) ->
  np.zeros2 pixels (Z.of_nat frames) = Ok data ->
  exists delay' data' fo',
    for_range 0 frames (STRFile.read_frame LLP64 pixels)
      (repeat (0 # 1)%Q frames, data, fo)
    = Ok (delay', data', fo')
    /\ io.pos fo' - io.pos fo = Z.of_nat frames * (4 + pixels * 8)
    /\ forall k : nat, (k < frames)%nat ->
         nth_error delay' k
         = Some (frame_delay_at 4 pixels (io.pos fo) k (io.content fo))
         /\ np.column data' (Z.of_nat k)
            = Ok (frame_samples_at 4 pixels (io.pos fo) k (io.content fo)).
Proof.
  intros Hpix Hpos Hfit Hzeros.
  destruct (zeros2_spec _ _ _ Hzeros) as [Hshape Hwf].
  destruct (read_frames_spec LLP64 pixels frames 0
              (repeat (0 # 1)%Q frames) data fo)
    as [delay' [data' [Hloop [_ [_ [_ [Hnew _]]]]]]];
    cbn [sizeof_c_long LLP64]; unfold frame_stride;
    try assumption; try lia;
    try (rewrite Hshape; cbn [fst snd]; lia);
    try (rewrite repeat_length; lia).
  cbn [sizeof_c_long LLP64] in Hloop, Hnew. unfold frame_stride in Hloop.
  eexists delay', data', _. split; [exact Hloop |].
  cbn [io.pos]. split; [lia |].
  intros k Hk. apply (Hnew k Hk).
Qed.

Lemma STR_frames_on_LP64_witness :
  exists delay' data' fo',
    for_range 0 1 (STRFile.read_frame LP64 1)
      ([(0 # 1)%Q], np.mkArray2 (1, 1) [[0]],
       io.open (Fixtures.le_bytes 8 250 ++ Fixtures.le_bytes 8 7))
    = Ok (delay', data', fo')
    /\ io.pos fo' = 16
    /\ nth_error delay' 0 = Some (250 # 100)%Q.
Proof.
  destruct (STR_frames_on_LP64 1 1 (np.mkArray2 (1, 1) [[0]])
              (io.open (Fixtures.le_bytes 8 250 ++ Fixtures.le_bytes 8 7)))
    as [delay' [data' [fo' [Hloop [Hpos [_ Hnew]]]]]];
    try (vm_compute; congruence); try reflexivity.
  exists delay', data', fo'. split; [exact Hloop |].
  split; [cbn in Hpos; lia |].
  destruct (Hnew 0%nat) as [Hd _]; [lia |].
  rewrite Hd. vm_compute. reflexivity.
Defined.

(** A file whose delays are written on four bytes, read on both kinds of
    platform: with a four-byte [long] it parses, with an eight-byte [long]
    every delay swallows the first half of the sample behind it and the
    parse fails. *)
Lemma STR_four_byte_delays_need_four_byte_long :
  (exists f, STRFile.__init__ LLP64 (Fixtures.str_two_frames 4) = Ok f
             /\ STRFile.delay f = [(100 # 100)%Q; (250 # 100)%Q]
             /\ np.column (STRFile.data f) 1 = Ok [11; 21; 31; 41])
  /\ STRFile.__init__ LP64 (Fixtures.str_two_frames 4) = Raise ValueError.
Proof.
  split; [| vm_compute; reflexivity].
  destruct (STRFile.__init__ LLP64 (Fixtures.str_two_frames 4))
    as [f | e] eqn:E; vm_compute in E; [| discriminate E].
  exists f. injection E as <-. repeat split.
Qed.

(** ** The active pixels *)

(** A parsed STR file maps an [STRInfoBlock]. *)
Lemma STRFile_init_mapping (p : platform) (content : list byte) (f : STRFile.t) :
  STRFile.__init__ p content = Ok f ->
  exists buf,
    STRFile._mapping f = StructMapping___init__ (mkInstance STRInfoBlock buf).
Proof.
  unfold STRFile.__init__. intros H. cbv zeta in H.
  destruct (io.readinto (new STRPreamble) (io.open content))
    as [preamble fo] eqn:Epre.
  bind_inv H as FileType Hft.
  destruct (negb _); [discriminate |].
  destruct (io.readinto (new STRInfoBlock) fo) as [header fo1] eqn:Ehdr.
  pose proof (readinto_ctype (new STRInfoBlock) fo) as Hty.
  rewrite Ehdr in Hty. cbn [fst] in Hty.
  bind_inv H as fo2 Hseek.
  destruct (io.read 6 fo2) as [raw fo3].
  bind_inv H as u Hu. destruct u as [[[pixels b1] p2] b2].
  bind_inv H as fo4 Hskip.
  destruct (np.fromfile (sizeof c_double) pixels fo4) as [wl fo5].
  destruct (np.fromfile (sizeof c_double) pixels fo5) as [dk fo6].
  destruct (np.fromfile (sizeof c_double) pixels fo6) as [rf fo7].
  bind_inv H as frames Hframes. bind_inv H as data Hdata.
  bind_inv H as st Hloop. destruct st as [[delay' data'] fo8].
  injection H as <-. cbn [STRFile._mapping].
  destruct header as [ty buf]. cbn in Hty. subst ty.
  exists buf. reflexivity.
Qed.

Lemma block_StartPixel (f : STRFile.t) (buf : list byte) :
  STRFile._mapping f = StructMapping___init__ (mkInstance STRInfoBlock buf) ->
  STRFile.StartPixel f
  = Ok (le_uint (field_bytes 0 2 (field_bytes 80 41 buf))).
Proof.
  intros Hm. unfold STRFile.StartPixel, STRFile.__getattr__. rewrite Hm.
  reflexivity.
Qed.

Lemma block_StopPixel (f : STRFile.t) (buf : list byte) :
  STRFile._mapping f = StructMapping___init__ (mkInstance STRInfoBlock buf) ->
  STRFile.StopPixel f
  = Ok (le_uint (field_bytes 2 2 (field_bytes 80 41 buf))).
Proof.
  intros Hm. unfold STRFile.StopPixel, STRFile.__getattr__. rewrite Hm.
  reflexivity.
Qed.

(** The channel of a regular file counts both ends of the pixel range. *)
Lemma AVSChannel_len_counts_both_ends (content : list byte) (f : AVSFile.t)
  (c : AVSChannel.t) :
  AVSFile.__init__ content = Ok f -> In c (AVSFile.channels f) ->
  exists start stop,
    int_attr (AVSChannel.__getattr__ c "Measurement") "StartPixel" = Ok start
    /\ int_attr (AVSChannel.__getattr__ c "Measurement") "StopPixel" = Ok stop
    /\ AVSChannel.__len__ c = Ok (stop - start + 1)
    /\ (0 <= stop - start + 1 ->
        AVSChannel.len c = Ok (stop - start + 1)
        /\ AVSChannel.pixels c = Ok (stop - start + 1)).
Proof.
  intros Hinit Hin.
  destruct (AVSFile_init_spec content f Hinit) as [n [_ [_ [_ Hall]]]].
  rewrite Forall_forall in Hall. destruct (Hall c Hin) as [buf [data ->]].
  exists (le_uint (field_bytes 0 2 (field_bytes 83 41 buf))),
         (le_uint (field_bytes 2 2 (field_bytes 83 41 buf))).
  split; [reflexivity |]. split; [reflexivity |].
  split; [apply block_len |].
  intros Hnonneg. unfold AVSChannel.pixels, AVSChannel.len.
  rewrite block_len. cbn [len_of bind].
  destruct (Z.ltb_spec
              (le_uint (field_bytes 2 2 (field_bytes 83 41 buf))
               - le_uint (field_bytes 0 2 (field_bytes 83 41 buf)) + 1) 0)
    as [Hneg | _]; [lia |].
  split; reflexivity.
Qed.

(** C1, as the code has it: for every STR file that parses, [pixels] is
    StopPixel - StartPixel, one less than the number of active pixels that
    the channel of a regular file reports for the same configuration. *)
Theorem STRFile_pixels_is_stop_minus_start
  (p : platform) (content : list byte) (f : STRFile.t) :
  STRFile.__init__ p content = Ok f ->
  exists start stop,
    STRFile.StartPixel f = Ok start
    /\ STRFile.StopPixel f = Ok stop
    /\ STRFile.pixels f = Ok (stop - start)
    /\ STRFile.pixels f <> Ok (stop - start + 1).
Proof.
  intros Hinit.
  destruct (STRFile_init_mapping p content f Hinit) as [buf Hm].
  pose proof (block_StartPixel f buf Hm) as Hstart.
  pose proof (block_StopPixel f buf Hm) as Hstop.
  eexists _, _. split; [exact Hstart |]. split; [exact Hstop |].
  unfold STRFile.pixels. rewrite Hstart, Hstop. cbn [bind].
  split; [reflexivity |]. intros [= Heq]. lia.
Qed.

Lemma STRFile_pixels_is_stop_minus_start_witness :
  exists f,
    STRFile.__init__ LLP64 (Fixtures.str_two_frames 4) = Ok f
    /\ STRFile.StartPixel f = Ok 0
    /\ STRFile.StopPixel f = Ok 3
    /\ STRFile.pixels f = Ok 3.
Proof.
  destruct (STRFile.__init__ LLP64 (Fixtures.str_two_frames 4))
    as [f | e] eqn:E; [| vm_compute in E; discriminate E].
  exists f. split; [reflexivity |].
  destruct (STRFile_pixels_is_stop_minus_start LLP64
              (Fixtures.str_two_frames 4) f E)
    as [start [stop [Hstart [Hstop [Hpix _]]]]].
  assert (Hv : STRFile.StartPixel f = Ok 0 /\ STRFile.StopPixel f = Ok 3).
  { vm_compute in E. injection E as <-. split; vm_compute; reflexivity. }
  destruct Hv as [H0 H3].
  rewrite H0 in Hstart. rewrite H3 in Hstop.
  injection Hstart as <-. injection Hstop as <-.
  repeat split; assumption.
Defined.

(** ** Dark correction *)

(** The signal of a channel is scope minus dark, item by item. *)
Lemma AVSChannel_signal_elementwise (fsub : Z -> Z -> Z) (c : AVSChannel.t)
  (s d : list Z) :
  AVSChannel.scope c = Ok s -> AVSChannel.dark c = Ok d ->
  List.length s = List.length d
  /\ AVSChannel.signal fsub c = Ok (np.zip_with fsub s d).
Proof.
  unfold AVSChannel.signal, AVSChannel.scope, AVSChannel.dark, np.column.
  intros Hs Hd. rewrite Hs, Hd. cbn [bind].
  bind_inv Hs as j1 Hj1. bind_inv Hd as j2 Hj2.
  injection Hs as <-. injection Hd as <-.
  rewrite !length_map. split; [reflexivity |].
  unfold np.sub1, zlength. rewrite !length_map, Z.eqb_refl. reflexivity.
Qed.

(** A frame taken by index is its active column minus the active dark
    array, item by item, whenever the two have the same length. *)
Lemma STRFile_getitem_elementwise (fsub : Z -> Z -> Z) (f : STRFile.t)
  (index start stop : Z) (col : list Z) :
  STRFile.StartPixel f = Ok start -> STRFile.StopPixel f = Ok stop ->
  np.column (np.row_slice start stop (STRFile.data f)) index = Ok col ->
  List.length (np.rows (STRFile.data f)) = List.length (STRFile._dark f) ->
  STRFile.dark f = Ok (slice start stop (STRFile._dark f))
  /\ STRFile.__getitem__ fsub f index
     = Ok (np.zip_with fsub col (slice start stop (STRFile._dark f))).
Proof.
  intros Hstart Hstop Hcol Hlen.
  assert (Hdark : STRFile.dark f = Ok (slice start stop (STRFile._dark f)))
    by (unfold STRFile.dark; rewrite Hstart, Hstop; reflexivity).
  split; [assumption |].
  unfold STRFile.__getitem__. rewrite Hstart, Hstop. cbn [bind].
  rewrite Hcol. cbn [bind]. rewrite Hdark. cbn [bind].
  unfold np.column in Hcol. bind_inv Hcol as j Hj. injection Hcol as <-.
  unfold np.sub1, zlength. rewrite length_map. cbn [np.row_slice np.rows].
  unfold slice. rewrite !length_skipn, !length_firstn, Hlen, Z.eqb_refl.
  reflexivity.
Qed.

(** When neither the number of frames nor the number of active rows is the
    length of the dark array or 1, the subtraction of [signal] cannot be
    broadcast. *)
Lemma STRFile_signal_shape_mismatch (fsub : Z -> Z -> Z) (f : STRFile.t)
  (start stop : Z) :
  STRFile.StartPixel f = Ok start -> STRFile.StopPixel f = Ok stop ->
  snd (np.shape (STRFile.data f))
    <> zlength (slice start stop (STRFile._dark f)) ->
  zlength (slice start stop (STRFile._dark f)) <> 1 ->
  snd (np.shape (STRFile.data f)) <> 1 ->
  STRFile.signal fsub f = Raise ValueError.
Proof.
  intros Hstart Hstop Hne Hk Hm.
  unfold STRFile.signal, STRFile.dark. rewrite Hstart, Hstop. cbn [bind].
  unfold np.sub2_1, np.row_slice. cbn [np.shape np.rows].
  destruct (Z.eqb_spec (snd (np.shape (STRFile.data f)))
              (zlength (slice start stop (STRFile._dark f))))
    as [Heq | _]; [contradiction |].
  destruct (Z.eqb_spec (zlength (slice start stop (STRFile._dark f))) 1)
    as [Heq | _]; [contradiction |].
  destruct (Z.eqb_spec (snd (np.shape (STRFile.data f))) 1)
    as [Heq | _]; [contradiction |].
  reflexivity.
Qed.

(** C6, as the code has it: on a file of two frames with three active
    pixels each frame taken by index is scope minus dark, but [signal]
    raises [ValueError]: numpy aligns the dark array of three items with the
    two frames of the last axis.  Where the shapes happen to agree (two
    frames, two active pixels) [signal] subtracts the dark value of pixel k
    from frame k, which is not what indexing the frames returns. *)
Theorem STRFile_signal_is_not_scope_minus_dark (fsub : Z -> Z -> Z) :
  (exists f,
     STRFile.__init__ LLP64 (Fixtures.str_two_frames 4) = Ok f
     /\ STRFile.dark f = Ok [5; 6; 7]
     /\ STRFile.__getitem__ fsub f 0 = Ok [fsub 10 5; fsub 20 6; fsub 30 7]
     /\ STRFile.__getitem__ fsub f 1 = Ok [fsub 11 5; fsub 21 6; fsub 31 7]
     /\ STRFile.signal fsub f = Raise ValueError)
  /\ (exists f,
        STRFile.__init__ LLP64 Fixtures.str_square = Ok f
        /\ STRFile.dark f = Ok [5; 6]
        /\ STRFile.__getitem__ fsub f 0 = Ok [fsub 10 5; fsub 20 6]
        /\ STRFile.__getitem__ fsub f 1 = Ok [fsub 11 5; fsub 21 6]
        /\ STRFile.signal fsub f
           = Ok (np.mkArray2 (2, 2)
                   [[fsub 10 5; fsub 11 6]; [fsub 20 5; fsub 21 6]])).
Proof.
  split.
  - destruct (STRFile.__init__ LLP64 (Fixtures.str_two_frames 4))
      as [f | e] eqn:E; vm_compute in E; [| discriminate E].
    exists f. injection E as <-. repeat split.
  - destruct (STRFile.__init__ LLP64 Fixtures.str_square)
      as [f | e] eqn:E; vm_compute in E; [| discriminate E].
    exists f. injection E as <-. repeat split.
Qed.

(** ** The entry point *)

Lemma Qlt_bool_iff (a b : Q) : Qlt_bool a b = true <-> (a < b)%Q.
Proof.
  unfold Qlt_bool. rewrite negb_true_iff, <- not_true_iff_false, Qle_bool_iff.
  split; [apply Qnot_le_lt | apply Qlt_not_le].
Qed.

Lemma read_file_on_file (p : platform) (content : list byte) :
  read_file p (File content)
  = (file_format <- builtins.decode (slice 0 3 (firstn 5 content)) ;;
     n <- builtins.int (slice 3 5 (firstn 5 content)) ;;
     if builtins.str_eqb (builtins.upper file_format) (builtins.str_of "AVS")
     then
       if Qlt_bool (Qmake n 10) (8 # 1) then Raise AvaReadException
       else fmap IsAVS (AVSFile.__init__ content)
     else if builtins.str_eqb (builtins.upper file_format)
               (builtins.str_of "STR")
     then
       if Qlt_bool (Qmake n 10) (8 # 1) then Raise AvaReadException
       else fmap IsSTR (STRFile.__init__ p content)
     else Raise AvaReadException).
Proof. reflexivity. Qed.

(** Magic bytes that are neither "AVS" nor "STR" do not always end in the
    format error.  Three bytes that are not UTF-8 raise
    [UnicodeDecodeError], and version bytes that are not a number (or a file
    shorter than five bytes) raise [ValueError], both before the magic bytes
    are looked at. *)
Lemma read_file_bad_magic_other_errors :
  read_file LP64 (File ([xff; xfe; xfd] ++ list_byte_of_string "80"))
  = Raise UnicodeDecodeError
  /\ read_file LP64 (File (list_byte_of_string "XYZab")) = Raise ValueError
  /\ read_file LP64 (File []) = Raise ValueError
  /\ issubclass UnicodeDecodeError AvaReadException = false
  /\ issubclass ValueError AvaReadException = false.
Proof. repeat split; vm_compute; reflexivity. Qed.

(** Where the two conversions succeed, [read_file] does what its branches
    say: a missing path and a directory fail with
    [FileNotFoundError].  For a file whose first three bytes decode as UTF-8
    and whose next two bytes read as an integer n (the version is n / 10):
    a magic other than "AVS" or "STR", compared without regard to case,
    fails with the format error; a version below 8 fails with the format
    error; otherwise the file goes to the AVS or to the STR parser,
    according to its magic. *)
Theorem read_file_outcomes (p : platform) :
  read_file p Missing = Raise FileNotFoundError
  /\ read_file p Directory = Raise FileNotFoundError
  /\ forall (content : list byte) (file_format : builtins.str) (n : Z),
       builtins.decode (slice 0 3 (firstn 5 content)) = Ok file_format ->
       builtins.int (slice 3 5 (firstn 5 content)) = Ok n ->
       (builtins.upper file_format <> builtins.str_of "AVS" ->
        builtins.upper file_format <> builtins.str_of "STR" ->
        read_file p (File content) = Raise AvaReadException)
       /\ ((n # 10 < 8 # 1)%Q ->
           read_file p (File content) = Raise AvaReadException)
       /\ (~ (n # 10 < 8 # 1)%Q ->
           builtins.upper file_format = builtins.str_of "AVS" ->
           read_file p (File content) = fmap IsAVS (AVSFile.__init__ content))
       /\ (~ (n # 10 < 8 # 1)%Q ->
           builtins.upper file_format = builtins.str_of "STR" ->
           read_file p (File content)
           = fmap IsSTR (STRFile.__init__ p content)).
Proof.
  split; [reflexivity |]. split; [reflexivity |].
  intros content file_format n Hdec Hint.
  rewrite read_file_on_file, Hdec, Hint. cbn [bind].
  split; [| split; [| split]].
  - intros Hna Hns.
    destruct (builtins.str_eqb _ (builtins.str_of "AVS")) eqn:Eavs;
      [apply str_eqb_eq in Eavs; contradiction |].
    destruct (builtins.str_eqb _ (builtins.str_of "STR")) eqn:Estr;
      [apply str_eqb_eq in Estr; contradiction |].
    reflexivity.
  - intros Hlt. apply Qlt_bool_iff in Hlt. rewrite Hlt.
    destruct (builtins.str_eqb _ (builtins.str_of "AVS"));
      [reflexivity |].
    destruct (builtins.str_eqb _ (builtins.str_of "STR")); reflexivity.
  - intros Hge Havs. rewrite Havs.
    destruct (Qlt_bool (n # 10) (8 # 1)) eqn:Ever;
      [apply Qlt_bool_iff in Ever; contradiction |].
    reflexivity.
  - intros Hge Hstr. rewrite Hstr.
    destruct (Qlt_bool (n # 10) (8 # 1)) eqn:Ever;
      [apply Qlt_bool_iff in Ever; contradiction |].
    reflexivity.
Qed.

Lemma read_file_outcomes_witness :
  read_file LLP64 (File (list_byte_of_string "XYZ80")) = Raise AvaReadException
  /\ read_file LLP64 (File (list_byte_of_string "avs79"))
     = Raise AvaReadException.
Proof.
  destruct (read_file_outcomes LLP64) as [_ [_ H]].
  split.
  - destruct (H (list_byte_of_string "XYZ80") (builtins.str_of "XYZ") 80)
      as [Hmagic _]; [reflexivity | reflexivity |].
    apply Hmagic; vm_compute; discriminate.
  - destruct (H (list_byte_of_string "avs79") (builtins.str_of "avs") 79)
      as [_ [Hold _]]; [reflexivity | reflexivity |].
    apply Hold. vm_compute. reflexivity.
Defined.

(* ================================================================== *)
(** * Further properties of the reader *)
(* ================================================================== *)

(** ** The timestamp decoder, read backwards *)

Lemma make_Ok (y m d h mi : Z) (t : datetime.t) :
  datetime.make y m d h mi = Ok t ->
  t = datetime.mk y m d h mi
  /\ 1 <= y <= 9999 /\ 1 <= m <= 12 /\ 1 <= d <= datetime.days_in_month y m
  /\ 0 <= h <= 23 /\ 0 <= mi <= 59.
Proof.
  unfold datetime.make, datetime.MINYEAR, datetime.MAXYEAR.
  destruct (negb (datetime.fits_c_int y && datetime.fits_c_int m
                  && datetime.fits_c_int d && datetime.fits_c_int h
                  && datetime.fits_c_int mi)); [discriminate |].
  destruct (Z.leb_spec 1 y); destruct (Z.leb_spec y 9999);
    cbn [andb negb]; try discriminate.
  destruct (Z.leb_spec 1 m); destruct (Z.leb_spec m 12);
    cbn [andb negb]; try discriminate.
  destruct (Z.leb_spec 1 d);
    destruct (Z.leb_spec d (datetime.days_in_month y m));
    cbn [andb negb]; try discriminate.
  destruct (Z.leb_spec 0 h); destruct (Z.leb_spec h 23);
    cbn [andb negb]; try discriminate.
  destruct (Z.leb_spec 0 mi); destruct (Z.leb_spec mi 59);
    cbn [andb negb]; try discriminate.
  intros [= <-]. repeat split; assumption.
Qed.

(** X1: whenever the decoder accepts a timestamp, packing the fields of the
    date it returns gives the timestamp back: the decoder loses no bit and
    no two timestamps decode to the same date. *)
Theorem extract_then_pack (ts : Z) (t : datetime.t) :
  _extract_datetime ts = Ok t ->
  pack_timestamp_spec (datetime.year t) (datetime.month t) (datetime.day t)
    (datetime.hour t) (datetime.minute t) = ts.
Proof.
  unfold _extract_datetime. intros H.
  apply make_Ok in H. destruct H as [-> [_ [Hm [Hd [Hh Hmi]]]]].
  cbn [datetime.year datetime.month datetime.day datetime.hour
       datetime.minute].
  pose proof (days_in_month_le_31 (Z.shiftr ts 20) (Z.shiftr ts 16 mod 16)).
  rewrite pack_value by lia.
  rewrite !Z.shiftr_div_pow2 by lia.
  change (2 ^ 6) with 64. change (2 ^ 11) with 2048.
  change (2 ^ 16) with 65536. change (2 ^ 20) with 1048576.
  pose proof (Z.div_mod ts 64 ltac:(lia)) as E0.
  pose proof (Z.div_mod (ts / 64) 32 ltac:(lia)) as E1.
  pose proof (Z.div_mod (ts / 2048) 32 ltac:(lia)) as E2.
  pose proof (Z.div_mod (ts / 65536) 16 ltac:(lia)) as E3.
  replace (ts / 64 / 32) with (ts / 2048) in E1
    by (rewrite Z.div_div by lia; reflexivity).
  replace (ts / 2048 / 32) with (ts / 65536) in E2
    by (rewrite Z.div_div by lia; reflexivity).
  replace (ts / 65536 / 16) with (ts / 1048576) in E3
    by (rewrite Z.div_div by lia; reflexivity).
  lia.
Qed.

Lemma extract_then_pack_witness :
  pack_timestamp_spec 2024 2 29 23 59 = 2122509819
  /\ _extract_datetime 2122509819 = Ok (datetime.mk 2024 2 29 23 59).
Proof.
  split; [| vm_compute; reflexivity].
  apply (extract_then_pack 2122509819 (datetime.mk 2024 2 29 23 59)).
  vm_compute. reflexivity.
Defined.

(** ** The field mapper on fields mapped to an enumeration *)

Lemma member_below (v bound : Z) (members : list (string * Z)) :
  map snd members = map Z.of_nat (seq 0 (Z.to_nat bound + 1)) ->
  0 <= v -> 0 <= bound ->
  existsb (fun mb => snd mb =? v) members = (v <=? bound).
Proof.
  intros Hvals Hv Hb.
  assert (E : existsb (fun mb => snd mb =? v) members
              = existsb (fun x => x =? v) (map snd members)).
  { clear. induction members as [| mb r IH]; cbn; [reflexivity |].
    rewrite IH. reflexivity. }
  rewrite E, Hvals.
  destruct (Z.leb_spec v bound) as [Hle | Hgt].
  - apply existsb_exists. exists v. split; [| apply Z.eqb_refl].
    apply in_map_iff. exists (Z.to_nat v). split; [lia |].
    apply in_seq. lia.
  - apply not_true_iff_false. intros Hex.
    apply existsb_exists in Hex. destruct Hex as [x [Hin Hx]].
    apply Z.eqb_eq in Hx. subst x.
    apply in_map_iff in Hin. destruct Hin as [k [Hk Hin]].
    apply in_seq in Hin. lia.
Qed.

(** X3: an enumerated field answers with the member of its enumeration when
    the stored byte is one of the declared values and raises [ValueError]
    otherwise; nothing is passed through or replaced by a default.  Shown
    for the measurement mode of a channel and, through the dotted path
    [Measurement.Trigger.Mode], for the trigger mode. *)
Theorem enum_field_outcome (content : list byte) (f : AVSFile.t)
  (c : AVSChannel.t) :
  AVSFile.__init__ content = Ok f -> In c (AVSFile.channels f) ->
  let header := buffer (struct (AVSChannel._mapping c)) in
  let mode := le_uint (field_bytes 5 1 header) in
  let trig := le_uint (field_bytes 0 1
                         (field_bytes 22 3 (field_bytes 83 41 header))) in
  AVSChannel.__getattr__ c "measurementEnum"
  = (if mode <=? 7 then Ok (PyEnum MeasurementEnum mode)
     else Raise ValueError)
  /\ attr (attr (AVSChannel.__getattr__ c "Measurement") "Trigger") "Mode"
     = (if trig <=? 1 then Ok (PyEnum TrigMode trig) else Raise ValueError).
Proof.
  intros Hinit Hin.
  destruct (AVSFile_init_spec content f Hinit) as [n [_ [_ [_ Hall]]]].
  rewrite Forall_forall in Hall. destruct (Hall c Hin) as [buf [data ->]].
  cbn zeta.
  change (buffer (struct (AVSChannel._mapping
            (AVSChannel.__init__ (mkInstance AVSInfoBlock buf) data))))
    with buf.
  split.
  - change (AVSChannel.__getattr__
              (AVSChannel.__init__ (mkInstance AVSInfoBlock buf) data)
              "measurementEnum")
      with (IntEnum_call MeasurementEnum (le_uint (field_bytes 5 1 buf))).
    unfold IntEnum_call.
    rewrite (member_below _ 7) by
      (try reflexivity; try lia; apply le_uint_nonneg).
    reflexivity.
  - change (attr (attr (AVSChannel.__getattr__
                          (AVSChannel.__init__ (mkInstance AVSInfoBlock buf)
                             data) "Measurement") "Trigger") "Mode")
      with (IntEnum_call TrigMode
              (le_uint (field_bytes 0 1
                          (field_bytes 22 3 (field_bytes 83 41 buf))))).
    unfold IntEnum_call.
    rewrite (member_below _ 1) by
      (try reflexivity; try lia; apply le_uint_nonneg).
    reflexivity.
Qed.

Lemma enum_field_outcome_witness :
  exists f c,
    AVSFile.__init__ Fixtures.avs_one_channel = Ok f
    /\ In c (AVSFile.channels f)
    /\ AVSChannel.__getattr__ c "measurementEnum"
       = Ok (PyEnum MeasurementEnum 0).
Proof.
  destruct (AVSFile.__init__ Fixtures.avs_one_channel) as [f | e] eqn:E;
    [| vm_compute in E; discriminate E].
  destruct (AVSFile.channels f) as [| c r] eqn:Hc;
    [vm_compute in E; injection E as <-; discriminate Hc |].
  exists f, c. split; [reflexivity |].
  assert (Hin : In c (AVSFile.channels f)) by (rewrite Hc; left; reflexivity).
  split; [exact Hin |].
  destruct (enum_field_outcome Fixtures.avs_one_channel f c E Hin) as [Hm _].
  rewrite Hm.
  vm_compute in E. injection E as <-. injection Hc as <- _.
  vm_compute. reflexivity.
Defined.

(** ** Text fields *)

Lemma plain_not_nul (b : byte) : plain b = true -> Byte.eqb b x00 = false.
Proof.
  unfold plain. intros H. apply andb_true_iff in H. destruct H as [Hpos _].
  apply Z.ltb_lt in Hpos.
  destruct (Byte.eqb b x00) eqn:E; [| reflexivity].
  apply byte_dec_bl in E. subst b. vm_compute in Hpos. discriminate Hpos.
Qed.

(** What precedes the first NUL is kept, what follows is dropped. *)
Lemma until_nul_plain (s tail : list byte) :
  forallb plain s = true ->
  tail = [] \/ (exists g, tail = x00 :: g) ->
  until_nul (s ++ tail) = s.
Proof.
  intros Hs Htail. induction s as [| b r IH]; cbn [app until_nul].
  - destruct Htail as [-> | [g ->]]; reflexivity.
  - cbn [forallb] in Hs. apply andb_true_iff in Hs. destruct Hs as [Hb Hr].
    rewrite (plain_not_nul b Hb), (IH Hr). reflexivity.
Qed.

Lemma utf8_scan_plain (s : list byte) : forall fuel,
  forallb plain s = true -> (List.length s <= fuel)%nat ->
  builtins.utf8_scan fuel (map byte_val s) = map (fun b => Some (byte_val b)) s.
Proof.
  induction s as [| b r IH]; intros fuel Hs Hfuel.
  - destruct fuel; reflexivity.
  - cbn [forallb] in Hs. apply andb_true_iff in Hs. destruct Hs as [Hb Hr].
    destruct fuel as [| fuel]; [cbn in Hfuel; lia |].
    cbn [map builtins.utf8_scan builtins.utf8_step].
    unfold plain in Hb. apply andb_true_iff in Hb. destruct Hb as [_ Hlt].
    rewrite Hlt. cbn [skipn]. rewrite IH by (cbn in Hfuel; try assumption; lia).
    reflexivity.
Qed.

(** Plain text decodes to itself, byte for code point. *)
Lemma decode_ignore_plain (s : list byte) :
  forallb plain s = true -> builtins.decode_ignore s = map byte_val s.
Proof.
  intros Hs. unfold builtins.decode_ignore, builtins.utf8_events.
  rewrite utf8_scan_plain by (try assumption; lia).
  clear Hs. induction s as [| b r IH]; cbn; [reflexivity |].
  rewrite IH. reflexivity.
Qed.

(** X4: the serial number of a channel is the text its header holds before
    the first NUL byte: plain ASCII text written into the ten-byte field and
    followed by a NUL or by the end of the field is returned as it is, and
    whatever follows the NUL does not show. *)
Theorem serial_is_text_before_nul (content : list byte) (f : AVSFile.t)
  (c : AVSChannel.t) (s tail : list byte) :
  AVSFile.__init__ content = Ok f -> In c (AVSFile.channels f) ->
  field_bytes 0 10
    (field_bytes 8 75 (buffer (struct (AVSChannel._mapping c)))) = s ++ tail ->
  forallb plain s = true ->
  tail = [] \/ (exists g, tail = x00 :: g) ->
  AVSChannel.serial c = Ok (PyStr (map byte_val s)).
Proof.
  intros Hinit Hin Hfield Hs Htail.
  destruct (AVSFile_init_spec content f Hinit) as [n [_ [_ [_ Hall]]]].
  rewrite Forall_forall in Hall. destruct (Hall c Hin) as [buf [data ->]].
  rewrite block_serial.
  change (buffer (struct (AVSChannel._mapping
            (AVSChannel.__init__ (mkInstance AVSInfoBlock buf) data))))
    with buf in Hfield.
  rewrite Hfield, until_nul_plain, decode_ignore_plain by assumption.
  reflexivity.
Qed.

Lemma serial_is_text_before_nul_witness :
  exists f c,
    AVSFile.__init__ Fixtures.avs_one_channel = Ok f
    /\ In c (AVSFile.channels f)
    /\ AVSChannel.serial c = Ok (PyStr (builtins.str_of "SN0001")).
Proof.
  destruct (AVSFile.__init__ Fixtures.avs_one_channel) as [f | e] eqn:E;
    [| vm_compute in E; discriminate E].
  destruct (AVSFile.channels f) as [| c r] eqn:Hc;
    [vm_compute in E; injection E as <-; discriminate Hc |].
  exists f, c. split; [reflexivity |].
  assert (Hin : In c (AVSFile.channels f)) by (rewrite Hc; left; reflexivity).
  split; [exact Hin |].
  apply (serial_is_text_before_nul Fixtures.avs_one_channel f c
           (list_byte_of_string "SN0001") (repeat x00 4) E Hin).
  - vm_compute in E. injection E as <-. injection Hc as <- _.
    vm_compute. reflexivity.
  - vm_compute. reflexivity.
  - right. exists (repeat x00 3). reflexivity.
Defined.

(** ** Indexing a regular file *)

(** X5: positions at or beyond the number of channels and positions below
    its negative raise [IndexError]; the negative positions in between count
    from the end, so that [file[-1]] is the last channel. *)
Theorem AVSFile_index_bounds (f : AVSFile.t) (i : Z) :
  let C := zlength (AVSFile.channels f) in
  (C <= i \/ i < - C ->
   AVSFile.__getitem__ f (PyInt i) = Raise IndexError)
  /\ (- C <= i < 0 ->
      AVSFile.__getitem__ f (PyInt i) = AVSFile.__getitem__ f (PyInt (i + C))
      /\ exists c, nth_error (AVSFile.channels f) (Z.to_nat (i + C)) = Some c
                   /\ AVSFile.__getitem__ f (PyInt i) = Ok c).
Proof.
  cbv zeta. cbn [AVSFile.__getitem__]. unfold builtins.list_getitem.
  cbv zeta. set (C := zlength (AVSFile.channels f)).
  assert (HC : 0 <= C) by (subst C; unfold zlength; lia).
  split.
  - intros [Hhigh | Hlow].
    + destruct (Z.leb_spec C i) as [_ | Hlt]; [reflexivity | lia].
    + assert (E1 : (C <=? i) = false) by (apply Z.leb_gt; lia).
      assert (E2 : (i <? 0) = true) by (apply Z.ltb_lt; lia).
      assert (E3 : (i + C <? 0) = true) by (apply Z.ltb_lt; lia).
      rewrite E1, E2, E3. reflexivity.
  - intros Hi.
    assert (E1 : (C <=? i) = false) by (apply Z.leb_gt; lia).
    assert (E2 : (i <? 0) = true) by (apply Z.ltb_lt; lia).
    assert (E3 : (i + C <? 0) = false) by (apply Z.ltb_ge; lia).
    assert (E4 : (C <=? i + C) = false) by (apply Z.leb_gt; lia).
    rewrite E1, E2, E4, !E3, E4. cbn [orb].
    destruct (nth_error (AVSFile.channels f) (Z.to_nat (i + C)))
      as [c |] eqn:Hnth.
    + split; [reflexivity | exists c; split; reflexivity].
    + apply nth_error_None in Hnth. subst C. unfold zlength in *. lia.
Qed.

Lemma AVSFile_index_bounds_witness :
  exists f,
    AVSFile.__init__ Fixtures.avs_two_channels = Ok f
    /\ AVSFile.__getitem__ f (PyInt 5) = Raise IndexError
    /\ AVSFile.__getitem__ f (PyInt (-3)) = Raise IndexError
    /\ AVSFile.__getitem__ f (PyInt (-1)) = AVSFile.__getitem__ f (PyInt 1).
Proof.
  destruct (AVSFile.__init__ Fixtures.avs_two_channels) as [f | e] eqn:E;
    [| vm_compute in E; discriminate E].
  exists f. split; [reflexivity |].
  assert (HC : zlength (AVSFile.channels f) = 2)
    by (vm_compute in E; injection E as <-; reflexivity).
  split; [| split].
  - apply (AVSFile_index_bounds f 5). rewrite HC. lia.
  - apply (AVSFile_index_bounds f (-3)). rewrite HC. lia.
  - destruct (AVSFile_index_bounds f (-1)) as [_ H].
    rewrite HC in H. apply H. lia.
Defined.

Lemma index_None {A} (eqb : A -> A -> bool) (x : A) (xs : list A) :
  (forall y, In y xs -> eqb y x = false) -> builtins.index eqb x xs = None.
Proof.
  induction xs as [| y r IH]; intros H; cbn [builtins.index];
    [reflexivity |].
  rewrite (H y) by (left; reflexivity).
  rewrite IH by (intros z Hz; apply H; right; assumption). reflexivity.
Qed.

Lemma mapM_In {A B} (f : A -> result B) (xs : list A) : forall ys,
  mapM f xs = Ok ys ->
  forall y, In y ys -> exists x, In x xs /\ f x = Ok y.
Proof.
  induction xs as [| x0 r IH]; intros ys H y Hy; cbn [mapM] in H.
  - injection H as <-. contradiction.
  - bind_inv H as y0 Hy0. bind_inv H as ys' Hys. injection H as <-.
    destruct Hy as [<- | Hy].
    + exists x0. split; [left; reflexivity | assumption].
    + destruct (IH ys' Hys y Hy) as [x [Hin Hx]].
      exists x. split; [right; assumption | assumption].
Qed.

(** X6: in a regular file that parses, a text key that is the serial number
    of no channel raises [KeyError]. *)
Theorem AVSFile_unknown_key (content : list byte) (f : AVSFile.t)
  (key : builtins.str) :
  AVSFile.__init__ content = Ok f ->
  (forall c, In c (AVSFile.channels f) ->
     AVSChannel.serial c <> Ok (PyStr key)) ->
  AVSFile.__getitem__ f (PyStr key) = Raise KeyError.
Proof.
  intros Hinit Hnone.
  destruct (AVSFile_init_spec content f Hinit) as [n [_ [_ [_ Hall]]]].
  assert (Hser : Forall (fun c0 => exists y, AVSChannel.serial c0 = Ok y)
                   (AVSFile.channels f)).
  { eapply Forall_impl; [| exact Hall].
    intros c0 [buf [data ->]]. rewrite block_serial. eauto. }
  destruct (mapM_total _ _ Hser) as [keys Hkeys].
  assert (Hidx : builtins.index py_eq (PyStr key) keys = None).
  { apply index_None. intros y Hy.
    destruct (mapM_In _ _ keys Hkeys y Hy) as [c [Hc Hy']].
    rewrite Forall_forall in Hall.
    destruct (Hall c Hc) as [buf [data ->]].
    rewrite block_serial in Hy'. injection Hy' as <-.
    cbn [py_eq].
    destruct (builtins.str_eqb _ key) eqn:E; [| reflexivity].
    apply str_eqb_eq in E. exfalso.
    apply (Hnone _ Hc). rewrite block_serial, E. reflexivity. }
  cbn [AVSFile.__getitem__]. rewrite Hkeys. cbn [bind].
  rewrite Hidx. reflexivity.
Qed.

Lemma AVSFile_unknown_key_witness :
  exists f,
    AVSFile.__init__ Fixtures.avs_two_channels = Ok f
    /\ AVSFile.__getitem__ f (PyStr (builtins.str_of "SN0003"))
       = Raise KeyError.
Proof.
  destruct (AVSFile.__init__ Fixtures.avs_two_channels) as [f | e] eqn:E;
    [| vm_compute in E; discriminate E].
  exists f. split; [reflexivity |].
  apply (AVSFile_unknown_key Fixtures.avs_two_channels f _ E).
  vm_compute in E. injection E as <-.
  intros c [<- | [<- | []]]; vm_compute; discriminate.
Defined.

(** ** Channel blocks in the file *)

Lemma readinto_content (s : instance) (fo : io.BufferedReader) :
  io.content (snd (io.readinto s fo)) = io.content fo.
Proof. reflexivity. Qed.

Lemma fromfile_content (itemsize count : Z) (fo : io.BufferedReader) :
  io.content (snd (np.fromfile itemsize count fo)) = io.content fo.
Proof. reflexivity. Qed.

Lemma block_blockLength (buf : list byte) (data : np.ndarray2) :
  block_span (AVSChannel.__init__ (mkInstance AVSInfoBlock buf) data)
  = le_uint (field_bytes 0 2 buf) + 10.
Proof. reflexivity. Qed.

Lemma header_blockLength (buf : list byte) :
  cfield_int (mkInstance AVSInfoBlock buf) "blockLength" []
  = Ok (le_uint (field_bytes 0 2 buf)).
Proof. reflexivity. Qed.

(** After a channel the reader stands at the start of the block plus the
    block's span, wherever the payload ended. *)
Lemma from_buffer_position (fo fo' : io.BufferedReader) (off : Z)
  (c : AVSChannel.t) :
  AVSChannel.from_buffer fo off = Ok (c, fo') ->
  io.content fo' = io.content fo
  /\ io.pos fo' = io.pos fo + block_span c
  /\ 0 <= block_span c.
Proof.
  unfold AVSChannel.from_buffer. intros H.
  bind_inv H as fo1 Hseek.
  assert (Hc1 : io.content fo1 = io.content fo).
  { unfold io.seek_cur, io.seek in Hseek.
    destruct (_ <? 0); [discriminate |]. injection Hseek as <-. reflexivity. }
  pose proof (readinto_content (new AVSInfoBlock) fo1) as Hc2.
  pose proof (readinto_ctype (new AVSInfoBlock) fo1) as Hty.
  destruct (io.readinto (new AVSInfoBlock) fo1) as [header buffer].
  cbn [fst snd] in Hc2, Hty.
  bind_inv H as stop Hstop. bind_inv H as start Hstart.
  pose proof (fromfile_content 4 (4 * (stop - start + 1)) buffer) as Hc3.
  destruct (np.fromfile 4 _ buffer) as [flat buffer1].
  cbn [snd] in Hc3.
  bind_inv H as data Hdata. bind_inv H as blockLength Hlen.
  bind_inv H as fo2 Hseek2.
  injection H as <- <-.
  destruct header as [ty buf]. cbn in Hty. subst ty.
  rewrite header_blockLength in Hlen. injection Hlen as <-.
  rewrite block_blockLength.
  unfold io.seek in Hseek2. destruct (_ <? 0); [discriminate |].
  injection Hseek2 as <-. cbn [io.content io.pos].
  pose proof (le_uint_nonneg (field_bytes 0 2 buf)).
  unfold io.tell, AVSChannel.PADDING. repeat split; try lia. congruence.
Qed.

Lemma spans_app (a b : list AVSChannel.t) : spans (a ++ b) = spans a + spans b.
Proof.
  induction a as [| c r IH]; cbn [app spans fold_right]; [reflexivity |].
  fold (spans (r ++ b)). fold (spans r). rewrite IH. lia.
Qed.

Lemma read_channels_blocks (n : nat) : forall fo cs,
  AVSFile.read_channels n fo = Ok cs ->
  forall (i : nat) (c : AVSChannel.t),
    nth_error cs i = Some c ->
    exists fo',
      AVSChannel.from_buffer
        (io.mkReader (io.content fo) (io.pos fo + spans (firstn i cs))) 0
      = Ok (c, fo')
      /\ io.pos fo' = io.pos fo + spans (firstn (S i) cs).
Proof.
  induction n as [| n IH]; intros fo cs H i c Hi;
    cbn [AVSFile.read_channels] in H.
  - injection H as <-. destruct i; discriminate.
  - bind_inv H as r Hr. destruct r as [c0 fo1]. bind_inv H as cs' Hcs.
    injection H as <-.
    destruct (from_buffer_position _ _ _ _ Hr) as [Hcont [Hpos Hnn]].
    destruct i as [| i]; cbn in Hi.
    + injection Hi as <-. exists fo1.
      cbn [firstn spans fold_right]. rewrite Z.add_0_r.
      destruct fo as [content pos]. cbn [io.content io.pos] in *.
      split; [assumption | lia].
    + destruct (IH fo1 cs' Hcs i c Hi) as [fo' [Hfrom Hpos']].
      exists fo'. rewrite !firstn_cons.
      change (spans (c0 :: firstn i cs'))
        with (block_span c0 + spans (firstn i cs')).
      change (spans (c0 :: firstn (S i) cs'))
        with (block_span c0 + spans (firstn (S i) cs')).
      rewrite Hcont, Hpos in Hfrom. rewrite Hpos in Hpos'.
      rewrite Z.add_assoc. split; [exact Hfrom | lia].
Qed.

(** X7: the channels of a regular file are consecutive blocks behind the
    six bytes of the preamble: channel i is what [from_buffer] reads at
    offset 6 plus the spans (blockLength + 10) of the channels before it,
    and reading it leaves the file at the start of the next block. *)
Theorem channels_are_consecutive_blocks (content : list byte) (f : AVSFile.t) :
  AVSFile.__init__ content = Ok f -> 6 <= zlength content ->
  forall (i : nat) (c : AVSChannel.t),
    nth_error (AVSFile.channels f) i = Some c ->
    exists fo',
      AVSChannel.from_buffer
        (io.mkReader content (6 + spans (firstn i (AVSFile.channels f)))) 0
      = Ok (c, fo')
      /\ io.pos fo' = 6 + spans (firstn (S i) (AVSFile.channels f)).
Proof.
  unfold AVSFile.__init__. intros H Hlen i c Hi.
  assert (Hread : io.readinto (new AVSPreamble) (io.open content)
                  = (fst (io.readinto (new AVSPreamble) (io.open content)),
                     io.mkReader content 6)).
  { unfold io.readinto. change (zlength (buffer (new AVSPreamble))) with 6.
    rewrite read_exact by (cbn [io.pos io.content io.open]; lia).
    reflexivity. }
  rewrite Hread in H.
  bind_inv H as FileType Hft.
  destruct (negb _); [discriminate |].
  bind_inv H as n Hn. bind_inv H as cs Hcs. injection H as <-.
  cbn [AVSFile.channels] in *.
  apply (read_channels_blocks _ _ _ Hcs i c Hi).
Qed.

Lemma channels_are_consecutive_blocks_witness :
  exists f c fo',
    AVSFile.__init__ Fixtures.avs_two_channels = Ok f
    /\ nth_error (AVSFile.channels f) 1 = Some c
    /\ AVSChannel.from_buffer (io.mkReader Fixtures.avs_two_channels 370) 0
       = Ok (c, fo')
    /\ io.pos fo' = 734.
Proof.
  destruct (AVSFile.__init__ Fixtures.avs_two_channels) as [f | e] eqn:E;
    [| vm_compute in E; discriminate E].
  destruct (nth_error (AVSFile.channels f) 1) as [c |] eqn:Hc;
    [| vm_compute in E; injection E as <-; vm_compute in Hc; discriminate Hc].
  destruct (channels_are_consecutive_blocks Fixtures.avs_two_channels f E)
    with (i := 1%nat) (c := c) as [fo' [Hfrom Hpos]];
    [vm_compute; discriminate | exact Hc |].
  assert (H1 : 6 + spans (firstn 1 (AVSFile.channels f)) = 370)
    by (vm_compute in E; injection E as <-; vm_compute; reflexivity).
  assert (H2 : 6 + spans (firstn 2 (AVSFile.channels f)) = 734)
    by (vm_compute in E; injection E as <-; vm_compute; reflexivity).
  rewrite H1 in Hfrom. rewrite H2 in Hpos.
  exists f, c, fo'. repeat split; assumption.
Defined.

(** ** The payload of a channel *)

Lemma map_nth_seq {A} (d : A) (l : list A) :
  map (fun r => nth r l d) (seq 0 (List.length l)) = l.
Proof.
  induction l as [| x r IH]; cbn [List.length seq map nth]; [reflexivity |].
  rewrite <- seq_shift, map_map. cbn [nth]. rewrite IH. reflexivity.
Qed.

(** [reshape(4, -1).T] on a list of 4 n items: an n by 4 array whose
    columns are the four quarters of the list. *)
Lemma reshape4_T_spec (flat : list Z) (n : Z) :
  0 <= n -> zlength flat = 4 * n ->
  exists a,
    np.reshape4_T flat = Ok a
    /\ np.shape a = (n, 4) /\ np.well_shaped a
    /\ forall k : nat, (k < 4)%nat ->
         np.column a (Z.of_nat k)
         = Ok (firstn (Z.to_nat n) (skipn (k * Z.to_nat n) flat)).
Proof.
  intros Hn Hlen. unfold np.reshape4_T. cbv zeta. rewrite Hlen.
  replace (4 * n mod 4) with 0
    by (symmetry; rewrite Z.mul_comm; apply Z.mod_mul; lia).
  replace (4 * n / 4) with n
    by (symmetry; rewrite Z.mul_comm; apply Z.div_mul; lia).
  cbn [Z.eqb negb]. eexists. split; [reflexivity |].
  split; [reflexivity |].
  assert (Hplane : forall k : nat, (k < 4)%nat ->
            List.length (firstn (Z.to_nat n) (skipn (k * Z.to_nat n) flat))
            = Z.to_nat n).
  { intros k Hk. rewrite length_firstn, length_skipn.
    unfold zlength in Hlen. nia. }
  split.
  - split; cbn [np.shape np.rows fst snd]; unfold zlength.
    + rewrite length_map, length_seq. lia.
    + apply Forall_forall. intros row Hin.
      apply in_map_iff in Hin. destruct Hin as [r [<- _]].
      rewrite length_map. reflexivity.
  - intros k Hk. rewrite column_at by (cbn [np.shape snd]; lia).
    cbn [np.rows]. rewrite map_map.
    destruct k as [| [| [| [| k]]]]; try lia; cbn [map seq nth];
      match goal with
      | |- Ok (map (fun r => nth r ?pl 0) _) = _ =>
          rewrite <- (Hplane _ Hk) at 1
      end;
      rewrite map_nth_seq; reflexivity.
Qed.

Lemma readinto_exact (s : instance) (fo : io.BufferedReader) :
  0 <= io.pos fo ->
  io.pos fo + zlength (buffer s) <= zlength (io.content fo) ->
  io.readinto s fo
  = (mkInstance (ctype_of s)
       (field_bytes (io.pos fo) (zlength (buffer s)) (io.content fo)),
     io.mkReader (io.content fo) (io.pos fo + zlength (buffer s))).
Proof.
  intros Hpos Hfit. unfold io.readinto.
  rewrite read_exact by (unfold zlength in *; lia).
  assert (Hlen : List.length
                   (field_bytes (io.pos fo) (zlength (buffer s))
                      (io.content fo))
                 = List.length (buffer s)).
  { pose proof (zlength_field_bytes (io.pos fo) (zlength (buffer s))
                  (io.content fo)) as H.
    unfold zlength in *. lia. }
  rewrite Hlen, skipn_all, app_nil_r. reflexivity.
Qed.

(** X8: on a file that holds the whole block, [from_buffer] succeeds; the
    channel carries the 322 header bytes found at the position of the
    reader, its length is StopPixel - StartPixel + 1 = n, and the 4 n
    floats behind the header are dealt out plane by plane: the first n are
    the wavelengths, then scope, dark and reference. *)
Theorem from_buffer_planes (fo : io.BufferedReader) :
  let header := field_bytes (io.pos fo) 322 (io.content fo) in
  let start := le_uint (field_bytes 0 2 (field_bytes 83 41 header)) in
  let stop := le_uint (field_bytes 2 2 (field_bytes 83 41 header)) in
  let n := stop - start + 1 in
  let flat := map le_uint
                (chunks (Z.to_nat (4 * n)) 4
                   (field_bytes (io.pos fo + 322) (4 * n * 4)
                      (io.content fo))) in
  0 <= io.pos fo -> 0 <= n ->
  io.pos fo + 322 + 16 * n <= zlength (io.content fo) ->
  exists c fo',
    AVSChannel.from_buffer fo 0 = Ok (c, fo')
    /\ buffer (struct (AVSChannel._mapping c)) = header
    /\ AVSChannel.len c = Ok n
    /\ AVSChannel.wavelength c = Ok (firstn (Z.to_nat n) flat)
    /\ AVSChannel.scope c
       = Ok (firstn (Z.to_nat n) (skipn (Z.to_nat n) flat))
    /\ AVSChannel.dark c
       = Ok (firstn (Z.to_nat n) (skipn (2 * Z.to_nat n) flat))
    /\ AVSChannel.ref c
       = Ok (firstn (Z.to_nat n) (skipn (3 * Z.to_nat n) flat)).
Proof.
  cbv zeta. intros Hpos Hn Hfit.
  set (header := field_bytes (io.pos fo) 322 (io.content fo)) in *.
  set (n := le_uint (field_bytes 2 2 (field_bytes 83 41 header))
            - le_uint (field_bytes 0 2 (field_bytes 83 41 header)) + 1) in *.
  set (flat := map le_uint
                 (chunks (Z.to_nat (4 * n)) 4
                    (field_bytes (io.pos fo + 322) (4 * n * 4)
                       (io.content fo)))).
  assert (Hflat : zlength flat = 4 * n)
    by (subst flat; rewrite length_map_chunks; lia).
  destruct (reshape4_T_spec flat n Hn Hflat) as [a [Hre [Hshape [Hwf Hcols]]]].
  unfold AVSChannel.from_buffer.
  assert (Hseek : io.seek_cur 0 fo = Ok fo).
  { unfold io.seek_cur, io.seek. rewrite Z.add_0_r.
    destruct (Z.ltb_spec (io.pos fo) 0); [lia |]. destruct fo; reflexivity. }
  rewrite Hseek. cbn [bind].
  rewrite readinto_exact
    by (change (zlength (buffer (new AVSInfoBlock))) with 322; lia).
  change (zlength (buffer (new AVSInfoBlock))) with 322.
  change (ctype_of (new AVSInfoBlock)) with AVSInfoBlock.
  fold header.
  change (cfield_int (mkInstance AVSInfoBlock header) "Measurement"
            ["StopPixel"])
    with (Ok (A := Z) (le_uint (field_bytes 2 2 (field_bytes 83 41 header)))).
  change (cfield_int (mkInstance AVSInfoBlock header) "Measurement"
            ["StartPixel"])
    with (Ok (A := Z) (le_uint (field_bytes 0 2 (field_bytes 83 41 header)))).
  cbn [bind]. fold n.
  rewrite fromfile_exact by (cbn [io.pos io.content]; lia).
  cbn [io.pos io.content]. fold flat. rewrite Hre. cbn [bind].
  rewrite header_blockLength. cbn [bind].
  unfold io.seek.
  pose proof (le_uint_nonneg (field_bytes 0 2 header)) as Hbl.
  destruct (Z.ltb_spec
              (io.tell fo + le_uint (field_bytes 0 2 header)
               + AVSChannel.PADDING) 0) as [Hneg | _];
    [unfold io.tell, AVSChannel.PADDING in Hneg; lia |].
  cbn [bind].
  eexists _, _. split; [reflexivity |].
  split; [reflexivity |].
  split.
  { unfold AVSChannel.len. rewrite block_len. fold header. fold n.
    cbn [len_of bind]. destruct (Z.ltb_spec n 0); [lia | reflexivity]. }
  unfold AVSChannel.wavelength, AVSChannel.scope, AVSChannel.dark,
    AVSChannel.ref. cbn [AVSChannel.data AVSChannel.__init__].
  pose proof (Hcols 0%nat ltac:(lia)) as H0.
  pose proof (Hcols 1%nat ltac:(lia)) as H1.
  pose proof (Hcols 2%nat ltac:(lia)) as H2.
  pose proof (Hcols 3%nat ltac:(lia)) as H3.
  cbn [Z.of_nat Pos.of_succ_nat Pos.succ] in H0, H1, H2, H3.
  rewrite Nat.mul_0_l in H0. rewrite Nat.mul_1_l in H1.
  cbn [skipn] in H0.
  repeat split; assumption.
Qed.

Lemma from_buffer_planes_witness :
  exists c fo',
    AVSChannel.from_buffer (io.mkReader Fixtures.avs_one_channel 6) 0
    = Ok (c, fo')
    /\ AVSChannel.len c = Ok 4
    /\ AVSChannel.wavelength c = Ok [400; 401; 402; 403]
    /\ AVSChannel.scope c = Ok [10; 20; 30; 40]
    /\ AVSChannel.dark c = Ok [1; 1; 1; 1]
    /\ AVSChannel.ref c = Ok [0; 0; 0; 0].
Proof.
  destruct (from_buffer_planes (io.mkReader Fixtures.avs_one_channel 6))
    as [c [fo' [Hfrom [_ [Hlen [Hw [Hs [Hd Hr]]]]]]]];
    try (vm_compute; discriminate).
  exists c, fo'. split; [exact Hfrom |].
  split; [rewrite Hlen; vm_compute; reflexivity |].
  split; [rewrite Hw; vm_compute; reflexivity |].
  split; [rewrite Hs; vm_compute; reflexivity |].
  split; [rewrite Hd; vm_compute; reflexivity |].
  rewrite Hr; vm_compute; reflexivity.
Defined.

(** ** Declared channels that the file does not hold *)


Lemma remaining_at_eof (fo : io.BufferedReader) :
  0 <= io.pos fo -> zlength (io.content fo) <= io.pos fo ->
  io.remaining fo = [].
Proof.
  intros Hpos Heof. unfold io.remaining. apply skipn_all2.
  unfold zlength in Heof. lia.
Qed.

(** Past the end of the file [from_buffer] reads nothing and still
    succeeds: the header stays zero-filled, the payload is empty, the
    reader moves on by the ten bytes of padding. *)
Lemma from_buffer_at_eof (fo : io.BufferedReader) :
  0 <= io.pos fo -> zlength (io.content fo) <= io.pos fo ->
  AVSChannel.from_buffer fo 0
  = Ok (AVSChannel.__init__ (ctypes.new AVSInfoBlock)
          (np.mkArray2 (0, 4) []),
        io.mkReader (io.content fo) (io.pos fo + 10)).
Proof.
  intros Hpos Heof. pose proof (remaining_at_eof fo Hpos Heof) as Hrem.
  unfold AVSChannel.from_buffer.
  assert (Hseek : io.seek_cur 0 fo = Ok fo).
  { unfold io.seek_cur, io.seek. rewrite Z.add_0_r.
    destruct (Z.ltb_spec (io.pos fo) 0); [lia |]. destruct fo; reflexivity. }
  rewrite Hseek. cbn [bind].
  assert (Hread : io.readinto (new AVSInfoBlock) fo
                  = (new AVSInfoBlock, fo)).
  { unfold io.readinto, io.read. rewrite Hrem, firstn_nil.
    cbn [zlength List.length Z.of_nat app skipn]. rewrite Z.add_0_r.
    destruct fo; reflexivity. }
  rewrite Hread.
  change (cfield_int (new AVSInfoBlock) "Measurement" ["StopPixel"])
    with (Ok (A := Z) 0).
  change (cfield_int (new AVSInfoBlock) "Measurement" ["StartPixel"])
    with (Ok (A := Z) 0).
  cbn [bind].
  assert (Hfrom : np.fromfile 4 (4 * (0 - 0 + 1)) fo = ([], fo)).
  { unfold np.fromfile, io.read. rewrite Hrem, firstn_nil.
    cbn. rewrite Z.add_0_r. destruct fo; reflexivity. }
  rewrite Hfrom.
  change (np.reshape4_T []) with (Ok (np.mkArray2 (0, 4) [])).
  cbn [bind].
  change (cfield_int (new AVSInfoBlock) "blockLength" []) with (Ok (A := Z) 0).
  cbn [bind]. unfold io.seek, io.tell, AVSChannel.PADDING.
  destruct (Z.ltb_spec (io.pos fo + 0 + 10) 0); [lia |].
  cbn [bind]. rewrite Z.add_0_r. reflexivity.
Qed.

Lemma read_channels_at_eof (n : nat) : forall fo,
  0 <= io.pos fo -> zlength (io.content fo) <= io.pos fo ->
  AVSFile.read_channels n fo
  = Ok (repeat (AVSChannel.__init__ (ctypes.new AVSInfoBlock)
                  (np.mkArray2 (0, 4) [])) n).
Proof.
  induction n as [| n IH]; intros fo Hpos Heof;
    cbn [AVSFile.read_channels repeat]; [reflexivity |].
  rewrite from_buffer_at_eof by assumption. cbn [bind].
  rewrite IH by (cbn [io.pos io.content]; lia). reflexivity.
Qed.

(** X9: a regular file that ends with its preamble raises nothing: every
    channel the preamble declares is returned with an all-zero header and an
    empty payload, so that [len(channel)] is 1 while there is no data. *)
Theorem AVSFile_preamble_only (v1 v2 count : byte) :
  let content := list_byte_of_string "AVS" ++ [v1; v2; count] in
  let empty := AVSChannel.__init__ (ctypes.new AVSInfoBlock)
                 (np.mkArray2 (0, 4) []) in
  AVSFile.__init__ content
  = Ok (AVSFile.mk (mkInstance AVSPreamble content)
          (repeat empty (Z.to_nat (byte_val count))))
  /\ AVSChannel.len empty = Ok 1
  /\ AVSChannel.wavelength empty = Ok [].
Proof.
  cbv zeta. split; [| split; reflexivity].
  unfold AVSFile.__init__.
  change (io.readinto (new AVSPreamble)
            (io.open (list_byte_of_string "AVS" ++ [v1; v2; count])))
    with (mkInstance AVSPreamble
            (list_byte_of_string "AVS" ++ [v1; v2; count]),
          io.mkReader (list_byte_of_string "AVS" ++ [v1; v2; count]) 6).
  change (cfield_bytes
            (mkInstance AVSPreamble
               (list_byte_of_string "AVS" ++ [v1; v2; count])) "FileType")
    with (Ok (A := list byte) (list_byte_of_string "AVS")).
  cbn [bind].
  change (negb (builtins.bytes_eqb (list_byte_of_string "AVS")
                  (list_byte_of_string "AVS"))) with false.
  cbv iota.
  change (cfield_int
            (mkInstance AVSPreamble
               (list_byte_of_string "AVS" ++ [v1; v2; count]))
            "channels" [])
    with (Ok (A := Z) (le_uint [count])).
  cbn [bind].
  replace (le_uint [count]) with (byte_val count)
    by (cbn [le_uint]; lia).
  rewrite read_channels_at_eof
    by (cbn [io.pos io.content]; try lia; vm_compute; discriminate).
  reflexivity.
Qed.

(** ** How a regular file fails *)

Lemma byte_val_inj (a b : byte) : byte_val a = byte_val b -> a = b.
Proof.
  unfold byte_val. intros H. apply N2Z.inj in H.
  pose proof (Byte.of_to_N a) as Ha. rewrite H, Byte.of_to_N in Ha.
  injection Ha as ->. reflexivity.
Qed.

Lemma bytes_eqb_eq (a b : list byte) : builtins.bytes_eqb a b = true <-> a = b.
Proof.
  unfold builtins.bytes_eqb. rewrite str_eqb_eq. split; [| intros ->; reflexivity].
  revert b. induction a as [| x a IH]; intros [| y b] H; cbn in H;
    try discriminate; [reflexivity |].
  injection H as Hx Hr. apply byte_val_inj in Hx. subst y.
  rewrite (IH b Hr). reflexivity.
Qed.

Lemma until_nul_prefix (l : list byte) : exists rest, l = until_nul l ++ rest.
Proof.
  induction l as [| b r [rest IH]]; cbn [until_nul].
  - exists []. reflexivity.
  - destruct (Byte.eqb b x00).
    + exists (b :: r). reflexivity.
    + exists rest. cbn [app]. rewrite <- IH. reflexivity.
Qed.

(** The magic bytes the parsers compare are the first three bytes of the
    file, cut at a NUL: they equal a tag of three letters exactly when the
    file starts with the tag. *)
Ltac magic_cases content :=
  destruct content as [| ?a [| ?b [| ?c ?r]]];
  (eexists; split; [reflexivity |]);
  rewrite bytes_eqb_eq; cbv -[Byte.eqb];
  repeat match goal with
         | |- context [Byte.eqb ?x x00] =>
             let E := fresh "E" in destruct (Byte.eqb x x00) eqn:E
         end;
  split; intros H; try discriminate H;
  injection H as ? ? ?; subst; try reflexivity;
  match goal with
  | E : Byte.eqb _ x00 = true |- _ => vm_compute in E; discriminate E
  end.

Lemma AVS_magic (content : list byte) :
  exists ft,
    cfield_bytes (fst (io.readinto (new AVSPreamble) (io.open content)))
      "FileType" = Ok ft
    /\ (builtins.bytes_eqb ft (list_byte_of_string "AVS") = true
        <-> firstn 3 content = list_byte_of_string "AVS").
Proof.
  magic_cases content.
Qed.

Lemma STR_magic (content : list byte) :
  exists ft,
    cfield_bytes (fst (io.readinto (new STRPreamble) (io.open content)))
      "FileType" = Ok ft
    /\ (builtins.bytes_eqb ft (list_byte_of_string "STR") = true
        <-> firstn 3 content = list_byte_of_string "STR").
Proof.
  magic_cases content.
Qed.

Lemma block_fields_readable (buf : list byte) :
  cfield_int (mkInstance AVSInfoBlock buf) "Measurement" ["StopPixel"]
  = Ok (le_uint (field_bytes 2 2 (field_bytes 83 41 buf)))
  /\ cfield_int (mkInstance AVSInfoBlock buf) "Measurement" ["StartPixel"]
     = Ok (le_uint (field_bytes 0 2 (field_bytes 83 41 buf))).
Proof. split; reflexivity. Qed.

(** A channel block can only fail in [reshape]: the number of floats read
    is not a multiple of four. *)
Lemma from_buffer_raises (fo : io.BufferedReader) (e : exn) :
  0 <= io.pos fo -> AVSChannel.from_buffer fo 0 = Raise e -> e = ValueError.
Proof.
  intros Hpos. unfold AVSChannel.from_buffer.
  assert (Hseek : io.seek_cur 0 fo = Ok fo).
  { unfold io.seek_cur, io.seek. rewrite Z.add_0_r.
    destruct (Z.ltb_spec (io.pos fo) 0); [lia |]. destruct fo; reflexivity. }
  rewrite Hseek. cbn [bind].
  pose proof (readinto_ctype (new AVSInfoBlock) fo) as Hty.
  destruct (io.readinto (new AVSInfoBlock) fo) as [[ty buf] buffer].
  cbn in Hty. subst ty.
  destruct (block_fields_readable buf) as [-> ->]. cbn [bind].
  destruct (np.fromfile 4 _ buffer) as [flat buffer1].
  unfold np.reshape4_T. cbv zeta.
  destruct (negb _); cbn [bind]; [intros [= <-]; reflexivity |].
  rewrite header_blockLength. cbn [bind].
  unfold io.seek, io.tell, AVSChannel.PADDING.
  pose proof (le_uint_nonneg (field_bytes 0 2 buf)).
  destruct (Z.ltb_spec (io.pos fo + le_uint (field_bytes 0 2 buf) + 10) 0);
    [lia |].
  cbn [bind]. discriminate.
Qed.

Lemma read_channels_raises (n : nat) : forall fo e,
  0 <= io.pos fo -> AVSFile.read_channels n fo = Raise e -> e = ValueError.
Proof.
  induction n as [| n IH]; intros fo e Hpos H;
    cbn [AVSFile.read_channels] in H; [discriminate |].
  destruct (AVSChannel.from_buffer fo 0) as [[c fo1] | e1] eqn:E.
  - cbn [bind] in H.
    destruct (from_buffer_position _ _ _ _ E) as [_ [Hp Hnn]].
    destruct (AVSFile.read_channels n fo1) as [cs | e2] eqn:E2;
      cbn [bind] in H; [discriminate |].
    injection H as <-. apply (IH fo1 e2); [lia | assumption].
  - cbn [bind] in H. injection H as <-.
    apply (from_buffer_raises fo e1 Hpos E).
Qed.

Lemma readinto_pos_nonneg (s : instance) (fo : io.BufferedReader) :
  0 <= io.pos fo -> 0 <= io.pos (snd (io.readinto s fo)).
Proof.
  intros H. unfold io.readinto, io.read. cbn [snd io.pos].
  unfold zlength. lia.
Qed.

(** The failures of [AVSFile.__init__]. *)
Lemma AVSFile_init_raises (content : list byte) :
  (AVSFile.__init__ content = Raise AvaReadException
   <-> firstn 3 content <> list_byte_of_string "AVS")
  /\ forall e, AVSFile.__init__ content = Raise e ->
       e = AvaReadException \/ e = ValueError.
Proof.
  destruct (AVS_magic content) as [ft [Hft Hiff]].
  unfold AVSFile.__init__.
  pose proof (readinto_ctype (new AVSPreamble) (io.open content)) as Hty.
  pose proof (readinto_pos_nonneg (new AVSPreamble) (io.open content)
                (Z.le_refl 0)) as Hpos.
  destruct (io.readinto (new AVSPreamble) (io.open content))
    as [[ty buf] fo].
  cbn [fst snd] in *. cbn in Hty. subst ty.
  rewrite Hft. cbn [bind].
  destruct (builtins.bytes_eqb ft (list_byte_of_string "AVS")) eqn:Eq;
    cbn [negb].
  - assert (Hstart : firstn 3 content = list_byte_of_string "AVS")
      by (apply Hiff; reflexivity).
    rewrite preamble_channels. cbn [bind].
    destruct (AVSFile.read_channels _ fo) as [cs | e1] eqn:Ecs; cbn [bind].
    + split; [split; [discriminate | contradiction] | discriminate].
    + pose proof (read_channels_raises _ _ _ Hpos Ecs) as ->.
      split; [split; [discriminate | contradiction] |].
      intros e [= <-]. right. reflexivity.
  - split.
    + split; [| reflexivity].
      intros _ Hstart. apply Hiff in Hstart. congruence.
    + intros e [= <-]. left. reflexivity.
Qed.

(** X10: [AVSFile] raises the format error exactly when the file does not
    start with the three bytes "AVS" (in upper case); any other failure of
    the parse is a [ValueError]: a payload cut short in the middle of a
    plane.  No other exception leaves the constructor. *)
Theorem AVSFile_failures (content : list byte) :
  (AVSFile.__init__ content = Raise AvaReadException
   <-> firstn 3 content <> list_byte_of_string "AVS")
  /\ forall e, AVSFile.__init__ content = Raise e ->
       e = AvaReadException \/ e = ValueError.
Proof. exact (AVSFile_init_raises content). Qed.

Lemma AVSFile_failures_witness :
  AVSFile.__init__ (list_byte_of_string "avs80") = Raise AvaReadException.
Proof.
  apply (proj1 (AVSFile_failures (list_byte_of_string "avs80"))).
  vm_compute. discriminate.
Defined.

(** ** The arrays of a parsed channel *)

Lemma fromfile_at_most (itemsize count : Z) (fo : io.BufferedReader) :
  0 < itemsize -> 0 <= count ->
  zlength (fst (np.fromfile itemsize count fo)) <= count.
Proof.
  intros Hsize Hcount. unfold np.fromfile. cbv zeta.
  destruct (Z.ltb_spec count 0) as [Hneg | _]; [lia |].
  unfold io.read. cbn [fst]. rewrite length_map_chunks.
  set (got := firstn (Z.to_nat (count * itemsize)) (io.remaining fo)).
  assert (Hgot : zlength got <= count * itemsize).
  { subst got. unfold zlength. rewrite length_firstn. nia. }
  assert (0 <= zlength got) by (unfold zlength; lia).
  assert (zlength got / itemsize <= count).
  { apply Z.div_le_upper_bound; lia. }
  assert (0 <= zlength got / itemsize) by (apply Z.div_pos; lia).
  lia.
Qed.

(** The payload of a channel is what [reshape(4, -1).T] makes of the floats
    read, and these are never more than the header announces. *)
Lemma from_buffer_data (fo fo' : io.BufferedReader) (off : Z)
  (c : AVSChannel.t) :
  AVSChannel.from_buffer fo off = Ok (c, fo') ->
  exists flat,
    np.reshape4_T flat = Ok (AVSChannel.data c)
    /\ forall m, AVSChannel.__len__ c = Ok m -> 0 <= m ->
                 zlength flat <= 4 * m.
Proof.
  unfold AVSChannel.from_buffer. intros H.
  bind_inv H as fo1 Hseek.
  pose proof (readinto_ctype (new AVSInfoBlock) fo1) as Hty.
  destruct (io.readinto (new AVSInfoBlock) fo1) as [[ty buf] buffer].
  cbn in Hty. subst ty.
  destruct (block_fields_readable buf) as [Hstop Hstart].
  rewrite Hstop, Hstart in H. cbn [bind] in H.
  pose proof (fromfile_at_most 4
                (4 * (le_uint (field_bytes 2 2 (field_bytes 83 41 buf))
                      - le_uint (field_bytes 0 2 (field_bytes 83 41 buf))
                      + 1)) buffer) as Hmost.
  destruct (np.fromfile 4 _ buffer) as [flat buffer1]. cbn [fst] in Hmost.
  bind_inv H as data Hdata. bind_inv H as blockLength Hlen.
  bind_inv H as fo2 Hseek2. injection H as <- <-.
  exists flat. split; [exact Hdata |].
  intros m Hm Hnn. rewrite block_len in Hm. injection Hm as <-.
  apply Hmost; lia.
Qed.

(** X11: every channel of a regular file that parses has a payload of four
    columns of one length n; wavelength, scope, dark and reference are these
    columns, [signal] never fails and has n items, and n never exceeds the
    length the header announces.  The serial number is text and the
    exposure a float, whatever the header holds. *)
Theorem parsed_channel_arrays (content : list byte) (f : AVSFile.t)
  (c : AVSChannel.t) :
  AVSFile.__init__ content = Ok f -> In c (AVSFile.channels f) ->
  exists (n : Z) (w s d r : list Z),
    0 <= n
    /\ np.shape (AVSChannel.data c) = (n, 4)
    /\ np.well_shaped (AVSChannel.data c)
    /\ AVSChannel.wavelength c = Ok w /\ AVSChannel.scope c = Ok s
    /\ AVSChannel.dark c = Ok d /\ AVSChannel.ref c = Ok r
    /\ zlength w = n /\ zlength s = n /\ zlength d = n /\ zlength r = n
    /\ (forall fsub, AVSChannel.signal fsub c = Ok (np.zip_with fsub s d))
    /\ (forall m, AVSChannel.len c = Ok m -> n <= m)
    /\ (exists text, AVSChannel.serial c = Ok (PyStr text))
    /\ (exists bits, AVSChannel.exposure c = Ok (PyFloat bits)).
Proof.
  intros Hinit Hin.
  assert (Hfrom : exists fo fo', AVSChannel.from_buffer fo 0 = Ok (c, fo')).
  { revert Hinit. unfold AVSFile.__init__.
    destruct (io.readinto (new AVSPreamble) (io.open content))
      as [preamble fo].
    intros H. bind_inv H as FileType Hft.
    destruct (negb _); [discriminate |].
    bind_inv H as k Hk. bind_inv H as cs Hcs. injection H as <-.
    cbn [AVSFile.channels] in Hin.
    apply In_nth_error in Hin. destruct Hin as [i Hi].
    destruct (read_channels_blocks _ _ _ Hcs i c Hi) as [fo' [Hfb _]].
    eauto. }
  destruct Hfrom as [fo [fo' Hfrom]].
  destruct (from_buffer_data _ _ _ _ Hfrom) as [flat [Hre Hmost]].
  destruct (from_buffer_block _ _ _ _ Hfrom) as [buf [data Hc]].
  assert (Hmod : zlength flat mod 4 = 0).
  { unfold np.reshape4_T in Hre. cbv zeta in Hre.
    destruct (Z.eqb_spec (zlength flat mod 4) 0) as [E | _];
      [exact E | discriminate Hre]. }
  assert (Hsize : zlength flat = 4 * (zlength flat / 4)).
  { pose proof (Z.div_mod (zlength flat) 4 ltac:(lia)). lia. }
  assert (Hn : 0 <= zlength flat / 4)
    by (apply Z.div_pos; unfold zlength; lia).
  destruct (reshape4_T_spec flat (zlength flat / 4) Hn Hsize)
    as [a [Hre' [Hshape [Hwf Hcols]]]].
  rewrite Hre in Hre'. injection Hre' as <-.
  set (n := zlength flat / 4) in *.
  assert (Hplane : forall k : nat, (k < 4)%nat ->
            zlength (firstn (Z.to_nat n) (skipn (k * Z.to_nat n) flat)) = n).
  { intros k Hk. unfold zlength in *. rewrite length_firstn, length_skipn.
    nia. }
  exists n. do 4 eexists.
  split; [assumption |]. split; [assumption |]. split; [assumption |].
  split; [exact (Hcols 0%nat ltac:(lia)) |].
  split; [exact (Hcols 1%nat ltac:(lia)) |].
  split; [exact (Hcols 2%nat ltac:(lia)) |].
  split; [exact (Hcols 3%nat ltac:(lia)) |].
  split; [apply Hplane; lia |]. split; [apply Hplane; lia |].
  split; [apply Hplane; lia |]. split; [apply Hplane; lia |].
  split.
  { intros fsub.
    destruct (AVSChannel_signal_elementwise fsub c _ _
                (Hcols 1%nat ltac:(lia)) (Hcols 2%nat ltac:(lia)))
      as [_ Hsig].
    exact Hsig. }
  split.
  { intros m Hm. unfold AVSChannel.len, len_of in Hm.
    bind_inv Hm as m' Hm'. destruct (Z.ltb_spec m' 0); [discriminate |].
    injection Hm as <-. pose proof (Hmost m' Hm' ltac:(lia)). lia. }
  subst c. split.
  - rewrite block_serial. eauto.
  - eexists. reflexivity.
Qed.

Lemma parsed_channel_arrays_witness :
  exists f c,
    AVSFile.__init__ Fixtures.avs_one_channel = Ok f
    /\ In c (AVSFile.channels f)
    /\ np.shape (AVSChannel.data c) = (4, 4)
    /\ AVSChannel.signal Z.sub c = Ok [9; 19; 29; 39].
Proof.
  destruct (AVSFile.__init__ Fixtures.avs_one_channel) as [f | e] eqn:E;
    [| vm_compute in E; discriminate E].
  destruct (AVSFile.channels f) as [| c r] eqn:Hc;
    [vm_compute in E; injection E as <-; discriminate Hc |].
  assert (Hin : In c (AVSFile.channels f)) by (rewrite Hc; left; reflexivity).
  exists f, c. split; [reflexivity |]. split; [exact Hin |].
  destruct (parsed_channel_arrays Fixtures.avs_one_channel f c E Hin)
    as (n & w & s & d & r0 & _ & Hshape & _ & _ & Hs & Hd & _ & _ & _ & _
        & _ & Hsig & _).
  rewrite (Hsig Z.sub).
  vm_compute in E. injection E as <-. injection Hc as <- _.
  vm_compute in Hshape, Hs, Hd.
  injection Hshape as <-. injection Hs as <-. injection Hd as <-.
  split; reflexivity.
Defined.

(** ** What an STR file must hold *)

Lemma set_column_keeps (a a' : np.ndarray2) (i : nat) (v : list Z) :
  np.set_column a i v = Ok a' ->
  np.shape a' = np.shape a /\ (np.well_shaped a -> np.well_shaped a').
Proof.
  unfold np.set_column. cbv zeta.
  destruct (Z.eqb_spec (zlength v) (fst (np.shape a))) as [Hfull | _].
  - intros [= <-]. split; [reflexivity |]. intros [Hrows Hall].
    assert (Hlen : List.length (np.rows a) = List.length v)
      by (unfold zlength in *; lia).
    destruct (zip_set_shape i (snd (np.shape a)) (np.rows a) v Hlen Hall)
      as [Hl Hf].
    split; cbn [np.shape np.rows]; [| assumption].
    unfold zlength in *. rewrite Hl. assumption.
  - destruct (zlength v =? 1); [| discriminate].
    intros [= <-]. split; [reflexivity |]. intros [Hrows Hall].
    split; cbn [np.shape np.rows].
    + unfold zlength in *. rewrite length_map. assumption.
    + apply Forall_forall. intros row Hin.
      apply in_map_iff in Hin. destruct Hin as [row0 [<- Hin0]].
      rewrite Forall_forall in Hall. unfold zlength.
      rewrite length_list_set. apply (Hall row0 Hin0).
Qed.

Lemma read_frames_keep (p : platform) (pixels : Z) (n : nat) :
  forall start delay data fo delay' data' fo',
    for_range start n (STRFile.read_frame p pixels) (delay, data, fo)
    = Ok (delay', data', fo') ->
    np.shape data' = np.shape data
    /\ (np.well_shaped data -> np.well_shaped data')
    /\ List.length delay' = List.length delay.
Proof.
  induction n as [| n IH]; intros start delay data fo delay' data' fo' H;
    cbn [for_range] in H.
  - injection H as <- <- <-.
    split; [reflexivity | split; [tauto | reflexivity]].
  - bind_inv H as st Hstep. destruct st as [[delay1 data1] fo1].
    apply IH in H. destruct H as [Hshape [Hwf Hlen]].
    unfold STRFile.read_frame in Hstep.
    destruct (io.read (sizeof_on p c_long) fo) as [raw fo2].
    bind_inv Hstep as d Hd.
    destruct (np.fromfile (sizeof c_double) pixels fo2) as [col fo3].
    bind_inv Hstep as data2 Hset. injection Hstep as <- <- <-.
    apply set_column_keeps in Hset. destruct Hset as [Hshape2 Hwf2].
    split; [congruence |]. split; [tauto |].
    rewrite Hlen, length_list_set. reflexivity.
Qed.

Lemma block_STR_serial (f : STRFile.t) (buf : list byte) :
  STRFile._mapping f = StructMapping___init__ (mkInstance STRInfoBlock buf) ->
  STRFile.serial f
  = Ok (PyStr (builtins.decode_ignore
                 (until_nul (field_bytes 0 10 (field_bytes 5 75 buf)))))
  /\ STRFile.exposure f
     = Ok (PyFloat (le_uint (field_bytes 4 4 (field_bytes 80 41 buf)))).
Proof.
  intros Hm. unfold STRFile.serial, STRFile.exposure, STRFile.__getattr__.
  rewrite Hm. split; reflexivity.
Qed.

Lemma preamble_frames (buf : list byte) :
  cfield_int (mkInstance STRPreamble buf) "frames" []
  = Ok (le_uint (field_bytes 5 2 buf)).
Proof. reflexivity. Qed.

(** What a successful [STRFile.__init__] guarantees. *)
Lemma STRFile_init_facts (p : platform) (content : list byte) (f : STRFile.t) :
  STRFile.__init__ p content = Ok f ->
  exists pixels frames : Z,
    firstn 3 content = list_byte_of_string "STR"
    /\ 10006 <= zlength content
    /\ pixels = le_int (slice 0 2 (field_bytes 10000 6 content))
    /\ 0 <= pixels
    /\ STRFile.__len__ f = Ok frames /\ STRFile.frames f = Ok frames
    /\ np.shape (STRFile.data f) = (pixels, frames)
    /\ np.well_shaped (STRFile.data f)
    /\ zlength (STRFile.delay f) = frames
    /\ (exists text, STRFile.serial f = Ok (PyStr text))
    /\ (exists bits, STRFile.exposure f = Ok (PyFloat bits)).
Proof.
  intros Hinit.
  destruct (STRFile_init_mapping p content f Hinit) as [hbuf Hmap].
  destruct (block_STR_serial f hbuf Hmap) as [Hserial Hexp].
  revert Hinit. unfold STRFile.__init__. cbv zeta.
  destruct (STR_magic content) as [ft [Hft Hiff]].
  pose proof (readinto_ctype (new STRPreamble) (io.open content)) as Hty.
  pose proof (readinto_content (new STRPreamble) (io.open content)) as Hc0.
  destruct (io.readinto (new STRPreamble) (io.open content))
    as [[ty pbuf] fo].
  cbn [fst snd] in *. cbn in Hty. subst ty.
  rewrite Hft. cbn [bind].
  destruct (builtins.bytes_eqb ft (list_byte_of_string "STR")) eqn:Eq;
    cbn [negb]; [| discriminate].
  pose proof (readinto_content (new STRInfoBlock) fo) as Hc1.
  destruct (io.readinto (new STRInfoBlock) fo) as [header fo1].
  cbn [snd] in Hc1.
  change (io.seek 10000 fo1) with (Ok (io.mkReader (io.content fo1) 10000)).
  cbn [bind]. rewrite Hc1, Hc0. cbn [io.open io.content].
  unfold io.read at 1. unfold io.remaining. cbn [io.pos io.content].
  change (firstn (Z.to_nat 6) (skipn (Z.to_nat 10000) content))
    with (field_bytes 10000 6 content).
  set (raw := field_bytes 10000 6 content).
  unfold pystruct.unpack_hbhb.
  destruct (Z.eqb_spec (zlength raw) 6) as [Hraw | _]; [| discriminate].
  cbn [bind]. intros H.
  bind_inv H as fo4 Hskip.
  destruct (np.fromfile _ _ fo4) as [wl fo5].
  destruct (np.fromfile _ _ fo5) as [dk fo6].
  destruct (np.fromfile _ _ fo6) as [rf fo7].
  rewrite preamble_frames in H. cbn [bind] in H.
  bind_inv H as data Hdata. bind_inv H as st Hloop.
  destruct st as [[delay' data'] fo8]. injection H as <-.
  cbn [STRFile.preamble STRFile.data STRFile.delay].
  destruct (read_frames_keep _ _ _ _ _ _ _ _ _ _ Hloop)
    as [Hshape [Hwf Hlen]].
  assert (Hpix : 0 <= le_int (slice 0 2 raw)
                 /\ 0 <= le_uint (field_bytes 5 2 pbuf)).
  { unfold np.zeros2 in Hdata.
    destruct (Z.ltb_spec (le_int (slice 0 2 raw)) 0); [discriminate |].
    split; [assumption | apply le_uint_nonneg]. }
  destruct (zeros2_spec _ _ _ Hdata) as [Hshape0 Hwf0].
  exists (le_int (slice 0 2 raw)), (le_uint (field_bytes 5 2 pbuf)).
  split; [apply Hiff; reflexivity |].
  split.
  { subst raw. unfold zlength, field_bytes in Hraw.
    rewrite length_firstn, length_skipn in Hraw. unfold zlength. lia. }
  split; [reflexivity |]. split; [tauto |].
  split; [apply preamble_frames |]. split; [apply preamble_frames |].
  split; [congruence |]. split; [tauto |].
  split.
  { unfold zlength. rewrite Hlen, repeat_length. lia. }
  split; eauto.
Qed.

(** X12: an STR file that parses starts with "STR", is at least 10006 bytes
    long and announces a pixel count that is not negative (the 16-bit value
    at offset 10000).  The parsed file has one delay and one column of data
    per frame of the preamble and one row per pixel; its length and
    [frames] are the frame count; serial number and exposure never fail. *)
Theorem STRFile_parsed (p : platform) (content : list byte) (f : STRFile.t) :
  STRFile.__init__ p content = Ok f ->
  exists pixels frames : Z,
    firstn 3 content = list_byte_of_string "STR"
    /\ 10006 <= zlength content
    /\ pixels = le_int (slice 0 2 (field_bytes 10000 6 content))
    /\ 0 <= pixels
    /\ STRFile.__len__ f = Ok frames /\ STRFile.frames f = Ok frames
    /\ np.shape (STRFile.data f) = (pixels, frames)
    /\ np.well_shaped (STRFile.data f)
    /\ zlength (STRFile.delay f) = frames
    /\ (exists text, STRFile.serial f = Ok (PyStr text))
    /\ (exists bits, STRFile.exposure f = Ok (PyFloat bits)).
Proof. exact (STRFile_init_facts p content f). Qed.

Lemma STRFile_parsed_witness :
  exists f,
    STRFile.__init__ LLP64 (Fixtures.str_two_frames 4) = Ok f
    /\ STRFile.__len__ f = Ok 2
    /\ np.shape (STRFile.data f) = (4, 2).
Proof.
  destruct (STRFile.__init__ LLP64 (Fixtures.str_two_frames 4))
    as [f | e] eqn:E; [| vm_compute in E; discriminate E].
  exists f. split; [reflexivity |].
  destruct (STRFile_parsed LLP64 (Fixtures.str_two_frames 4) f E)
    as (pixels & frames & _ & _ & Hpix & _ & Hlen & _ & Hshape & _).
  assert (Hf : STRFile.__len__ f = Ok 2)
    by (vm_compute in E; injection E as <-; reflexivity).
  rewrite Hf in Hlen. injection Hlen as <-.
  split; [exact Hf |].
  rewrite Hshape, Hpix. vm_compute. reflexivity.
Defined.

(** X13: an STR file shorter than 10006 bytes fails with [struct.error]:
    the six-byte record at offset 10000 cannot be unpacked. *)
Theorem STRFile_too_short (p : platform) (content : list byte) :
  firstn 3 content = list_byte_of_string "STR" ->
  zlength content < 10006 ->
  STRFile.__init__ p content = Raise struct_error.
Proof.
  intros Hstart Hshort.
  unfold STRFile.__init__. cbv zeta.
  destruct (STR_magic content) as [ft [Hft Hiff]].
  pose proof (readinto_content (new STRPreamble) (io.open content)) as Hc0.
  destruct (io.readinto (new STRPreamble) (io.open content))
    as [preamble fo].
  cbn [fst snd] in *.
  rewrite Hft. cbn [bind].
  rewrite (proj2 Hiff Hstart). cbn [negb].
  pose proof (readinto_content (new STRInfoBlock) fo) as Hc1.
  destruct (io.readinto (new STRInfoBlock) fo) as [header fo1].
  cbn [snd] in Hc1.
  change (io.seek 10000 fo1) with (Ok (io.mkReader (io.content fo1) 10000)).
  cbn [bind]. rewrite Hc1, Hc0. cbn [io.open io.content].
  unfold io.read at 1. unfold io.remaining. cbn [io.pos io.content].
  unfold pystruct.unpack_hbhb.
  destruct (Z.eqb_spec
              (zlength (firstn (Z.to_nat 6) (skipn (Z.to_nat 10000) content)))
              6) as [Hraw | _]; [| reflexivity].
  unfold zlength in *. rewrite length_firstn, length_skipn in Hraw. lia.
Qed.

Lemma STRFile_too_short_witness :
  STRFile.__init__ LP64 (list_byte_of_string "STR80") = Raise struct_error.
Proof.
  apply (STRFile_too_short LP64 (list_byte_of_string "STR80"));
    vm_compute; reflexivity.
Defined.

(** ** Frames by index *)

Lemma STR_pixel_range (p : platform) (content : list byte) (f : STRFile.t) :
  STRFile.__init__ p content = Ok f ->
  exists start stop,
    STRFile.StartPixel f = Ok start /\ STRFile.StopPixel f = Ok stop
    /\ 0 <= start /\ 0 <= stop.
Proof.
  intros Hinit.
  destruct (STRFile_init_mapping p content f Hinit) as [buf Hm].
  eexists _, _. split; [apply (block_StartPixel f buf Hm) |].
  split; [apply (block_StopPixel f buf Hm) |].
  split; apply le_uint_nonneg.
Qed.

(** X14: indexing a parsed STR file with a position that fits a signed
    64-bit integer and lies at or beyond the number of frames, or below its
    negative, raises [IndexError] (this is what ends an iteration over the
    file); a negative position in between counts from the end. *)
Theorem STRFile_index_bounds (p : platform) (content : list byte)
  (f : STRFile.t) (fsub : Z -> Z -> Z) (index : Z) :
  STRFile.__init__ p content = Ok f ->
  - 2 ^ 63 <= index < 2 ^ 63 ->
  exists frames,
    STRFile.__len__ f = Ok frames
    /\ (frames <= index \/ index < - frames ->
        STRFile.__getitem__ fsub f index = Raise IndexError)
    /\ (- frames <= index < 0 ->
        STRFile.__getitem__ fsub f index
        = STRFile.__getitem__ fsub f (index + frames)).
Proof.
  intros Hinit Hfits.
  destruct (STRFile_init_facts p content f Hinit)
    as (pixels & frames & _ & _ & _ & _ & Hlen & _ & Hshape & _ & Hdelay & _).
  destruct (STR_pixel_range p content f Hinit)
    as (start & stop & Hstart & Hstop & _).
  exists frames. split; [exact Hlen |].
  unfold STRFile.__getitem__. rewrite Hstart, Hstop. cbn [bind].
  unfold np.column, np.row_slice. cbn [np.shape np.rows snd].
  rewrite Hshape. cbn [snd]. unfold np.normalize_index. cbv zeta.
  assert (Hf : 0 <= frames) by (unfold zlength in Hdelay; lia).
  assert (Hsmall : (2 ^ 63 <=? index) = false) by (apply Z.leb_gt; lia).
  split.
  - intros [Hhigh | Hlow].
    + destruct (Z.ltb_spec index 0) as [Hneg | _]; [lia |].
      destruct (Z.ltb_spec index 0) as [Hneg | _]; [lia |].
      destruct (Z.leb_spec frames index) as [_ | Hin]; [| lia].
      cbn [orb]. rewrite Hsmall. reflexivity.
    + destruct (Z.ltb_spec index 0) as [_ | Hge]; [| lia].
      destruct (Z.ltb_spec (index + frames) 0) as [_ | Hge]; [| lia].
      cbn [orb]. rewrite Hsmall. reflexivity.
  - intros Hi.
    assert (E1 : (index <? 0) = true) by (apply Z.ltb_lt; lia).
    assert (E2 : (index + frames <? 0) = false) by (apply Z.ltb_ge; lia).
    assert (E3 : (frames <=? index + frames) = false)
      by (apply Z.leb_gt; lia).
    rewrite E1, !E2, E3. reflexivity.
Qed.

Lemma STRFile_index_bounds_witness :
  exists f,
    STRFile.__init__ LLP64 (Fixtures.str_two_frames 4) = Ok f
    /\ STRFile.__getitem__ Z.sub f 2 = Raise IndexError
    /\ STRFile.__getitem__ Z.sub f (-1) = STRFile.__getitem__ Z.sub f 1.
Proof.
  destruct (STRFile.__init__ LLP64 (Fixtures.str_two_frames 4))
    as [f | e] eqn:E; [| vm_compute in E; discriminate E].
  exists f. split; [reflexivity |].
  assert (Hf : STRFile.__len__ f = Ok 2)
    by (vm_compute in E; injection E as <-; reflexivity).
  split.
  - destruct (STRFile_index_bounds LLP64 _ f Z.sub 2 E ltac:(lia))
      as (frames & Hlen & Hout & _).
    rewrite Hf in Hlen. injection Hlen as <-. apply Hout. lia.
  - destruct (STRFile_index_bounds LLP64 _ f Z.sub (-1) E ltac:(lia))
      as (frames & Hlen & _ & Hwrap).
    rewrite Hf in Hlen. injection Hlen as <-. apply Hwrap. lia.
Defined.

(** ** The active range of an STR file *)

Lemma nth_error_slice {A} (a b : Z) (xs : list A) (k : nat) :
  0 <= a -> 0 <= b ->
  nth_error (slice a b xs) k
  = if a + Z.of_nat k <? b then nth_error xs (Z.to_nat a + k) else None.
Proof.
  intros Ha Hb. unfold slice. rewrite nth_error_skipn, nth_error_firstn.
  destruct (Z.ltb_spec (a + Z.of_nat k) b) as [Hin | Hout];
    destruct (Nat.ltb_spec (Z.to_nat a + k) (Z.to_nat b)) as [Hin' | Hout'];
    try reflexivity; lia.
Qed.

Lemma zlength_slice {A} (a b : Z) (xs : list A) :
  0 <= a -> 0 <= b ->
  zlength (slice a b xs) = Z.max 0 (Z.min b (zlength xs) - a).
Proof.
  intros Ha Hb. unfold slice, zlength.
  rewrite length_skipn, length_firstn. lia.
Qed.

(** X15: the views of a parsed STR file hold the items at the positions
    StartPixel up to, but not including, StopPixel: item k of [wavelength],
    [dark] and [ref] is item StartPixel + k of the full array while
    StartPixel + k < StopPixel, and there is no further item.  When the
    range lies within the arrays, [pixels] is the length of each view. *)
Theorem STRFile_views (p : platform) (content : list byte) (f : STRFile.t) :
  STRFile.__init__ p content = Ok f ->
  exists (start stop : Z) (w d r : list Z) (s : np.ndarray2),
    STRFile.StartPixel f = Ok start /\ STRFile.StopPixel f = Ok stop
    /\ STRFile.wavelength f = Ok w /\ STRFile.dark f = Ok d
    /\ STRFile.ref f = Ok r /\ STRFile.scope f = Ok s
    /\ (forall k : nat,
          let inside := start + Z.of_nat k <? stop in
          let at_k (xs : list Z) :=
            if inside then nth_error xs (Z.to_nat start + k) else None in
          nth_error w k = at_k (STRFile._wavelength f)
          /\ nth_error d k = at_k (STRFile._dark f)
          /\ nth_error r k = at_k (STRFile._ref f)
          /\ nth_error (np.rows s) k
             = if inside
               then nth_error (np.rows (STRFile.data f)) (Z.to_nat start + k)
               else None)
    /\ (start <= stop ->
        STRFile.pixels f = Ok (stop - start)
        /\ (stop <= zlength (STRFile._wavelength f) ->
            zlength w = stop - start)
        /\ (stop <= zlength (STRFile._dark f) -> zlength d = stop - start)
        /\ (stop <= zlength (STRFile._ref f) -> zlength r = stop - start)
        /\ (stop <= fst (np.shape (STRFile.data f)) ->
            fst (np.shape s) = stop - start)).
Proof.
  intros Hinit.
  destruct (STR_pixel_range p content f Hinit)
    as (start & stop & Hstart & Hstop & Hs0 & Hs1).
  destruct (STRFile_init_facts p content f Hinit)
    as (pixels & frames & _ & _ & _ & _ & _ & _ & Hshape & [Hrows _] & _).
  exists start, stop. do 4 eexists.
  unfold STRFile.wavelength, STRFile.dark, STRFile.ref, STRFile.scope,
    STRFile.pixels.
  rewrite Hstart, Hstop. cbn [bind].
  split; [reflexivity |]. split; [reflexivity |].
  split; [reflexivity |]. split; [reflexivity |].
  split; [reflexivity |]. split; [reflexivity |].
  split.
  - intros k. cbv zeta. unfold np.row_slice. cbn [np.rows].
    rewrite !nth_error_slice by assumption. repeat split.
  - intros Hle. split; [reflexivity |].
    unfold np.row_slice. cbn [np.shape fst].
    rewrite !zlength_slice by assumption. rewrite Hrows.
    repeat split; intros Hfit; lia.
Qed.

Lemma STRFile_views_witness :
  exists f,
    STRFile.__init__ LLP64 (Fixtures.str_two_frames 4) = Ok f
    /\ STRFile.dark f = Ok [5; 6; 7]
    /\ STRFile.pixels f = Ok 3.
Proof.
  destruct (STRFile.__init__ LLP64 (Fixtures.str_two_frames 4))
    as [f | e] eqn:E; [| vm_compute in E; discriminate E].
  exists f. split; [reflexivity |].
  destruct (STRFile_views LLP64 (Fixtures.str_two_frames 4) f E)
    as (start & stop & w & d & r & s & Hstart & Hstop & _ & Hd & _ & _ & _
        & Hpix).
  assert (Hv : STRFile.StartPixel f = Ok 0 /\ STRFile.StopPixel f = Ok 3
               /\ STRFile.dark f = Ok [5; 6; 7]).
  { vm_compute in E. injection E as <-. repeat split. }
  destruct Hv as (H0 & H3 & Hdark).
  rewrite H0 in Hstart. rewrite H3 in Hstop.
  injection Hstart as <-. injection Hstop as <-.
  split; [exact Hdark |].
  apply Hpix. lia.
Defined.

(** ** What [read_file] returns *)

Lemma STRFile_wrong_magic (p : platform) (content : list byte) :
  firstn 3 content <> list_byte_of_string "STR" ->
  STRFile.__init__ p content = Raise AvaReadException.
Proof.
  intros Hne. unfold STRFile.__init__. cbv zeta.
  destruct (STR_magic content) as [ft [Hft Hiff]].
  destruct (io.readinto (new STRPreamble) (io.open content))
    as [preamble fo].
  cbn [fst] in Hft. rewrite Hft. cbn [bind].
  destruct (builtins.bytes_eqb ft (list_byte_of_string "STR")) eqn:Eq;
    [| reflexivity].
  exfalso. apply Hne. apply Hiff. reflexivity.
Qed.

Lemma fmap_Ok {A B} (g : A -> B) (r : result A) (b : B) :
  fmap g r = Ok b -> exists a, r = Ok a /\ b = g a.
Proof.
  destruct r as [a | e]; cbn; [| discriminate].
  intros [= <-]. eauto.
Qed.

(** X16: [read_file] returns a parsed file only for a regular file that
    starts with exactly "AVS" or "STR" in upper case and whose version
    digits read as 80 or more, and what it returns is what the parser of
    that kind makes of the file.  The comparison without regard to case does
    not widen this: a magic in another case passes the test of [read_file]
    and is then refused, with the format error, by the parser. *)
Theorem read_file_returns (p : platform) (path : path_state) :
  (forall r, read_file p path = Ok r ->
     exists content n,
       path = File content
       /\ builtins.int (slice 3 5 (firstn 5 content)) = Ok n /\ 80 <= n
       /\ ((firstn 3 content = list_byte_of_string "AVS"
            /\ exists f, r = IsAVS f /\ AVSFile.__init__ content = Ok f)
           \/ (firstn 3 content = list_byte_of_string "STR"
               /\ exists f, r = IsSTR f
                            /\ STRFile.__init__ p content = Ok f)))
  /\ (forall content fmt n,
        path = File content ->
        builtins.decode (slice 0 3 (firstn 5 content)) = Ok fmt ->
        builtins.int (slice 3 5 (firstn 5 content)) = Ok n ->
        (builtins.upper fmt = builtins.str_of "AVS"
         /\ firstn 3 content <> list_byte_of_string "AVS")
        \/ (builtins.upper fmt = builtins.str_of "STR"
            /\ firstn 3 content <> list_byte_of_string "STR") ->
        read_file p path = Raise AvaReadException).
Proof.
  split.
  - intros r H. destruct path as [| | content]; try discriminate H.
    exists content. rewrite read_file_on_file in H.
    bind_inv H as fmt Hfmt. bind_inv H as n Hn.
    exists n. split; [reflexivity |]. split; [exact Hn |].
    assert (Hver : Qlt_bool (n # 10) (8 # 1) = false -> 80 <= n).
    { intros E.
      destruct (Z.le_gt_cases 80 n) as [Hle | Hgt]; [exact Hle |].
      assert (Hq : (n # 10 < 8 # 1)%Q) by (unfold Qlt; cbn; lia).
      apply Qlt_bool_iff in Hq. congruence. }
    destruct (builtins.str_eqb (builtins.upper fmt) (builtins.str_of "AVS")).
    + destruct (Qlt_bool (n # 10) (8 # 1)) eqn:Ever; [discriminate |].
      split; [apply Hver; reflexivity |]. left.
      apply fmap_Ok in H. destruct H as [f [Hinit ->]].
      split; [| eauto].
      destruct (list_eq_dec Byte.byte_eq_dec (firstn 3 content)
                  (list_byte_of_string "AVS")) as [Heq | Hne];
        [exact Heq |].
      apply (proj1 (AVSFile_init_raises content)) in Hne. congruence.
    + destruct (builtins.str_eqb (builtins.upper fmt)
                  (builtins.str_of "STR")); [| discriminate].
      destruct (Qlt_bool (n # 10) (8 # 1)) eqn:Ever; [discriminate |].
      split; [apply Hver; reflexivity |]. right.
      apply fmap_Ok in H. destruct H as [f [Hinit ->]].
      split; [| eauto].
      destruct (STRFile_init_facts p content f Hinit) as (_ & _ & Hstart & _).
      exact Hstart.
  - intros content fmt n -> Hfmt Hn Hcase.
    rewrite read_file_on_file, Hfmt, Hn. cbn [bind].
    destruct Hcase as [[Hup Hne] | [Hup Hne]]; rewrite Hup.
    + change (builtins.str_eqb (builtins.str_of "AVS") (builtins.str_of "AVS"))
        with true. cbv iota.
      destruct (Qlt_bool (n # 10) (8 # 1)); [reflexivity |].
      rewrite (proj2 (proj1 (AVSFile_init_raises content)) Hne). reflexivity.
    + change (builtins.str_eqb (builtins.str_of "STR") (builtins.str_of "AVS"))
        with false.
      change (builtins.str_eqb (builtins.str_of "STR") (builtins.str_of "STR"))
        with true. cbv iota.
      destruct (Qlt_bool (n # 10) (8 # 1)); [reflexivity |].
      rewrite (STRFile_wrong_magic p content Hne). reflexivity.
Qed.

Lemma read_file_returns_witness :
  (exists f, read_file LLP64 (File Fixtures.avs_one_channel) = Ok (IsAVS f))
  /\ read_file LLP64 (File (list_byte_of_string "avs80" ++ [x01]))
     = Raise AvaReadException.
Proof.
  split.
  - destruct (read_file LLP64 (File Fixtures.avs_one_channel))
      as [r | e] eqn:E; [| vm_compute in E; discriminate E].
    destruct (proj1 (read_file_returns LLP64 (File Fixtures.avs_one_channel))
                r E)
      as (content & n & Hpath & _ & _ & [[_ [f [-> _]]] | [Hstr _]]).
    + exists f. reflexivity.
    + injection Hpath as <-. vm_compute in Hstr. discriminate Hstr.
  - apply (proj2 (read_file_returns LLP64
                    (File (list_byte_of_string "avs80" ++ [x01])))
             _ (builtins.str_of "avs") 80 eq_refl);
      try reflexivity.
    left. split; [reflexivity | vm_compute; discriminate].
Defined.

(** ** What [read_file] raises before it looks at the magic bytes *)

Lemma prelude_magic (content : list byte) :
  slice 0 3 (firstn 5 content) = firstn 3 content.
Proof.
  unfold slice. change (Z.to_nat 0) with 0%nat. change (Z.to_nat 3) with 3%nat.
  cbn [skipn]. rewrite firstn_firstn. reflexivity.
Qed.

Lemma decode_raises (bs : list byte) (e : exn) :
  builtins.decode bs = Raise e -> e = UnicodeDecodeError.
Proof.
  unfold builtins.decode. cbv zeta.
  destruct (forallb _ _); [discriminate |].
  intros [= <-]. reflexivity.
Qed.

Lemma int_raises (bs : list byte) (e : exn) :
  builtins.int bs = Raise e -> e = ValueError.
Proof.
  unfold builtins.int. cbv zeta.
  repeat match goal with
         | |- context [match ?x with _ => _ end] => destruct x
         end;
    intros H; try discriminate H; injection H as <-; reflexivity.
Qed.

(** C5: [read_file] decodes the magic bytes and converts the version bytes
    before it tests either.  Whenever the first three bytes of a file are not
    UTF-8 it raises [UnicodeDecodeError], on a file that both parsers refuse
    with the format error; whenever the version bytes are not a number it
    raises [ValueError], whatever the magic bytes are, also where the magic
    is unknown to both parsers.  Neither exception is the format error. *)
Theorem read_file_fails_before_magic_test (p : platform)
  (content : list byte) :
  (forall e,
     builtins.decode (slice 0 3 (firstn 5 content)) = Raise e ->
     read_file p (File content) = Raise UnicodeDecodeError
     /\ AVSFile.__init__ content = Raise AvaReadException
     /\ STRFile.__init__ p content = Raise AvaReadException)
  /\ (forall fmt e,
        builtins.decode (slice 0 3 (firstn 5 content)) = Ok fmt ->
        builtins.int (slice 3 5 (firstn 5 content)) = Raise e ->
        read_file p (File content) = Raise ValueError
        /\ (firstn 3 content <> list_byte_of_string "AVS" ->
            AVSFile.__init__ content = Raise AvaReadException)
        /\ (firstn 3 content <> list_byte_of_string "STR" ->
            STRFile.__init__ p content = Raise AvaReadException))
  /\ issubclass UnicodeDecodeError AvaReadException = false
  /\ issubclass ValueError AvaReadException = false.
Proof.
  split; [| split; [| split; reflexivity]].
  - intros e Hdec.
    pose proof (decode_raises _ _ Hdec) as ->.
    split; [rewrite read_file_on_file, Hdec; reflexivity |].
    rewrite prelude_magic in Hdec.
    split.
    + apply (proj1 (AVSFile_init_raises content)).
      intros Heq. rewrite Heq in Hdec. vm_compute in Hdec. discriminate Hdec.
    + apply STRFile_wrong_magic.
      intros Heq. rewrite Heq in Hdec. vm_compute in Hdec. discriminate Hdec.
  - intros fmt e Hdec Hint.
    pose proof (int_raises _ _ Hint) as ->.
    split; [rewrite read_file_on_file, Hdec, Hint; reflexivity |].
    split.
    + apply (proj1 (AVSFile_init_raises content)).
    + apply STRFile_wrong_magic.
Qed.

Lemma read_file_fails_before_magic_test_witness :
  read_file LP64 (File ([xff; xfe; xfd] ++ list_byte_of_string "80"))
  = Raise UnicodeDecodeError
  /\ AVSFile.__init__ ([xff; xfe; xfd] ++ list_byte_of_string "80")
     = Raise AvaReadException
  /\ STRFile.__init__ LP64 ([xff; xfe; xfd] ++ list_byte_of_string "80")
     = Raise AvaReadException
  /\ read_file LP64 (File []) = Raise ValueError
  /\ AVSFile.__init__ [] = Raise AvaReadException.
Proof.
  destruct (read_file_fails_before_magic_test LP64
              ([xff; xfe; xfd] ++ list_byte_of_string "80"))
    as [Hmagic _].
  destruct (Hmagic UnicodeDecodeError) as [Hread [Havs Hstr]];
    [vm_compute; reflexivity |].
  destruct (read_file_fails_before_magic_test LP64 []) as [_ [Hversion _]].
  destruct (Hversion [] ValueError) as [Hempty [Hparser _]];
    [vm_compute; reflexivity | vm_compute; reflexivity |].
  split; [exact Hread |]. split; [exact Havs |]. split; [exact Hstr |].
  split; [exact Hempty |].
  apply Hparser. vm_compute. discriminate.
Defined.

(** ** A frame that the file does not hold completely *)

Lemma zlength_remaining (fo : io.BufferedReader) :
  0 <= io.pos fo ->
  zlength (io.remaining fo) = Z.max 0 (zlength (io.content fo) - io.pos fo).
Proof.
  intros Hpos. unfold io.remaining, zlength. rewrite length_skipn. lia.
Qed.

(** A read that reaches the end of the file returns what is left. *)
Lemma fromfile_short (itemsize count : Z) (fo : io.BufferedReader) :
  0 < itemsize -> 0 <= count -> 0 <= io.pos fo ->
  io.pos fo <= zlength (io.content fo) ->
  zlength (io.content fo) - io.pos fo < count * itemsize ->
  np.fromfile itemsize count fo
  = (map le_uint
       (chunks (Z.to_nat ((zlength (io.content fo) - io.pos fo) / itemsize))
          itemsize (io.remaining fo)),
     io.mkReader (io.content fo) (zlength (io.content fo))).
Proof.
  intros Hsize Hcount Hpos Hin Hshort.
  pose proof (zlength_remaining fo Hpos) as Hrem.
  unfold np.fromfile. cbv zeta.
  destruct (Z.ltb_spec count 0) as [Hneg | _]; [lia |].
  unfold io.read.
  rewrite firstn_all2 by (unfold zlength in *; lia).
  rewrite Hrem.
  replace (Z.max 0 (zlength (io.content fo) - io.pos fo))
    with (zlength (io.content fo) - io.pos fo) by lia.
  replace (io.pos fo + (zlength (io.content fo) - io.pos fo))
    with (zlength (io.content fo)) by lia.
  reflexivity.
Qed.

Lemma map_set_same (i : nat) (x m : Z) (rs : list (list Z)) :
  Forall (fun row => zlength row = m) rs -> Z.of_nat i < m ->
  map (fun row => nth i (np.list_set i x row) 0) rs
  = repeat x (List.length rs).
Proof.
  intros Hall Hi. induction Hall as [| row rs Hrow _ IH];
    cbn [map List.length repeat]; [reflexivity |].
  rewrite nth_list_set_same by (unfold zlength in Hrow; lia).
  rewrite IH. reflexivity.
Qed.

Lemma column_after_broadcast (a : np.ndarray2) (i : nat) (x : Z) :
  np.well_shaped a -> Z.of_nat i < snd (np.shape a) ->
  np.column (np.mkArray2 (np.shape a) (map (np.list_set i x) (np.rows a)))
    (Z.of_nat i)
  = Ok (repeat x (Z.to_nat (fst (np.shape a)))).
Proof.
  intros [Hrows Hall] Hi.
  rewrite column_at by (cbn [np.shape]; assumption).
  cbn [np.rows]. rewrite map_map.
  rewrite (map_set_same i x (snd (np.shape a))) by assumption.
  rewrite <- Hrows. unfold zlength. rewrite Nat2Z.id. reflexivity.
Qed.

(** X17: a frame cut short by the end of the file.  When not even the delay
    is complete the loop raises [struct.error].  When the delay is complete
    and fewer than [pixels] samples follow, the loop raises [ValueError],
    with one exception: if exactly one complete sample follows, the frame is
    accepted and that sample fills the whole column. *)
Theorem read_frame_truncated (p : platform) (pixels : Z) (i : nat)
  (delay : list Q) (data : np.ndarray2) (fo : io.BufferedReader) :
  let width := sizeof_c_long p in
  let left := zlength (io.content fo) - io.pos fo in
  let complete := (left - width) / 8 in
  0 < width -> 0 <= pixels -> 0 <= io.pos fo ->
  np.well_shaped data -> fst (np.shape data) = pixels ->
  Z.of_nat i < snd (np.shape data) ->
  (left < width ->
   STRFile.read_frame p pixels i (delay, data, fo) = Raise struct_error)
  /\ (width <= left < width + pixels * 8 ->
      (complete <> 1 ->
       STRFile.read_frame p pixels i (delay, data, fo) = Raise ValueError)
      /\ (complete = 1 ->
          exists delay' data' fo',
            STRFile.read_frame p pixels i (delay, data, fo)
            = Ok (delay', data', fo')
            /\ np.column data' (Z.of_nat i)
               = Ok (repeat
                       (le_uint (field_bytes (io.pos fo + width) 8
                                   (io.content fo)))
                       (Z.to_nat pixels)))).
Proof.
  cbv zeta. intros HL Hpix Hpos Hwf Hrows Hi.
  pose proof (zlength_remaining fo Hpos) as Hrem.
  unfold STRFile.read_frame.
  change (sizeof_on p c_long) with (sizeof_c_long p).
  change (sizeof c_double) with 8.
  split.
  - intros Hshort. unfold io.read, pystruct.unpack_l.
    change (sizeof_on p c_long) with (sizeof_c_long p).
    destruct (Z.eqb_spec
                (zlength (firstn (Z.to_nat (sizeof_c_long p))
                            (io.remaining fo)))
                (sizeof_c_long p)) as [Heq | _]; [| reflexivity].
    unfold zlength in *. rewrite length_firstn in Heq. lia.
  - intros [Hdelay Hcut].
    rewrite read_exact by lia.
    unfold pystruct.unpack_l.
    change (sizeof_on p c_long) with (sizeof_c_long p).
    rewrite zlength_field_bytes by lia.
    rewrite Z.eqb_refl. cbn [bind].
    rewrite fromfile_short by (cbn [io.pos io.content]; lia).
    cbn [io.pos io.content].
    replace (zlength (io.content fo) - (io.pos fo + sizeof_c_long p))
      with (zlength (io.content fo) - io.pos fo - sizeof_c_long p) by lia.
    set (k := (zlength (io.content fo) - io.pos fo - sizeof_c_long p) / 8).
    assert (Hk : 0 <= k < pixels).
    { subst k. split; [apply Z.div_pos; lia |].
      apply Z.div_lt_upper_bound; lia. }
    unfold np.set_column. cbv zeta. rewrite length_map_chunks.
    rewrite Z2Nat.id by lia. rewrite Hrows.
    destruct (Z.eqb_spec k pixels) as [Heq | _]; [lia |].
    split.
    + intros Hne. destruct (Z.eqb_spec k 1) as [Heq | _]; [lia |].
      reflexivity.
    + intros H1. rewrite H1. cbn [Z.eqb Pos.eqb bind].
      eexists _, _, _. split; [reflexivity |].
      change (Z.to_nat 1) with 1%nat. cbn [chunks map hd].
      rewrite <- Hrows.
      change (firstn (Z.to_nat 8)
                (io.remaining
                   (io.mkReader (io.content fo)
                      (io.pos fo + sizeof_c_long p))))
        with (field_bytes (io.pos fo + sizeof_c_long p) 8 (io.content fo)).
      apply column_after_broadcast; assumption.
Qed.

Lemma read_frame_truncated_witness :
  exists delay' data' fo',
    STRFile.read_frame LLP64 2 0
      ([(0 # 1)%Q], np.mkArray2 (2, 1) [[0]; [0]],
       io.open (Fixtures.le_bytes 4 250 ++ Fixtures.le_bytes 8 7))
    = Ok (delay', data', fo')
    /\ np.column data' 0 = Ok [7; 7].
Proof.
  destruct (read_frame_truncated LLP64 2 0 [(0 # 1)%Q]
              (np.mkArray2 (2, 1) [[0]; [0]])
              (io.open (Fixtures.le_bytes 4 250 ++ Fixtures.le_bytes 8 7)))
    as [_ H]; try (vm_compute; congruence); try reflexivity.
  { split; [reflexivity |]. repeat constructor. }
  destruct H as [_ H]; [vm_compute; split; congruence |].
  destruct H as (delay' & data' & fo' & Hrun & Hcol);
    [vm_compute; reflexivity |].
  exists delay', data', fo'. split; [exact Hrun |].
  change (Z.of_nat 0) with 0 in Hcol. rewrite Hcol. vm_compute. reflexivity.
Defined.

(** ** The layout of an STR file *)

Lemma field_bytes_nested (off size off0 size0 : Z) (buf : list byte) :
  0 <= off -> 0 <= size -> 0 <= off0 -> off + size <= size0 ->
  field_bytes off size (field_bytes off0 size0 buf)
  = field_bytes (off0 + off) size buf.
Proof.
  intros Hoff Hsize Hoff0 Hfit. unfold field_bytes.
  rewrite skipn_firstn_comm, firstn_firstn, skipn_skipn.
  replace (Init.Nat.min (Z.to_nat size) (Z.to_nat size0 - Z.to_nat off))
    with (Z.to_nat size) by lia.
  replace (Z.to_nat off + Z.to_nat off0)%nat with (Z.to_nat (off0 + off))
    by lia.
  reflexivity.
Qed.

(** X18: an STR file that starts with "STR" and is long enough for what it
    announces parses, on any platform, and its parts come from these
    places: the frame count from bytes 5-6, the pixel count from offset
    10000; after the six-byte record and a skipped block of pixels * 8
    bytes come the wavelengths, the dark and the reference array, each of
    [pixels] doubles; behind them the frames, frame k giving delay k and
    column k of the data. *)
Theorem STRFile_layout (p : platform) (content : list byte) :
  let pixels := le_int (slice 0 2 (field_bytes 10000 6 content)) in
  let frames := le_uint (field_bytes 5 2 content) in
  let width := sizeof_c_long p in
  let doubles (off : Z) :=
    map le_uint (chunks (Z.to_nat pixels) 8
                   (field_bytes off (pixels * 8) content)) in
  let base := 10006 + 4 * (pixels * 8) in
  firstn 3 content = list_byte_of_string "STR" ->
  0 <= pixels -> 0 < width ->
  base + frames * frame_stride width pixels <= zlength content ->
  exists f,
    STRFile.__init__ p content = Ok f
    /\ STRFile.__len__ f = Ok frames
    /\ STRFile._wavelength f = doubles (10006 + pixels * 8)
    /\ STRFile._dark f = doubles (10006 + 2 * (pixels * 8))
    /\ STRFile._ref f = doubles (10006 + 3 * (pixels * 8))
    /\ forall k : nat, Z.of_nat k < frames ->
         nth_error (STRFile.delay f) k
         = Some (frame_delay_at width pixels base k content)
         /\ np.column (STRFile.data f) (Z.of_nat k)
            = Ok (frame_samples_at width pixels base k content).
Proof.
  cbv zeta. intros Hstart Hpix HL Hfit.
  set (pixels := le_int (slice 0 2 (field_bytes 10000 6 content))) in *.
  set (frames := le_uint (field_bytes 5 2 content)) in *.
  assert (Hframes : 0 <= frames) by apply le_uint_nonneg.
  assert (Hstride : 0 <= frame_stride (sizeof_c_long p) pixels)
    by (unfold frame_stride; lia).
  assert (Hlen : 10006 + 4 * (pixels * 8) <= zlength content) by nia.
  unfold STRFile.__init__. cbv zeta.
  destruct (STR_magic content) as [ft [Hft Hiff]].
  rewrite readinto_exact in Hft |- *
    by (change (zlength (buffer (new STRPreamble))) with 7;
        cbn [io.open io.pos io.content]; lia).
  change (zlength (buffer (new STRPreamble))) with 7 in *.
  change (ctype_of (new STRPreamble)) with STRPreamble in *.
  cbn [fst io.open io.pos io.content] in *.
  rewrite Hft. cbn [bind]. rewrite (proj2 Hiff Hstart). cbn [negb].
  rewrite readinto_exact
    by (change (zlength (buffer (new STRInfoBlock))) with 329;
        cbn [io.pos io.content]; lia).
  change (zlength (buffer (new STRInfoBlock))) with 329.
  cbn [io.pos io.content].
  change (io.seek 10000 (io.mkReader content (0 + 7 + 329)))
    with (Ok (io.mkReader content 10000)).
  cbn [bind].
  rewrite read_exact by (cbn [io.pos io.content]; lia).
  cbn [io.pos io.content].
  unfold pystruct.unpack_hbhb. rewrite zlength_field_bytes by lia.
  cbn [Z.eqb Pos.eqb bind]. fold pixels.
  change (sizeof c_double) with 8.
  unfold io.seek_cur, io.seek. cbn [io.pos io.content].
  destruct (Z.ltb_spec (10000 + 6 + pixels * 8) 0) as [Hneg | _]; [lia |].
  cbn [bind].
  rewrite fromfile_exact by (cbn [io.pos io.content]; lia).
  cbn [io.pos io.content].
  rewrite fromfile_exact by (cbn [io.pos io.content]; lia).
  cbn [io.pos io.content].
  rewrite fromfile_exact by (cbn [io.pos io.content]; lia).
  cbn [io.pos io.content].
  rewrite preamble_frames.
  rewrite field_bytes_nested by lia. change (0 + 5) with 5.
  cbn [bind]. fold frames.
  destruct (np.zeros2 pixels frames) as [data | e] eqn:Hzeros.
  2: { unfold np.zeros2 in Hzeros.
       destruct (Z.ltb_spec pixels 0); [lia |].
       destruct (Z.ltb_spec frames 0); [lia |]. discriminate Hzeros. }
  cbn [bind].
  destruct (zeros2_spec _ _ _ Hzeros) as [Hshape Hwf].
  destruct (read_frames_spec p pixels (Z.to_nat frames) 0
              (repeat (0 # 1)%Q (Z.to_nat frames)) data
              (io.mkReader content
                 (10000 + 6 + pixels * 8 + pixels * 8 + pixels * 8
                  + pixels * 8)))
    as (delay' & data' & Hloop & _ & _ & _ & Hnew & _);
    cbn [io.pos io.content]; try assumption; try lia;
    try (rewrite Hshape; cbn [fst snd]; lia);
    try (rewrite repeat_length; lia).
  cbn [io.pos io.content] in Hloop, Hnew.
  rewrite Hloop. cbn [bind].
  eexists. split; [reflexivity |].
  cbn [STRFile.__len__ STRFile.preamble STRFile._wavelength STRFile._dark
       STRFile._ref STRFile.delay STRFile.data].
  split.
  { unfold STRFile.__len__. cbn [STRFile.preamble].
    rewrite preamble_frames, field_bytes_nested by lia. reflexivity. }
  split; [do 3 f_equal; lia |].
  split; [do 3 f_equal; lia |].
  split; [do 3 f_equal; lia |].
  intros k Hk. destruct (Hnew k ltac:(lia)) as [Hd Hc].
  cbn [Nat.add] in Hd, Hc.
  replace (10006 + 4 * (pixels * 8))
    with (10000 + 6 + pixels * 8 + pixels * 8 + pixels * 8 + pixels * 8)
    by lia.
  split; assumption.
Qed.

Lemma STRFile_layout_witness :
  exists f,
    STRFile.__init__ LP64 (Fixtures.str_two_frames 8) = Ok f
    /\ STRFile._dark f = [5; 6; 7; 8]
    /\ nth_error (STRFile.delay f) 1 = Some (250 # 100)%Q
    /\ np.column (STRFile.data f) 1 = Ok [11; 21; 31; 41].
Proof.
  destruct (STRFile_layout LP64 (Fixtures.str_two_frames 8))
    as (f & Hinit & _ & _ & Hdark & _ & Hframes);
    try (vm_compute; congruence); try reflexivity.
  exists f. split; [exact Hinit |].
  split; [rewrite Hdark; vm_compute; reflexivity |].
  destruct (Hframes 1%nat) as [Hd Hc]; [vm_compute; reflexivity |].
  split; [rewrite Hd | change 1 with (Z.of_nat 1); rewrite Hc];
    vm_compute; reflexivity.
Defined.
